(** * Planner AI quiz core: normalisation, progress ledger and quiz session

    A shallow embedding of [streamlit_chatbot_planner.py]:
    - [gen_quiz] from the point where the model's text is in hand
      (fence stripping, JSON parsing with one recovery attempt, key aliasing,
      the per-item loop);
    - [update_progress], the ledger kept in [st.session_state["progress"]];
    - [render_quiz_area], one script run of the quiz page per user action;
    - around these: [load_prompts], [ensure_state] and [reset_all] on the
      whole session dictionary, [_parse_ver] and the SDK version guard, the
      MIME type [main] and [upload_to_gemini] settle on, the contents
      [gen_chat_response] sends and the chat turn of [render_chat_area], the
      summary of [show_progress] and the ids [render_review_area] collects.

    Python objects are modelled as the untyped tree [value]; a [dict] is an
    association list in insertion order (the order is observable through the
    error messages that print the item).  Strings are sequences of ASCII
    characters.  Display-only Streamlit calls ([st.write], [st.warning],
    [st.success], ...) change nothing that is read back and are left out;
    [st.rerun()] ends the current script run and is modelled as such. *)

From Stdlib Require Import Bool List ZArith QArith Lia.
From Stdlib Require Import Ascii String DecimalString DecimalPos DecimalZ FinFun.
Import ListNotations.

Local Open Scope string_scope.
Local Open Scope Z_scope.

#[local] Set Warnings "-register-all".

(** ** Python values *)

Module Py.

(** A Python [float]: its exact value (what [==] compares) and the text
    [str()] prints for it. *)
Record pyfloat := mkFloat { fl_value : Q; fl_repr : string }.

Inductive value :=
| PyNone
| PyBool (b : bool)
| PyInt (n : Z)
| PyFloat (f : pyfloat)
| PyStr (s : string)
| PyList (l : list value)
| PyDict (d : list (string * value)).

(** [json.JSONDecodeError]: message and position. *)
Inductive JSONDecodeError := DecodeError (msg : string) (pos : nat).

(** The texts of the [ValueError]s raised by [gen_quiz].  Each f-string is
    kept as its template (the constructor) and the values it interpolates. *)
Inductive message :=
| MsgParse (output : string) (e : JSONDecodeError)
    (* "Gagal parse JSON kuis dari model. Output: {text[:500]}... Error: {e}" *)
| MsgNoItems (data : value)
    (* "JSON kuis tidak memiliki 'items' yang valid. Data: {quiz_data}" *)
| MsgNoQuestion (i : nat) (item : value)
    (* "Item {i} tidak memiliki 'question'. Data: {item}" *)
| MsgBadOptions (i : nat) (item : value)
    (* "Item {i} tidak memiliki 4 opsi valid. Data: {item}" *)
| MsgBadCorrectAnswer (i : nat) (corr_ans : string)
    (* "Item {i} correct_answer tidak valid: {corr_ans}" *)
| MsgBadAnswerIndex (i : nat) (item : value)
    (* "Item {i} tidak memiliki answer_index valid (0-3). Data: {item}" *)
| MsgChrRange
    (* "chr() arg not in range(0x110000)", raised by the builtin *)
| MsgIntDigits (digits : nat).
    (* "Exceeds the limit (4300 digits) for integer string conversion: value
       has {digits} digits; use sys.set_int_max_str_digits() to increase the
       limit", raised by the builtin [int] *)

Inductive exn :=
| ValueError (m : message)
| TypeError
| AttributeError
| KeyError (k : value)
| IndexError
| OverflowError
| RecursionError.

(** What a call of [json.loads] does: it returns the decoded value, raises
    [json.JSONDecodeError], or raises an exception of another class, which
    the [except json.JSONDecodeError] clauses of [gen_quiz] let through:
    [RecursionError] on a text nested too deep, the plain [ValueError] of
    [int] on an integer literal with more digits than it converts. *)
Inductive decoded :=
| Decoded (quiz_data : value)
| NotJson (e : JSONDecodeError)
| Uncaught (e : exn).

Inductive result (A : Type) :=
| Ok (a : A)
| Raise (e : exn).
Arguments Ok {A} a.
Arguments Raise {A} e.

Definition bind {A B} (r : result A) (k : A -> result B) : result B :=
  match r with
  | Ok a => k a
  | Raise e => Raise e
  end.

Notation "x <- c ;; k" := (bind c (fun x => k))
  (at level 61, c at next level, right associativity).
Notation "' p <- c ;; k" := (bind c (fun x => let p := x in k))
  (at level 61, p pattern, c at next level, right associativity).

(** *** Strings *)

Definition is_space (c : ascii) : bool :=
  let n := nat_of_ascii c in
  ((9 <=? n)%nat && (n <=? 13)%nat) || ((28 <=? n)%nat && (n <=? 32)%nat).

Fixpoint lstrip (s : string) : string :=
  match s with
  | String c s' => if is_space c then lstrip s' else s
  | EmptyString => EmptyString
  end.

Fixpoint rev_string (s acc : string) : string :=
  match s with
  | EmptyString => acc
  | String c s' => rev_string s' (String c acc)
  end.

Definition rstrip (s : string) : string :=
  rev_string (lstrip (rev_string s "")) "".

(** [s.strip()] *)
Definition strip (s : string) : string := rstrip (lstrip s).

Definition upper_char (c : ascii) : ascii :=
  let n := nat_of_ascii c in
  if ((97 <=? n) && (n <=? 122))%nat then ascii_of_nat (n - 32) else c.

(** [s.upper()] *)
Fixpoint upper (s : string) : string :=
  match s with
  | EmptyString => EmptyString
  | String c s' => String (upper_char c) (upper s')
  end.

(** [s.startswith(p)] *)
Definition startswith (s p : string) : bool := String.prefix p s.

(** [s.endswith(p)] *)
Definition endswith (s p : string) : bool :=
  String.prefix (rev_string p "") (rev_string s "").

(** [s[:n]] for [n >= 0] *)
Definition take (n : nat) (s : string) : string := String.substring 0 n s.

(** [s[n:]] for [n >= 0] *)
Definition drop (n : nat) (s : string) : string :=
  String.substring n (String.length s - n) s.

(** [s[:-n]] for [n > 0] *)
Definition drop_end (n : nat) (s : string) : string :=
  take (String.length s - n) s.

(** [sub in s] on strings: substring test. *)
Fixpoint str_contains (sub s : string) : bool :=
  String.prefix sub s ||
  match s with
  | EmptyString => false
  | String _ s' => str_contains sub s'
  end.

(** [str(n)] for an [int]. *)
Definition str_int (n : Z) : string := NilZero.string_of_int (Z.to_int n).

(** *** Python equality *)

Definition as_number (v : value) : option Q :=
  match v with
  | PyBool b => Some (inject_Z (Z.b2z b))
  | PyInt n => Some (inject_Z n)
  | PyFloat f => Some (fl_value f)
  | _ => None
  end.

Fixpoint assoc {A} (k : string) (d : list (string * A)) : option A :=
  match d with
  | [] => None
  | (k', v) :: d' => if String.eqb k' k then Some v else assoc k d'
  end.

(** [a == b].  [bool], [int] and [float] compare by value; dicts compare as
    key/value sets. *)
Fixpoint py_eq (a b : value) : bool :=
  match a, b with
  | PyNone, PyNone => true
  | PyStr s, PyStr t => String.eqb s t
  | PyList l, PyList m =>
      (fix go (l m : list value) : bool :=
         match l, m with
         | [], [] => true
         | x :: l', y :: m' => py_eq x y && go l' m'
         | _, _ => false
         end) l m
  | PyDict d, PyDict e =>
      Nat.eqb (List.length d) (List.length e) &&
      (fix go (d : list (string * value)) : bool :=
         match d with
         | [] => true
         | (k, v) :: d' =>
             match assoc k e with
             | Some w => py_eq v w
             | None => false
             end && go d'
         end) d
  | _, _ =>
      match as_number a, as_number b with
      | Some x, Some y => Qeq_bool x y
      | _, _ => false
      end
  end.

(** *** [str()] and [repr()] *)

Definition backslash : ascii := ascii_of_nat 92.
Definition dquote : ascii := ascii_of_nat 34.
Definition squote : ascii := ascii_of_nat 39.

Definition hex_digit (n : nat) : ascii :=
  nth n (list_ascii_of_string "0123456789abcdef") "0"%char.

Definition repr_char (q c : ascii) : string :=
  let n := nat_of_ascii c in
  if Ascii.eqb c backslash then String backslash (String backslash "")
  else if Ascii.eqb c q then String backslash (String q "")
  else if (n =? 10)%nat then String backslash "n"
  else if (n =? 13)%nat then String backslash "r"
  else if (n =? 9)%nat then String backslash "t"
  else if ((n <? 32) || (127 <=? n))%nat
       then String backslash
              (String "x" (String (hex_digit (n / 16)) (String (hex_digit (n mod 16)) "")))
  else String c "".

Fixpoint repr_chars (q : ascii) (s : string) : string :=
  match s with
  | EmptyString => EmptyString
  | String c s' => repr_char q c ++ repr_chars q s'
  end.

(** [repr(s)] of a [str]: single quotes, unless the text has a single quote
    and no double quote. *)
Definition repr_str (s : string) : string :=
  let q := if str_contains (String squote "") s && negb (str_contains (String dquote "") s)
           then dquote else squote in
  String q (repr_chars q s ++ String q "").

Fixpoint repr (v : value) : string :=
  match v with
  | PyNone => "None"
  | PyBool true => "True"
  | PyBool false => "False"
  | PyInt n => str_int n
  | PyFloat f => fl_repr f
  | PyStr s => repr_str s
  | PyList l =>
      "[" ++
      (fix go (l : list value) : string :=
         match l with
         | [] => ""
         | x :: l' => repr x ++ match l' with [] => "" | _ => ", " ++ go l' end
         end) l ++ "]"
  | PyDict d =>
      "{" ++
      (fix go (d : list (string * value)) : string :=
         match d with
         | [] => ""
         | (k, x) :: d' =>
             repr_str k ++ ": " ++ repr x ++
             match d' with [] => "" | _ => ", " ++ go d' end
         end) d ++ "}"
  end.

(** [str(v)], what an f-string interpolates. *)
Definition str (v : value) : string :=
  match v with
  | PyStr s => s
  | _ => repr v
  end.

(** *** Dictionaries in insertion order *)

Definition dict := list (string * value).

Definition dict_mem (k : string) (d : dict) : bool :=
  match assoc k d with Some _ => true | None => false end.

Fixpoint dict_remove (k : string) (d : dict) : dict :=
  match d with
  | [] => []
  | (k', v) :: d' => if String.eqb k' k then d' else (k', v) :: dict_remove k d'
  end.

(** [d[k] = v]: an existing key keeps its place, a new key goes last. *)
Fixpoint dict_set (k : string) (v : value) (d : dict) : dict :=
  match d with
  | [] => [(k, v)]
  | (k', v') :: d' =>
      if String.eqb k' k then (k', v) :: d' else (k', v') :: dict_set k v d'
  end.

(** *** Operations on values of unknown type, with the exception Python raises *)

(** [k in v] for a [str] key [k]. *)
Definition py_in (k : string) (v : value) : result bool :=
  match v with
  | PyDict d => Ok (dict_mem k d)
  | PyList l => Ok (existsb (fun x => py_eq x (PyStr k)) l)
  | PyStr s => Ok (str_contains k s)
  | _ => Raise TypeError
  end.

(** [v[k]] for a [str] key [k]. *)
Definition py_getitem (v : value) (k : string) : result value :=
  match v with
  | PyDict d => match assoc k d with Some x => Ok x | None => Raise (KeyError (PyStr k)) end
  | _ => Raise TypeError
  end.

(** [v.get(k)] *)
Definition py_get (v : value) (k : string) : result value :=
  match v with
  | PyDict d => match assoc k d with Some x => Ok x | None => Ok PyNone end
  | _ => Raise AttributeError
  end.

(** [v[k] = x] *)
Definition py_setitem (v : value) (k : string) (x : value) : result value :=
  match v with
  | PyDict d => Ok (PyDict (dict_set k x d))
  | _ => Raise TypeError
  end.

(** [v.pop(k)]: the popped value and the container left. *)
Definition py_pop (v : value) (k : string) : result (value * value) :=
  match v with
  | PyDict d =>
      match assoc k d with
      | Some x => Ok (x, PyDict (dict_remove k d))
      | None => Raise (KeyError (PyStr k))
      end
  | PyList _ => Raise TypeError
  | _ => Raise AttributeError
  end.

(** [del v[k]] *)
Definition py_delitem (v : value) (k : string) : result value :=
  match v with
  | PyDict d =>
      match assoc k d with
      | Some _ => Ok (PyDict (dict_remove k d))
      | None => Raise (KeyError (PyStr k))
      end
  | _ => Raise TypeError
  end.

(** [len(v)] *)
Definition py_len (v : value) : result Z :=
  match v with
  | PyStr s => Ok (Z.of_nat (String.length s))
  | PyList l => Ok (Z.of_nat (List.length l))
  | PyDict d => Ok (Z.of_nat (List.length d))
  | _ => Raise TypeError
  end.

(** [v.strip().upper()] *)
Definition py_strip_upper (v : value) : result string :=
  match v with
  | PyStr s => Ok (upper (strip s))
  | _ => Raise AttributeError
  end.

(** [ord(s)] *)
Definition py_ord (s : string) : result Z :=
  match s with
  | String c EmptyString => Ok (Z.of_nat (nat_of_ascii c))
  | _ => Raise TypeError
  end.

(** [isinstance(v, int)]: [bool] is a subclass of [int]. *)
Definition isinstance_int (v : value) : bool :=
  match v with
  | PyInt _ | PyBool _ => true
  | _ => false
  end.

(** [isinstance(v, dict)], [isinstance(v, list)] *)
Definition isinstance_dict (v : value) : bool :=
  match v with PyDict _ => true | _ => false end.
Definition isinstance_list (v : value) : bool :=
  match v with PyList _ => true | _ => false end.

(** [bool(v)], the truth value tested by [not v]. *)
Definition truthy (v : value) : bool :=
  match v with
  | PyNone => false
  | PyBool b => b
  | PyInt n => negb (n =? 0)
  | PyFloat f => negb (Qeq_bool (fl_value f) 0)
  | PyStr s => negb (String.eqb s "")
  | PyList l => match l with [] => false | _ => true end
  | PyDict d => match d with [] => false | _ => true end
  end.

(** The integer an [int] or [bool] stands for. *)
Definition as_int (v : value) : option Z :=
  match v with
  | PyInt n => Some n
  | PyBool b => Some (Z.b2z b)
  | _ => None
  end.

(** [hash(v)] succeeds: lists and dicts cannot be dictionary keys. *)
Definition hashable (v : value) : bool :=
  match v with
  | PyList _ | PyDict _ => false
  | _ => true
  end.

(** A position counted from the end when negative, as in [l[i]]. *)
Definition position (len i : Z) : option nat :=
  if (0 <=? i) && (i <? len) then Some (Z.to_nat i)
  else if (- len <=? i) && (i <? 0) then Some (Z.to_nat (len + i))
  else None.

(** [v[i]] for an index [i] of unknown type. *)
Definition py_index (v i : value) : result value :=
  match v with
  | PyList l =>
      match as_int i with
      | Some n =>
          match position (Z.of_nat (List.length l)) n with
          | Some k => match nth_error l k with Some x => Ok x | None => Raise IndexError end
          | None => Raise IndexError
          end
      | None => Raise TypeError
      end
  | PyStr s =>
      match as_int i with
      | Some n =>
          match position (Z.of_nat (String.length s)) n with
          | Some k =>
              match String.get k s with
              | Some c => Ok (PyStr (String c ""))
              | None => Raise IndexError
              end
          | None => Raise IndexError
          end
      | None => Raise TypeError
      end
  | PyDict d => if hashable i then Raise (KeyError i) else Raise TypeError
  | _ => Raise TypeError
  end.

(** [chr(65 + v)], the letter shown for a choice. *)
Definition py_letter (v : value) : result string :=
  match as_int v with
  | Some n =>
      let c := 65 + n in
      if (0 <=? c) && (c <? 1114112) then Ok (String (ascii_of_nat (Z.to_nat c)) "")
      else if (- 2147483648 <=? c) && (c <=? 2147483647)
           then Raise (ValueError MsgChrRange)
           else Raise OverflowError
  | None => Raise TypeError
  end.

(** [v in range(n)] for a value that passed [isinstance(v, int)]. *)
Definition in_range (n : Z) (v : value) : bool :=
  match v with
  | PyInt k => (0 <=? k) && (k <? n)
  | PyBool b => (0 <=? Z.b2z b) && (Z.b2z b <? n)
  | _ => false
  end.

End Py.

(** ** A JSON decoder for ASCII texts

    One instance of the decoder [parse_quiz] is stated over, used to run the
    program on concrete texts.  It reads the JSON grammar with integer
    numbers; a number with a fraction or an exponent and a [\u] escape above
    127 are outside the ASCII model and are reported as errors.  A repeated
    key keeps its first place and its last value, as a Python [dict] does.
    An integer literal of more than 4300 digits, the default of
    [sys.int_max_str_digits], raises the [ValueError] of [int].  The depth at
    which CPython gives up with [RecursionError] depends on the stack at the
    time of the call; this decoder follows nesting of any depth. *)

Module Json.
Import Py.

(** How a parse stops short: at a syntax error, with the message and the
    text left where it stopped, or with an exception that is not a
    [JSONDecodeError]. *)
Inductive stop :=
| Syntax (msg : string) (rest : string)
| Raises (e : exn).

(** A parser reads a prefix of the text and returns the rest, or stops
    short. *)
Definition parser (A : Type) : Type := (A * string) + stop.

Definition fail {A} (msg : string) (rest : string) : parser A := inr (Syntax msg rest).

Definition is_ws (c : ascii) : bool :=
  let n := nat_of_ascii c in
  ((n =? 32) || (n =? 9) || (n =? 10) || (n =? 13))%nat.

Fixpoint skip_ws (s : string) : string :=
  match s with
  | String c s' => if is_ws c then skip_ws s' else s
  | EmptyString => EmptyString
  end.

Definition digit_of (c : ascii) : option Z :=
  let n := nat_of_ascii c in
  if ((48 <=? n) && (n <=? 57))%nat then Some (Z.of_nat (n - 48)) else None.

Definition hex_of (c : ascii) : option nat :=
  let n := nat_of_ascii c in
  if ((48 <=? n) && (n <=? 57))%nat then Some (n - 48)%nat
  else if ((97 <=? n) && (n <=? 102))%nat then Some (n - 87)%nat
  else if ((65 <=? n) && (n <=? 70))%nat then Some (n - 55)%nat
  else None.

Fixpoint digits (acc : Z) (s : string) : Z * string :=
  match s with
  | String c s' =>
      match digit_of c with
      | Some d => digits (10 * acc + d) s'
      | None => (acc, s)
      end
  | EmptyString => (acc, s)
  end.

(** The number of digits at the head of the text. *)
Fixpoint digit_run (s : string) : nat :=
  match s with
  | String c s' =>
      match digit_of c with
      | Some _ => S (digit_run s')
      | None => O
      end
  | EmptyString => O
  end.

(** The default of [sys.int_max_str_digits]. *)
Definition max_str_digits : nat := 4300.

(** An optional minus sign, then a zero or a digit string with no leading
    zero, not followed by a fraction or an exponent; [int] refuses a literal
    of more than [max_str_digits] digits. *)
Definition number (s : string) : parser value :=
  let '(neg, s1) := match s with
                    | String "-" s' => (true, s')
                    | _ => (false, s)
                    end in
  match s1 with
  | String c s2 =>
      match digit_of c with
      | Some d =>
          let '(n, s3) := if d =? 0 then (0, s2) else digits d s2 in
          match s3 with
          | String "." _ | String "e" _ | String "E" _ =>
              fail "Expecting value" s
          | _ =>
              let run := if d =? 0 then 1%nat else S (digit_run s2) in
              if (max_str_digits <? run)%nat
              then inr (Raises (ValueError (MsgIntDigits run)))
              else inl (PyInt (if (neg : bool) then - n else n), s3)
          end
      | None => fail "Expecting value" s
      end
  | EmptyString => fail "Expecting value" s
  end.

Definition escape (c : ascii) : option ascii :=
  let n := nat_of_ascii c in
  if Ascii.eqb c dquote then Some dquote
  else if Ascii.eqb c backslash then Some backslash
  else if Ascii.eqb c "/" then Some "/"%char
  else if Ascii.eqb c "b" then Some (ascii_of_nat 8)
  else if Ascii.eqb c "f" then Some (ascii_of_nat 12)
  else if Ascii.eqb c "n" then Some (ascii_of_nat 10)
  else if Ascii.eqb c "r" then Some (ascii_of_nat 13)
  else if Ascii.eqb c "t" then Some (ascii_of_nat 9)
  else None.

(** The characters of a string after its opening quote; [start] is the text
    from that quote on. *)
Fixpoint string_body (start s : string) : parser string :=
  match s with
  | EmptyString => fail "Unterminated string starting at" start
  | String c s' =>
      if Ascii.eqb c dquote then inl (EmptyString, s')
      else if Ascii.eqb c backslash then
        match s' with
        | String "u" (String a (String b (String c2 (String d s'')))) =>
            match hex_of a, hex_of b, hex_of c2, hex_of d with
            | Some x, Some y, Some z, Some w =>
                let n := (((x * 16 + y) * 16 + z) * 16 + w)%nat in
                if (n <? 128)%nat then
                  match string_body start s'' with
                  | inl (t, r) => inl (String (ascii_of_nat n) t, r)
                  | inr e => inr e
                  end
                else fail "Invalid \uXXXX escape" s
            | _, _, _, _ => fail "Invalid \uXXXX escape" s
            end
        | String e s'' =>
            match escape e with
            | Some x =>
                match string_body start s'' with
                | inl (t, r) => inl (String x t, r)
                | inr err => inr err
                end
            | None => fail "Invalid \escape" s
            end
        | EmptyString => fail "Unterminated string starting at" start
        end
      else if (nat_of_ascii c <? 32)%nat then fail "Invalid control character at" s
      else
        match string_body start s' with
        | inl (t, r) => inl (String c t, r)
        | inr e => inr e
        end
  end.

Definition literal (lit : string) (v : value) (s : string) : parser value :=
  if String.prefix lit s then inl (v, drop (String.length lit) s)
  else fail "Expecting value" s.

Fixpoint value_ (fuel : nat) (s : string) : parser value :=
  match fuel with
  | O => fail "Expecting value" s
  | S fuel =>
      match s with
      | String "{" s1 =>
          match skip_ws s1 with
          | String "}" s2 => inl (PyDict [], s2)
          | s2 => members fuel [] s2
          end
      | String "[" s1 =>
          match skip_ws s1 with
          | String "]" s2 => inl (PyList [], s2)
          | s2 => elements fuel [] s2
          end
      | String "n" _ => literal "null" PyNone s
      | String "t" _ => literal "true" (PyBool true) s
      | String "f" _ => literal "false" (PyBool false) s
      | String c s1 =>
          if Ascii.eqb c dquote then
            match string_body s s1 with
            | inl (t, r) => inl (PyStr t, r)
            | inr e => inr e
            end
          else number s
      | EmptyString => fail "Expecting value" s
      end
  end
with elements (fuel : nat) (acc : list value) (s : string) : parser value :=
  match fuel with
  | O => fail "Expecting value" s
  | S fuel =>
      match value_ fuel s with
      | inl (v, s1) =>
          match skip_ws s1 with
          | String "," s2 => elements fuel (v :: acc) (skip_ws s2)
          | String "]" s2 => inl (PyList (rev (v :: acc)), s2)
          | s2 => fail "Expecting ',' delimiter" s2
          end
      | inr e => inr e
      end
  end
with members (fuel : nat) (acc : dict) (s : string) : parser value :=
  match fuel with
  | O => fail "Expecting value" s
  | S fuel =>
      match s with
      | String c s1 =>
          if Ascii.eqb c dquote then
            match string_body s s1 with
            | inl (k, s2) =>
                match skip_ws s2 with
                | String ":" s3 =>
                    match value_ fuel (skip_ws s3) with
                    | inl (v, s4) =>
                        match skip_ws s4 with
                        | String "," s5 => members fuel (dict_set k v acc) (skip_ws s5)
                        | String "}" s5 => inl (PyDict (dict_set k v acc), s5)
                        | s5 => fail "Expecting ',' delimiter" s5
                        end
                    | inr e => inr e
                    end
                | s3 => fail "Expecting ':' delimiter" s3
                end
            | inr e => inr e
            end
          else fail "Expecting property name enclosed in double quotes" s
      | EmptyString => fail "Expecting property name enclosed in double quotes" s
      end
  end.

(** [json.loads(text)] *)
Definition loads (text : string) : decoded :=
  let pos (rest : string) := (String.length text - String.length rest)%nat in
  match value_ (S (String.length text)) (skip_ws text) with
  | inl (v, rest) =>
      match skip_ws rest with
      | EmptyString => Decoded v
      | r => NotJson (DecodeError "Extra data" (pos r))
      end
  | inr (Syntax msg rest) => NotJson (DecodeError msg (pos rest))
  | inr (Raises e) => Uncaught e
  end.

End Json.

(** ** [gen_quiz]: from the model's text to the quiz dictionary *)

Module Normalizer.
Import Py.

(** Lines 217-223: [resp.text.strip()] and the markdown fence, if any. *)
Definition strip_fences (resp_text : string) : string :=
  let text := strip resp_text in
  let text := if startswith text "```json" then strip (drop 7 text) else text in
  if endswith text "```" then strip (drop_end 3 text) else text.

(** [re.search(r'\{.*\}', text, re.DOTALL)]: the leftmost match starts at the
    first opening brace; the greedy [.*] (which also crosses newlines) then
    runs to the last closing brace after it. *)
Fixpoint from_first (c : ascii) (s : string) : option string :=
  match s with
  | EmptyString => None
  | String a s' => if Ascii.eqb a c then Some s else from_first c s'
  end.

Fixpoint upto_last (c : ascii) (s : string) : option string :=
  match s with
  | EmptyString => None
  | String a s' =>
      match upto_last c s' with
      | Some p => Some (String a p)
      | None => if Ascii.eqb a c then Some (String a EmptyString) else None
      end
  end.

Definition re_search_braces (text : string) : option string :=
  match from_first "{" text with
  | Some s => upto_last "}" s
  | None => None
  end.

Section Parse.

(** [json.loads] is Python's library, not this program: the parse step is
    stated over any decoder. *)
Variable json_loads : string -> decoded.

(** Lines 225-238.  Besides the outcome, the arguments of the calls to
    [json.loads] are returned, in the order the calls are made.  Both
    [except] clauses name [json.JSONDecodeError]: an exception of another
    class leaves [gen_quiz] as it is, from the first call or from the
    second. *)
Definition parse_quiz (text : string) : list string * result value :=
  match json_loads text with
  | Decoded quiz_data => ([text], Ok quiz_data)
  | Uncaught x => ([text], Raise x)
  | NotJson e =>
      match re_search_braces text with
      | Some json_str =>
          match json_loads json_str with
          | Decoded quiz_data => ([text; json_str], Ok quiz_data)
          | NotJson _ =>
              ([text; json_str], Raise (ValueError (MsgParse (take 500 text) e)))
          | Uncaught x => ([text; json_str], Raise x)
          end
      | None => ([text], Raise (ValueError (MsgParse (take 500 text) e)))
      end
  end.

End Parse.

(** [if old in d: d[new] = d.pop(old)] *)
Definition rename_key (old new : string) (d : value) : result value :=
  b <- py_in old d ;;
  if (b : bool) then
    '(x, d') <- py_pop d old ;;
    py_setitem d' new x
  else Ok d.

(** [if k not in d: d[k] = x] *)
Definition set_default (k : string) (x : value) (d : value) : result value :=
  b <- py_in k d ;;
  if (b : bool) then Ok d else py_setitem d k x.

(** Lines 241-254: top-level aliases and defaults, and the check of [items].
    Returns the dictionary and its list of items. *)
Definition normalize_top (difficulty topic_text : string) (quiz_data : value)
  : result (value * list value) :=
  quiz_data <- rename_key "questions" "items" quiz_data ;;
  quiz_data <- rename_key "quiz_name" "topic" quiz_data ;;
  quiz_data <- set_default "topic"
                 (PyStr (match strip topic_text with
                         | EmptyString => "Kuis Umum"
                         | t => take 100 t
                         end)) quiz_data ;;
  quiz_data <- set_default "level" (PyStr difficulty) quiz_data ;;
  b <- py_in "items" quiz_data ;;
  if negb b then Raise (ValueError (MsgNoItems quiz_data)) else
  items <- py_getitem quiz_data "items" ;;
  match items with
  | PyList [] =>
      quiz_data <- py_setitem quiz_data "items" (PyList []) ;;
      Ok (quiz_data, [])
  | PyList l => Ok (quiz_data, l)
  | _ => Raise (ValueError (MsgNoItems quiz_data))
  end.

(** Lines 257-261: [question_text] is an alias of [question]. *)
Definition step_question (i : nat) (item : value) : result value :=
  item <- rename_key "question_text" "question" item ;;
  b <- py_in "question" item ;;
  if negb b then Raise (ValueError (MsgNoQuestion i item)) else Ok item.

(** [[opt_dict.get(letter, "") for letter in "ABCD"]] *)
Definition options_of_dict (opt_dict : dict) : value :=
  PyList (map (fun letter =>
                 match assoc letter opt_dict with
                 | Some x => x
                 | None => PyStr ""
                 end) ["A"; "B"; "C"; "D"]).

(** Lines 263-268: options given as a dict, and exactly four of them. *)
Definition step_options (i : nat) (item : value) : result value :=
  o <- py_get item "options" ;;
  item <- match o with
          | PyDict opt_dict => py_setitem item "options" (options_of_dict opt_dict)
          | _ => Ok item
          end ;;
  b <- py_in "options" item ;;
  if negb b then Raise (ValueError (MsgBadOptions i item)) else
  o <- py_getitem item "options" ;;
  n <- py_len o ;;
  if negb (n =? 4) then Raise (ValueError (MsgBadOptions i item)) else Ok item.

(** Lines 270-277: [correct_answer], a letter, becomes [answer_index]. *)
Definition step_correct_answer (i : nat) (item : value) : result value :=
  b <- py_in "correct_answer" item ;;
  if (b : bool) then
    c <- py_getitem item "correct_answer" ;;
    corr_ans <- py_strip_upper c ;;
    if str_contains corr_ans "ABCD" then
      n <- py_ord corr_ans ;;
      item <- py_setitem item "answer_index" (PyInt (n - 65)) ;;
      py_delitem item "correct_answer"
    else Raise (ValueError (MsgBadCorrectAnswer i corr_ans))
  else Ok item.

(** Lines 278-279. *)
Definition check_answer_index (i : nat) (item : value) : result value :=
  b <- py_in "answer_index" item ;;
  if negb b then Raise (ValueError (MsgBadAnswerIndex i item)) else
  a <- py_getitem item "answer_index" ;;
  if negb (isinstance_int a) || negb (in_range 4 a)
  then Raise (ValueError (MsgBadAnswerIndex i item))
  else Ok item.

(** Lines 281-285: the id, from [question_number] or from the position. *)
Definition step_id (i : nat) (item : value) : result value :=
  b <- py_in "question_number" item ;;
  item <- (if (b : bool) then
             '(x, item') <- py_pop item "question_number" ;;
             py_setitem item' "id" (PyStr ("q" ++ str x))
           else Ok item) ;;
  set_default "id" (PyStr ("q" ++ str_int (Z.of_nat i + 1))) item.

(** Lines 287-291. *)
Definition step_defaults (item : value) : result value :=
  item <- set_default "explanation" (PyStr "") item ;;
  set_default "tags" (PyList []) item.

(** One pass of the loop body, lines 256-291. *)
Definition normalize_item (i : nat) (item : value) : result value :=
  item <- step_question i item ;;
  item <- step_options i item ;;
  item <- step_correct_answer i item ;;
  item <- check_answer_index i item ;;
  item <- step_id i item ;;
  step_defaults item.

(** [for i, item in enumerate(quiz_data["items"])], from index [i] on: the
    first exception ends the loop. *)
Fixpoint normalize_items (i : nat) (items : list value) : result (list value) :=
  match items with
  | [] => Ok []
  | item :: rest =>
      item' <- normalize_item i item ;;
      rest' <- normalize_items (S i) rest ;;
      Ok (item' :: rest')
  end.

(** Lines 240-293: the items are changed in place, so the dictionary returned
    holds the normalised items under its key [items]. *)
Definition normalize (difficulty topic_text : string) (quiz_data : value)
  : result value :=
  '(quiz_data, items) <- normalize_top difficulty topic_text quiz_data ;;
  items' <- normalize_items 0 items ;;
  py_setitem quiz_data "items" (PyList items').

(** [gen_quiz] once the model has answered with [resp_text]. *)
Definition gen_quiz (json_loads : string -> decoded)
  (difficulty topic_text resp_text : string) : result value :=
  quiz_data <- snd (parse_quiz json_loads (strip_fences resp_text)) ;;
  normalize difficulty topic_text quiz_data.

End Normalizer.

(** ** [update_progress]: the progress ledger *)

Module Progress.
Import Py.

(** One element of [progress["history"]]: [{id, correct, level, ts}]. *)
Record entry := mkEntry {
  h_id : value;
  h_correct : bool;
  h_level : string;
  h_ts : pyfloat
}.

(** [st.session_state["progress"]] *)
Record ledger := mkLedger {
  total_attempts : Z;
  total_correct : Z;
  history : list entry
}.

(** The ledger of [ensure_state] and [reset_all]. *)
Definition empty_ledger : ledger :=
  {| total_attempts := 0; total_correct := 0; history := [] |}.

(** [any(h["id"] == qid for h in history)] *)
Definition recorded (qid : value) (history : list entry) : bool :=
  existsb (fun h => py_eq (h_id h) qid) history.

(** Lines 313-321; [now] is the value of [time.time()]. *)
Definition update_progress (prog : ledger) (qid : value) (correct : bool)
  (level : string) (now : pyfloat) : ledger :=
  if recorded qid (history prog) then prog
  else
    {| total_attempts := total_attempts prog + 1;
       total_correct := if correct then total_correct prog + 1 else total_correct prog;
       history := history prog ++ [mkEntry qid correct level now] |}.

(** [count(history, correct == true)] *)
Definition count_correct (history : list entry) : Z :=
  Z.of_nat (List.length (filter h_correct history)).

(** The two equations that tie the counters to the history. *)
Definition consistent (prog : ledger) : Prop :=
  total_attempts prog = Z.of_nat (List.length (history prog)) /\
  total_correct prog = count_correct (history prog).

End Progress.

(** ** [render_quiz_area]: one script run of the quiz page *)

Module Session.
Import Py Progress.

(** The part of [st.session_state] the quiz page reads and writes.  The
    state of the radio widget (the key [choice_key]) is not a field: its
    value at a click comes with the click, and its deletion on advance has
    no counterpart here. *)
Record session_state := mkState {
  quiz : option value;
  quiz_idx : Z;
  answers : list (value * Z);
  current_answered : bool;
  current_revealed : bool;
  progress : ledger;
  difficulty : string
}.

(** The defaults of [ensure_state], lines 72-94. *)
Definition ensure_state : session_state :=
  {| quiz := None; quiz_idx := 0; answers := [];
     current_answered := false; current_revealed := false;
     progress := empty_ledger; difficulty := "easy" |}.

(** What the learner did to start this run: the button that reports a click
    (a run sees at most one).  [ClickCreate] carries the outcome of the call
    to [gen_quiz], [ClickSubmit] the value of
    [st.session_state.get(choice_key, None)]. *)
Inductive action :=
| NoClick
| ClickCreate (data : result value)
| ClickSubmit (selected_choice : option Z)
| ClickReveal
| ClickNext
| ClickRestart.

(** How a run ends: at the end of the function, at [st.rerun()], or with an
    uncaught exception. *)
Inductive outcome (A : Type) :=
| Done (a : A)
| Rerun
| Raised (e : exn).
Arguments Done {A} a.
Arguments Rerun {A}.
Arguments Raised {A} e.

Definition script (A : Type) : Type := session_state -> outcome A * session_state.

Definition ret {A} (a : A) : script A := fun s => (Done a, s).

Definition sbind {A B} (m : script A) (k : A -> script B) : script B :=
  fun s =>
    match m s with
    | (Done a, s') => k a s'
    | (Rerun, s') => (Rerun, s')
    | (Raised e, s') => (Raised e, s')
    end.

Notation "x <~ c ;; k" := (sbind c (fun x => k))
  (at level 61, c at next level, right associativity).
Notation "c ;;; k" := (sbind c (fun _ => k))
  (at level 61, right associativity).

Definition lift {A} (r : result A) : script A :=
  fun s => match r with Ok a => (Done a, s) | Raise e => (Raised e, s) end.

Definition get : script session_state := fun s => (Done s, s).
Definition modify (f : session_state -> session_state) : script unit :=
  fun s => (Done tt, f s).

(** [st.rerun()]: the run stops here. *)
Definition st_rerun {A} : script A := fun s => (Rerun, s).

(** [answers[k] = c] and [answers.get(k, None)] *)
Fixpoint answers_set (k : value) (c : Z) (d : list (value * Z)) : list (value * Z) :=
  match d with
  | [] => [(k, c)]
  | (k', c') :: d' =>
      if py_eq k' k then (k', c) :: d' else (k', c') :: answers_set k c d'
  end.

Fixpoint answers_get (k : value) (d : list (value * Z)) : option Z :=
  match d with
  | [] => None
  | (k', c) :: d' => if py_eq k' k then Some c else answers_get k d'
  end.

Definition check_hashable (k : value) : result unit :=
  if hashable k then Ok tt else Raise TypeError.

(** The five assignments made for a fresh quiz ([Some data]) and by
    "Ulangi Kuis" ([None]). *)
Definition reset_quiz (q : option value) (s : session_state) : session_state :=
  {| quiz := q; quiz_idx := 0; answers := [];
     current_answered := false; current_revealed := false;
     progress := progress s; difficulty := difficulty s |}.

(** The "Ulangi Kuis" button of the two closing branches. *)
Definition restart_button (a : action) : script unit :=
  match a with
  | ClickRestart => modify (reset_quiz None) ;;; st_rerun
  | _ => ret tt
  end.

(** The labels [st.radio] builds: [item['options'][i]] for [i] in 0..3. *)
Definition radio_labels (item : value) : result unit :=
  Py.bind (py_getitem item "options") (fun o =>
  Py.bind (py_index o (PyInt 0)) (fun _ =>
  Py.bind (py_index o (PyInt 1)) (fun _ =>
  Py.bind (py_index o (PyInt 2)) (fun _ =>
  Py.bind (py_index o (PyInt 3)) (fun _ => Ok tt))))).

(** [f"{chr(65 + c)}. {item['options'][c]}"] *)
Definition choice_label (item c : value) : result unit :=
  Py.bind (py_letter c) (fun _ =>
  Py.bind (py_getitem item "options") (fun o =>
  Py.bind (py_index o c) (fun _ => Ok tt))).

(** Lines 348-454.  [now] is the clock read by [update_progress]. *)
Definition render_quiz_area (now : pyfloat) (a : action) : script unit :=
  s <~ get ;;
  match quiz s with
  | None =>
      match a with
      | ClickCreate (Ok data) => modify (reset_quiz (Some data)) ;;; st_rerun
      | _ => ret tt
      end
  | Some q =>
      has_items <~ lift (py_in "items" q) ;;
      usable <~ (if (has_items : bool)
                 then lift (Py.bind (py_getitem q "items") (fun l => Ok (truthy l)))
                 else ret false) ;;
      if negb usable then restart_button a else
      qdata <~ lift (py_getitem q "items") ;;
      let idx := quiz_idx s in
      n <~ lift (py_len qdata) ;;
      if n <=? idx then restart_button a else
      item <~ lift (py_index qdata (PyInt idx)) ;;
      _ <~ lift (py_getitem item "question") ;;
      id <~ lift (py_getitem item "id") ;;
      if negb (current_answered s) then
        _ <~ lift (radio_labels item) ;;
        match a with
        | ClickSubmit selected_choice =>
            c <~ match selected_choice with
                 | None => st_rerun
                 | Some c => ret c
                 end ;;
            id <~ lift (py_getitem item "id") ;;
            _ <~ lift (check_hashable id) ;;
            modify (fun s => {| quiz := quiz s; quiz_idx := quiz_idx s;
                                answers := answers_set id c (answers s);
                                current_answered := current_answered s;
                                current_revealed := current_revealed s;
                                progress := progress s;
                                difficulty := difficulty s |}) ;;;
            ans <~ lift (py_getitem item "answer_index") ;;
            let is_correct := py_eq (PyInt c) ans in
            id <~ lift (py_getitem item "id") ;;
            modify (fun s => {| quiz := quiz s; quiz_idx := quiz_idx s;
                                answers := answers s;
                                current_answered := true;
                                current_revealed := false;
                                progress := update_progress (progress s) id is_correct
                                              (difficulty s) now;
                                difficulty := difficulty s |}) ;;;
            st_rerun
        | _ => ret tt
        end
      else
        _ <~ lift (check_hashable id) ;;
        let selected := answers_get id (answers s) in
        _ <~ match selected with
             | Some c => lift (choice_label item (PyInt c))
             | None => ret tt
             end ;;
        ans <~ lift (py_getitem item "answer_index") ;;
        let is_correct := match selected with
                          | Some c => py_eq (PyInt c) ans
                          | None => py_eq PyNone ans
                          end in
        (if negb (current_revealed s) then
           match a with
           | ClickReveal =>
               modify (fun s => {| quiz := quiz s; quiz_idx := quiz_idx s;
                                   answers := answers s;
                                   current_answered := current_answered s;
                                   current_revealed := true;
                                   progress := progress s;
                                   difficulty := difficulty s |}) ;;;
               st_rerun
           | _ => ret tt
           end
         else
           _ <~ (if negb is_correct then lift (choice_label item ans) else ret tt) ;;
           _ <~ lift (py_get item "explanation") ;;
           ret tt) ;;;
        match a with
        | ClickNext =>
            modify (fun s => {| quiz := quiz s; quiz_idx := quiz_idx s + 1;
                                answers := answers s;
                                current_answered := false;
                                current_revealed := false;
                                progress := progress s;
                                difficulty := difficulty s |}) ;;;
            st_rerun
        | _ => ret tt
        end
  end.

(** The state left by one run. *)
Definition step (now : pyfloat) (a : action) (s : session_state) : session_state :=
  snd (render_quiz_area now a s).

(** The states left by a sequence of runs, each with its clock reading. *)
Fixpoint run (acts : list (pyfloat * action)) (s : session_state) : session_state :=
  match acts with
  | [] => s
  | (now, a) :: rest => run rest (step now a s)
  end.

(** The branch of the page a state is shown by. *)
Inductive phase := NoQuiz | Invalid | Unanswered | Answered | Revealed | Completed.

Definition phase_of (s : session_state) : phase :=
  match quiz s with
  | None => NoQuiz
  | Some (PyDict d) =>
      match assoc "items" d with
      | Some (PyList (x :: l)) =>
          if Z.of_nat (List.length (x :: l)) <=? quiz_idx s then Completed
          else if negb (current_answered s) then Unanswered
          else if negb (current_revealed s) then Answered
          else Revealed
      | _ => Invalid
      end
  | Some _ => Invalid
  end.

End Session.
(** ** Notions the statements below are written with *)

Module Spec.
Import Py Normalizer.

(** The item index a [ValueError] of the loop names, if any. *)
Definition message_item (m : message) : option nat :=
  match m with
  | MsgNoQuestion i _ | MsgBadOptions i _
  | MsgBadCorrectAnswer i _ | MsgBadAnswerIndex i _ => Some i
  | MsgParse _ _ | MsgNoItems _ | MsgChrRange | MsgIntDigits _ => None
  end.

(** The items the loop runs over. *)
Definition loop_items (difficulty topic_text : string) (raw : value) : list value :=
  match normalize_top difficulty topic_text raw with
  | Ok (_, items) => items
  | Raise _ => []
  end.

(** [k in item] for an item that is a dictionary. *)
Definition has_key (k : string) (item : value) : bool :=
  match item with
  | PyDict d => dict_mem k d
  | _ => false
  end.

Definition item_id (item : value) : option value :=
  match item with
  | PyDict d => assoc "id" d
  | _ => None
  end.

Definition quiz_items (q : value) : list value :=
  match q with
  | PyDict d => match assoc "items" d with Some (PyList l) => l | _ => [] end
  | _ => []
  end.

(** The ids of the items of a quiz, in order. *)
Definition quiz_ids (q : value) : list (option value) := map item_id (quiz_items q).

(** [f"q{i+1}"], the id given to the item at index [i] when it brings none. *)
Definition default_id (i : nat) : value := PyStr ("q" ++ str_int (Z.of_nat i + 1)).

(** The id the loop leaves the item at index [i] with: "q" followed by the
    [question_number] when the item has one, whether or not it has an [id];
    else its [id]; else the default id. *)
Definition assigned_id (i : nat) (item : value) : option value :=
  match item with
  | PyDict d =>
      Some (match assoc "question_number" d with
            | Some x => PyStr ("q" ++ str x)
            | None => match assoc "id" d with
                      | Some v => v
                      | None => default_id i
                      end
            end)
  | _ => None
  end.

(** These ids for the items from index [i] on. *)
Fixpoint assigned_ids (i : nat) (items : list value) : list (option value) :=
  match items with
  | [] => []
  | item :: rest => assigned_id i item :: assigned_ids (S i) rest
  end.

(** An item in the canonical schema: the six fields are there, none of the
    alias fields is, the options are a list of four and the answer index is
    an integer from 0 to 3. *)
Definition canonical_item (item : value) : bool :=
  match item with
  | PyDict d =>
      dict_mem "id" d && dict_mem "question" d &&
      dict_mem "explanation" d && dict_mem "tags" d &&
      negb (dict_mem "question_text" d) && negb (dict_mem "correct_answer" d) &&
      negb (dict_mem "question_number" d) &&
      match assoc "options" d with
      | Some (PyList l) => Nat.eqb (List.length l) 4
      | _ => false
      end &&
      match assoc "answer_index" d with
      | Some a => isinstance_int a && in_range 4 a
      | None => false
      end
  | _ => false
  end.

(** A quiz in the canonical schema: topic and level are there, neither
    top-level alias is, and every item is canonical. *)
Definition canonical_quiz (q : value) : bool :=
  match q with
  | PyDict d =>
      dict_mem "topic" d && dict_mem "level" d &&
      negb (dict_mem "questions" d) && negb (dict_mem "quiz_name" d) &&
      match assoc "items" d with
      | Some (PyList l) => forallb canonical_item l
      | _ => false
      end
  | _ => false
  end.

(** What the page reads in an item, all there and well-typed. *)
Definition playable_item (item : value) : bool :=
  match item with
  | PyDict d =>
      dict_mem "question" d &&
      match assoc "id" d with Some id => hashable id | None => false end &&
      match assoc "options" d with
      | Some (PyList l) => Nat.eqb (List.length l) 4
      | _ => false
      end &&
      match assoc "answer_index" d with
      | Some a => isinstance_int a && in_range 4 a
      | None => false
      end
  | _ => false
  end.

(** [c in s] for a character. *)
Fixpoint has_char (c : ascii) (s : string) : bool :=
  match s with
  | EmptyString => false
  | String a s' => Ascii.eqb a c || has_char c s'
  end.

End Spec.

(** ** Sample items and quizzes *)

Module Examples.
Import Py Progress Session.

Definition four_options : value :=
  PyList [PyStr "3"; PyStr "4"; PyStr "5"; PyStr "6"].

(** A raw item with nothing wrong. *)
Definition good_item : value :=
  PyDict [("question", PyStr "2 + 2 = ?"); ("options", four_options);
          ("answer_index", PyInt 1)].

(** Three options only. *)
Definition three_options_item : value :=
  PyDict [("question", PyStr "2 + 3 = ?");
          ("options", PyList [PyStr "4"; PyStr "5"; PyStr "6"]);
          ("answer_index", PyInt 1)].

(** No question. *)
Definition no_question_item : value :=
  PyDict [("options", four_options); ("answer_index", PyInt 9)].

(** Two items, each breaking a rule. *)
Definition two_violations : value :=
  PyDict [("items", PyList [three_options_item; no_question_item])].

(** A good item followed by the two above. *)
Definition good_then_two_violations : value :=
  PyDict [("items", PyList [good_item; three_options_item; no_question_item])].

(** An item numbered by the model. *)
Definition numbered_item (n : Z) : value :=
  PyDict [("question_number", PyInt n); ("question", PyStr "2 + 2 = ?");
          ("options", four_options); ("answer_index", PyInt 1)].

(** Two items that both say they are number 1. *)
Definition same_number_twice : value :=
  PyDict [("items", PyList [numbered_item 1; numbered_item 1])].

(** Three items: one with a number and an id, one with an id, one with
    neither. *)
Definition mixed_ids : value :=
  PyDict [("items",
           PyList [PyDict [("id", PyStr "first"); ("question_number", PyInt 5);
                           ("question", PyStr "2 + 2 = ?");
                           ("options", four_options); ("answer_index", PyInt 1)];
                   PyDict [("id", PyStr "second"); ("question", PyStr "2 + 2 = ?");
                           ("options", four_options); ("answer_index", PyInt 1)];
                   good_item])].

(** Two items without id or number. *)
Definition two_plain_items : value :=
  PyDict [("questions", PyList [good_item; good_item])].

(** An item whose answer is given as a letter. *)
Definition lettered_item (correct_answer : string) : value :=
  PyDict [("question", PyStr "2 + 2 = ?"); ("options", four_options);
          ("correct_answer", PyStr correct_answer)].

(** An item whose answer index is a boolean. *)
Definition boolean_item (b : bool) : value :=
  PyDict [("question", PyStr "2 + 2 = ?"); ("options", four_options);
          ("answer_index", PyBool b)].

(** The same with a letter besides. *)
Definition boolean_and_letter_item : value :=
  PyDict [("question", PyStr "2 + 2 = ?"); ("options", four_options);
          ("answer_index", PyBool true); ("correct_answer", PyStr "A")].

(** A canonical item and a quiz of three of them. *)
Definition canonical_example_item (id : string) (answer : Z) : value :=
  PyDict [("id", PyStr id); ("question", PyStr "2 + 2 = ?");
          ("options", four_options); ("answer_index", PyInt answer);
          ("explanation", PyStr "count"); ("tags", PyList [PyStr "sums"])].

Definition canonical_example_dict : dict :=
  [("topic", PyStr "sums"); ("level", PyStr "easy");
   ("items", PyList [canonical_example_item "q1" 1;
                     canonical_example_item "q2" 0;
                     canonical_example_item "q3" 3])].

Definition canonical_example : value := PyDict canonical_example_dict.

(** [n] times the digit 7. *)
Fixpoint sevens (n : nat) : string :=
  match n with
  | O => ""
  | S n' => String "7" (sevens n')
  end.

(** An object whose one member is an integer of 4301 digits, and a text that
    is no JSON and holds it between its braces. *)
Definition long_integer_span : string :=
  "{" ++ String dquote ("a" ++ String dquote (": " ++ sevens 4301 ++ "}")).

Definition long_integer_response : string := "x " ++ long_integer_span.

(** A reading of the clock. *)
Definition noon : pyfloat := mkFloat (1730721600 # 1) "1730721600.0".

(** The session right after "Buat Kuis" returned [canonical_example]. *)
Definition started : session_state :=
  reset_quiz (Some canonical_example) ensure_state.

End Examples.

(** ** Further operations of Python's [str] and [list] *)

Module PyLib.
Import Py Spec.

(** [l[-n:]] for [n > 0] *)
Definition last_n {A} (n : nat) (l : list A) : list A :=
  skipn (List.length l - n) l.

(** The ASCII characters at which [str.splitlines] ends a line: LF, VT, FF,
    CR, FS, GS, RS. *)
Definition is_linebreak (c : ascii) : bool :=
  let n := nat_of_ascii c in
  ((10 <=? n) && (n <=? 13))%nat || ((28 <=? n) && (n <=? 30))%nat.

(** [s.splitlines()], with [cur] the line being read, last character first.
    CR LF is one break, and a break at the very end opens no further line. *)
Fixpoint splitlines_from (cur : string) (s : string) : list string :=
  match s with
  | EmptyString =>
      match cur with
      | EmptyString => []
      | _ => [rev_string cur ""]
      end
  | String c s' =>
      if is_linebreak c then
        rev_string cur "" ::
        match s' with
        | String c' s'' =>
            if ((nat_of_ascii c =? 13) && (nat_of_ascii c' =? 10))%nat
            then splitlines_from "" s''
            else splitlines_from "" s'
        | EmptyString => []
        end
      else splitlines_from (String c cur) s'
  end.

Definition splitlines (s : string) : list string := splitlines_from "" s.

(** [sep.join(l)] *)
Fixpoint join (sep : string) (l : list string) : string :=
  match l with
  | [] => ""
  | x :: l' =>
      match l' with
      | [] => x
      | _ => x ++ sep ++ join sep l'
      end
  end.

(** [s.strip(chars)] *)
Fixpoint lstrip_chars (chars s : string) : string :=
  match s with
  | String c s' => if has_char c chars then lstrip_chars chars s' else s
  | EmptyString => EmptyString
  end.

Definition strip_chars (chars s : string) : string :=
  rev_string (lstrip_chars chars (rev_string (lstrip_chars chars s) "")) "".

Definition newline : string := String (ascii_of_nat 10) "".

(** [s.split(sep)] for a separator of one character; [cur] is the piece being
    read, last character first. *)
Fixpoint split_from (sep : ascii) (cur : string) (s : string) : list string :=
  match s with
  | EmptyString => [rev_string cur ""]
  | String c s' =>
      if Ascii.eqb c sep then rev_string cur "" :: split_from sep "" s'
      else split_from sep (String c cur) s'
  end.

Definition split (sep : ascii) (s : string) : list string := split_from sep "" s.

Definition lower_char (c : ascii) : ascii :=
  let n := nat_of_ascii c in
  if ((65 <=? n) && (n <=? 90))%nat then ascii_of_nat (n + 32) else c.

(** [s.lower()] *)
Fixpoint lower (s : string) : string :=
  match s with
  | EmptyString => EmptyString
  | String c s' => String (lower_char c) (lower s')
  end.

(** [a or b] on values that are a [str] or [None]. *)
Definition or_else (a : option string) (b : option string) : option string :=
  match a with
  | Some (String _ _) => a
  | _ => b
  end.

End PyLib.

(** ** [load_prompts]: the prompt file as a dictionary of sections *)

Module Prompts.
Import Py PyLib.

(** [line.strip().startswith("[") and line.strip().endswith("]")] *)
Definition is_header (line : string) : bool :=
  startswith (strip line) "[" && endswith (strip line) "]".

(** [line.strip().strip("[]")] *)
Definition header_name (line : string) : string :=
  strip_chars "[]" (strip line).

(** [if current: sections[current] = "\n".join(buf).strip()]: nothing is
    stored while [current] is [None] or the empty name. *)
Definition flush (sections : dict) (current : option string) (buf : list string) : dict :=
  match current with
  | Some (String _ _ as name) => dict_set name (PyStr (strip (join newline buf))) sections
  | _ => sections
  end.

(** The [for] loop of lines 59-66 and the closing lines 67-69. *)
Fixpoint read_lines (lines : list string) (sections : dict)
  (current : option string) (buf : list string) : dict :=
  match lines with
  | [] => flush sections current buf
  | line :: rest =>
      if is_header line
      then read_lines rest (flush sections current buf) (Some (header_name line)) []
      else read_lines rest sections current (buf ++ [line])
  end.

(** Lines 51-69.  [file] is the text read from [path], [None] when there is
    no such file. *)
Definition load_prompts (file : option string) : dict :=
  match file with
  | None =>
      [("SYSTEM_ROLE", PyStr ""); ("QUIZ_INSTRUCTION_JSON", PyStr "");
       ("REPHRASE_INSTRUCTION", PyStr ""); ("REVIEW_TIPS", PyStr "")]
  | Some raw => read_lines (splitlines raw) [] None []
  end.

End Prompts.

(** ** [gen_chat_response]: what is sent to the model *)

Module Chat.
Import Py PyLib.

(** One element of [st.session_state["messages"]]: [{role, content}]. *)
Record chat_message := mkMessage { msg_role : string; msg_content : string }.

(** One element of [context_files], as [upload_to_gemini] returns it; the
    [uri] is [None] when the SDK gave neither a uri nor a name. *)
Record file_ref := mkFile {
  ref_name : string;
  ref_uri : option string;
  ref_mime_type : string;
  ref_display_name : string
}.

(** [gx.Part(text=...)] and [gx.Part.from_uri(file_uri=..., mime_type=...)] *)
Inductive part :=
| PartText (text : string)
| PartUri (file_uri : option string) (mime_type : string).

(** [gx.Content(role=..., parts=...)] *)
Record chat_content := mkContent { c_role : string; c_parts : list part }.

(** Lines 162-163: one part for each context file. *)
Definition file_parts (files : list file_ref) : list part :=
  map (fun file_ref => PartUri (ref_uri file_ref) (ref_mime_type file_ref)) files.

(** One message of the history, lines 169-171. *)
Definition history_content (msg : chat_message) : chat_content :=
  let role := if String.eqb (msg_role msg) "user" then "user" else "model" in
  let prefix := if String.eqb role "user" then "Siswa: " else "StudyBuddy AI: " in
  mkContent role [PartText (prefix ++ msg_content msg)].

(** Lines 159-171: the [contents] passed to [generate_content]. *)
Definition chat_contents (messages : list chat_message) (files : list file_ref)
  : list chat_content :=
  let initial_parts := file_parts files in
  (match initial_parts with
   | [] => []
   | _ => [mkContent "user" initial_parts]
   end ++ map history_content (last_n 12 messages))%list.

(** [gen_chat_response] from the contents on: [resp.text or ""].  The call
    of the model is not this program's: [generate] gives [resp.text] ([None]
    or a [str]), or the text of the exception raised. *)
Definition gen_chat_response (generate : list chat_content -> option string + string)
  (messages : list chat_message) (files : list file_ref) : string + string :=
  match generate (chat_contents messages files) with
  | inl (Some text) => inl text
  | inl None => inl ""
  | inr e => inr e
  end.

(** Lines 330-345 of [render_chat_area]: the messages after a run in which
    [st.chat_input] returned [user_msg] ([None] when nothing was sent). *)
Definition render_chat_area (generate : list chat_content -> option string + string)
  (messages : list chat_message) (files : list file_ref) (user_msg : option string)
  : list chat_message :=
  match user_msg with
  | Some (String _ _ as text) =>
      let messages := (messages ++ [mkMessage "user" text])%list in
      let reply :=
        match gen_chat_response generate messages files with
        | inl reply => reply
        | inr e => "Terjadi error saat memanggil model: " ++ e
        end in
      (messages ++ [mkMessage "assistant" reply])%list
  | _ => messages
  end.

End Chat.

(** ** [show_progress] and [render_review_area]: what is read from the ledger *)

Module Display.
Import Py PyLib Progress.

(** [("✅" if h["correct"] else "❌") + f" ({h['level']})"]; the two marks
    stand as the bytes of their UTF-8 encoding. *)
Definition summary_line (h : entry) : string :=
  (if h_correct h then "✅" else "❌") ++ " (" ++ h_level h ++ ")".

(** Lines 307-310: [None] when the history is empty and nothing is shown. *)
Definition recent_summary (prog : ledger) : option (list string) :=
  match history prog with
  | [] => None
  | hist => Some (map summary_line (last_n 5 hist))
  end.

(** Line 459 of [render_review_area]:
    [[h["id"] for h in history if not h["correct"]]] *)
Definition wrong_ids (prog : ledger) : list value :=
  map h_id (filter (fun h => negb (h_correct h)) (history prog)).

End Display.

(** ** The SDK version guard *)

Module Version.
Import Py PyLib.

Section Int.

(** [int(s)] on a [str] is Python's, not this program's: the guard is stated
    over any reading of numerals, [None] standing for [ValueError]. *)
Variable py_int : string -> option Z.

(** Lines 19-26, for a [str]: any exception gives [(0, 0)]. *)
Definition _parse_ver (v : string) : Z * Z :=
  match split "." v with
  | [] => (0, 0)
  | p0 :: rest =>
      match py_int p0 with
      | None => (0, 0)
      | Some major =>
          match rest with
          | [] => (major, 0)
          | p1 :: _ =>
              match py_int p1 with
              | Some minor => (major, minor)
              | None => (0, 0)
              end
          end
      end
  end.

(** [a < b] on pairs of integers. *)
Definition pair_lt (a b : Z * Z) : bool :=
  (fst a <? fst b) || ((fst a =? fst b) && (snd a <? snd b)).

(** Line 28: the guard that stops the app. *)
Definition sdk_too_old (v : string) : bool := pair_lt (_parse_ver v) (1, 0).

End Int.

End Version.

(** ** The MIME type of an uploaded file *)

Module Upload.
Import Py PyLib.

(** Lines 555-562 of [main]: the type from the browser, corrected by the
    file name. *)
Definition declared_mime (file_name : string) (browser_type : option string) : string :=
  let name_lower := lower file_name in
  let mime := match or_else browser_type (Some "application/octet-stream") with
              | Some m => m
              | None => ""
              end in
  if endswith name_lower ".md" && String.eqb mime "text/plain" then "text/markdown"
  else if endswith name_lower ".txt" then "text/plain"
  else if endswith name_lower ".pdf" then "application/pdf"
  else mime.

(** Lines 138-143 of [upload_to_gemini]: the SDK's type, else the caller's,
    else the one guessed from the name, else a default.  [guessed] is
    [mimetypes.guess_type(file_name)[0]]. *)
Definition stored_mime (file_name : string) (sdk_mime : option string)
  (mime_guess : option string) (guessed : option string) : option string :=
  or_else sdk_mime
    (or_else mime_guess
       (or_else (match file_name with
                 | EmptyString => None
                 | _ => guessed
                 end)
          (Some "application/octet-stream"))).

End Upload.

(** ** [ensure_state] and [reset_all]: the whole of [st.session_state]

    Here the session state is the dictionary it is, with every key the app
    uses; the quiz page above reads seven of them. *)

Module Reset.
Import Py.

Definition empty_progress : value :=
  PyDict [("total_attempts", PyInt 0); ("total_correct", PyInt 0);
          ("history", PyList [])].

(** Lines 73-91: [defaults]. *)
Definition defaults : dict :=
  [("api_key", PyStr ""); ("client", PyNone); ("context_files", PyList []);
   ("context_text", PyStr ""); ("mode", PyStr "Belajar");
   ("difficulty", PyStr "easy"); ("quiz", PyNone); ("quiz_idx", PyInt 0);
   ("answers", PyDict []); ("current_answered", PyBool false);
   ("current_revealed", PyBool false); ("progress", empty_progress);
   ("messages", PyList [])].

(** Lines 92-94:
    [for k, v in defaults.items(): if k not in st.session_state: st.session_state[k] = v] *)
Definition fill (defaults : dict) (session_state : dict) : dict :=
  fold_left (fun s kv => if dict_mem (fst kv) s then s else dict_set (fst kv) (snd kv) s)
    defaults session_state.

Definition ensure_state (session_state : dict) : dict := fill defaults session_state.

(** Lines 499-513 of [reset_all]: the eleven assignments, in their order,
    before the [st.rerun()] that ends the run. *)
Definition reset_all (session_state : dict) : dict :=
  dict_set "difficulty" (PyStr "easy")
    (dict_set "mode" (PyStr "Belajar")
       (dict_set "progress" empty_progress
          (dict_set "current_revealed" (PyBool false)
             (dict_set "current_answered" (PyBool false)
                (dict_set "answers" (PyDict [])
                   (dict_set "quiz_idx" (PyInt 0)
                      (dict_set "quiz" PyNone
                         (dict_set "messages" (PyList [])
                            (dict_set "context_text" (PyStr "")
                               (dict_set "context_files" (PyList [])
                                  session_state)))))))))).

End Reset.

(** ** Notions the further statements are written with *)

Module Invariants.
Import Py Normalizer Progress Session Spec.

(** The keys of a Python [dict] are pairwise different. *)
Definition unique_keys (d : dict) : Prop := NoDup (map fst d).

(** Every dictionary inside the value has pairwise different keys, as every
    Python object has. *)
Fixpoint well_formed (v : value) : Prop :=
  match v with
  | PyList l =>
      (fix all (l : list value) : Prop :=
         match l with
         | [] => True
         | x :: l' => well_formed x /\ all l'
         end) l
  | PyDict d =>
      unique_keys d /\
      (fix all (d : list (string * value)) : Prop :=
         match d with
         | [] => True
         | (_, x) :: d' => well_formed x /\ all d'
         end) d
  | _ => True
  end.

(** The item is not a dictionary with a repeated key. *)
Definition item_unique_keys (item : value) : Prop :=
  match item with
  | PyDict d => unique_keys d
  | _ => True
  end.

(** An item as the loop leaves it: the six fields, none of the three alias
    fields, four options that are not a dict, an [int] answer index from 0
    to 3. *)
Definition normalized_item (item : value) : bool :=
  match item with
  | PyDict d =>
      dict_mem "question" d && dict_mem "id" d &&
      dict_mem "explanation" d && dict_mem "tags" d &&
      negb (dict_mem "question_text" d) && negb (dict_mem "correct_answer" d) &&
      negb (dict_mem "question_number" d) &&
      match assoc "options" d with
      | Some o => negb (isinstance_dict o) &&
                  match py_len o with Ok n => n =? 4 | Raise _ => false end
      | None => false
      end &&
      match assoc "answer_index" d with
      | Some a => isinstance_int a && in_range 4 a
      | None => false
      end
  | _ => false
  end.

(** A quiz as [gen_quiz] returns it. *)
Definition normalized_quiz (q : value) : bool :=
  match q with
  | PyDict d =>
      dict_mem "topic" d && dict_mem "level" d &&
      negb (dict_mem "questions" d) && negb (dict_mem "quiz_name" d) &&
      match assoc "items" d with
      | Some (PyList l) => forallb normalized_item l
      | _ => false
      end
  | _ => false
  end.

(** [if old in d: d[new] = d.pop(old)] on a dictionary. *)
Definition renamed (old new : string) (d : dict) : dict :=
  match assoc old d with
  | Some x => dict_set new x (dict_remove old d)
  | None => d
  end.

(** [if k not in d: d[k] = x] on a dictionary. *)
Definition defaulted (k : string) (x : value) (d : dict) : dict :=
  match assoc k d with
  | Some _ => d
  | None => dict_set k x d
  end.

(** The top-level dictionary after lines 241-248. *)
Definition top_normalized (difficulty topic_text : string) (d : dict) : dict :=
  defaulted "level" (PyStr difficulty)
    (defaulted "topic"
       (PyStr (match strip topic_text with
               | EmptyString => "Kuis Umum"
               | t => take 100 t
               end))
       (renamed "quiz_name" "topic" (renamed "questions" "items" d))).

(** Whether [items], after aliasing, is there and is a list. *)
Definition has_item_list (d : dict) : bool :=
  match assoc "questions" d with
  | Some x => isinstance_list x
  | None => match assoc "items" d with
            | Some x => isinstance_list x
            | None => false
            end
  end.

(** The value under [letter] in an options dictionary, [""] when there is
    none. *)
Definition option_at (letter : string) (opt_dict : dict) : value :=
  match assoc letter opt_dict with
  | Some x => x
  | None => PyStr ""
  end.

(** No two entries of the history have ids that are [==]. *)
Fixpoint distinct_ids (hist : list entry) : Prop :=
  match hist with
  | [] => True
  | h :: rest =>
      Forall (fun h' => py_eq (h_id h) (h_id h') = false) rest /\ distinct_ids rest
  end.

(** One call of [update_progress]: id, outcome, level, clock. *)
Definition call : Type := value * bool * string * pyfloat.

(** The ledger after a series of calls. *)
Fixpoint record_all (calls : list call) (prog : ledger) : ledger :=
  match calls with
  | [] => prog
  | (qid, correct, level, now) :: rest =>
      record_all rest (update_progress prog qid correct level now)
  end.

(** What every ledger the program builds satisfies. *)
Definition ledger_ok (prog : ledger) : Prop :=
  consistent prog /\ distinct_ids (history prog) /\
  0 <= total_correct prog <= total_attempts prog.

(** The state invariant: the index is not negative and the ledger is sound. *)
Definition session_ok (s : session_state) : Prop :=
  0 <= quiz_idx s /\ ledger_ok (progress s).

(** A script that keeps [P] true of the state, however it ends. *)
Definition preserves {A} (P : session_state -> Prop) (m : script A) : Prop :=
  forall s, P s -> P (snd (m s)).

(** Submit at [t] with choice [c], then reveal, then advance. *)
Definition round (r : pyfloat * Z) : list (pyfloat * action) :=
  [(fst r, ClickSubmit (Some (snd r))); (fst r, ClickReveal); (fst r, ClickNext)].

(** What holds of every section [load_prompts] stores. *)
Definition section_ok (kv : string * value) : Prop :=
  fst kv <> "" /\ exists t, snd kv = PyStr t /\ strip t = t.

End Invariants.

(** ** Further sample inputs *)

Module Samples.
Import Py PyLib Progress Session Examples.

(** The digits of a numeral, with single underscores allowed between two
    digits. *)
Fixpoint digits_of (acc : Z) (after_digit : bool) (s : string) : option Z :=
  match s with
  | EmptyString => if after_digit then Some acc else None
  | String c s' =>
      let n := nat_of_ascii c in
      if ((48 <=? n) && (n <=? 57))%nat
      then digits_of (10 * acc + Z.of_nat (n - 48)) true s'
      else if Ascii.eqb c "_" && after_digit then digits_of acc false s'
      else None
  end.

(** A reading of ASCII decimal numerals as [int] reads them: surrounding
    whitespace, a sign, then the digits. *)
Definition decimal_int (s : string) : option Z :=
  match strip s with
  | String "-" r => option_map Z.opp (digits_of 0 false r)
  | String "+" r => digits_of 0 false r
  | t => digits_of 0 false t
  end.

(** A prompt file with two sections and a line before the first header. *)
Definition prompt_file : string :=
  "notes" ++ newline ++ "[SYSTEM_ROLE]" ++ newline ++ "  Be brief.  " ++ newline
  ++ newline ++ " [QUIZ] " ++ newline ++ "Four options." ++ newline ++ "One answer."
  ++ newline.

(** [s] between double quotes. *)
Definition quoted (s : string) : string := String dquote (s ++ String dquote "").

(** A text that the model returns inside a markdown fence: top-level and
    item aliases, an options dictionary with two letters, a lower-case
    answer letter with blanks around it. *)
Definition fenced_response : string :=
  "```json {" ++ quoted "quiz_name" ++ ": " ++ quoted "sums" ++ ", "
  ++ quoted "questions" ++ ": [{" ++ quoted "question_text" ++ ": "
  ++ quoted "2 + 2 = ?" ++ ", " ++ quoted "options" ++ ": {" ++ quoted "A" ++ ": "
  ++ quoted "3" ++ ", " ++ quoted "B" ++ ": " ++ quoted "4" ++ "}, "
  ++ quoted "correct_answer" ++ ": " ++ quoted " b " ++ ", "
  ++ quoted "question_number" ++ ": 7}]} ```".

(** A decoded quiz that brings both spellings of the top-level keys. *)
Definition aliased_quiz : dict :=
  [("topic", PyStr "old topic"); ("quiz_name", PyStr "sums");
   ("items", PyList []); ("questions", PyList [good_item; good_item])].

(** An item that brings both spellings of its fields. *)
Definition aliased_item : dict :=
  [("question", PyStr "old question"); ("question_text", PyStr "2 + 2 = ?");
   ("options", four_options); ("answer_index", PyInt 3);
   ("correct_answer", PyStr " b "); ("id", PyStr "old id");
   ("question_number", PyInt 7)].

(** An item whose options are a dictionary out of order, with a letter
    missing and a key that is no letter. *)
Definition lettered_options : dict :=
  [("B", PyStr "4"); ("A", PyStr "3"); ("E", PyStr "9"); ("D", PyStr "6")].

Definition lettered_options_item : dict :=
  [("question", PyStr "2 + 2 = ?"); ("options", PyDict lettered_options);
   ("answer_index", PyInt 0)].

(** A ledger with one right and one wrong answer. *)
Definition one_right_one_wrong : ledger :=
  update_progress (update_progress empty_ledger (PyStr "q1") true "easy" noon)
    (PyStr "q2") false "easy" noon.

(** [canonical_example] started again by a learner who answered q1 before. *)
Definition retake : session_state :=
  {| quiz := Some canonical_example; quiz_idx := 0; answers := [];
     current_answered := false; current_revealed := false;
     progress := update_progress empty_ledger (PyStr "q1") true "easy" noon;
     difficulty := "easy" |}.

(** The first item of [canonical_example] answered with B and not yet
    revealed. *)
Definition answered : session_state :=
  {| quiz := Some canonical_example; quiz_idx := 0; answers := [(PyStr "q1", 1)];
     current_answered := true; current_revealed := false;
     progress := update_progress empty_ledger (PyStr "q1") true "easy" noon;
     difficulty := "easy" |}.

End Samples.

(** * Proofs *)

Import Py Normalizer Progress Session Spec Examples.

(** ** The ledger *)

Lemma recorded_iff (qid : value) (hist : list entry) :
  recorded qid hist = true <->
  exists h, In h hist /\ py_eq (h_id h) qid = true.
Proof.
  unfold recorded. rewrite existsb_exists. reflexivity.
Qed.

Lemma count_correct_app (h1 h2 : list entry) :
  count_correct (h1 ++ h2) = count_correct h1 + count_correct h2.
Proof.
  unfold count_correct. rewrite filter_app, length_app. lia.
Qed.

(** C4.  An id that already has an entry in the history (an entry whose id
    is [==] to it) is never recorded again: [update_progress] returns the
    ledger as it was, whatever outcome, level and time are given.  In
    particular, from the empty ledger, q1 answered correctly and then q1
    answered wrongly leaves one attempt and one correct answer. *)
Theorem update_progress_first_write_wins :
  (forall (prog : ledger) (qid : value),
      (exists h, In h (history prog) /\ py_eq (h_id h) qid = true) ->
      forall (correct : bool) (level : string) (now : pyfloat),
        update_progress prog qid correct level now = prog) /\
  (forall (l1 l2 : string) (t1 t2 : pyfloat),
      let prog1 := update_progress empty_ledger (PyStr "q1") true l1 t1 in
      let prog2 := update_progress prog1 (PyStr "q1") false l2 t2 in
      prog2 = prog1 /\ total_attempts prog2 = 1 /\ total_correct prog2 = 1).
Proof.
  split.
  - intros prog qid Hocc correct level now.
    apply recorded_iff in Hocc.
    unfold update_progress. now rewrite Hocc.
  - intros l1 l2 t1 t2. cbn. repeat split.
Qed.

(** C5.  A ledger whose counters agree with its history (as many attempts as
    entries, as many correct answers as entries marked correct) still does
    after [update_progress], whatever the arguments. *)
Theorem update_progress_consistent
  (prog : ledger) (qid : value) (correct : bool) (level : string) (now : pyfloat) :
  consistent prog -> consistent (update_progress prog qid correct level now).
Proof.
  intros [Hatt Hcor]. unfold update_progress.
  destruct (recorded qid (history prog)); [now split|].
  split; cbn [total_attempts total_correct history].
  - rewrite length_app. cbn. lia.
  - rewrite count_correct_app, Hcor.
    destruct correct; unfold count_correct; cbn; lia.
Qed.


(** ** Dictionaries *)

Lemma assoc_set_eq (k : string) (v : value) (d : dict) :
  assoc k (dict_set k v d) = Some v.
Proof.
  induction d as [|[k' v'] d IH]; cbn.
  - now rewrite String.eqb_refl.
  - destruct (String.eqb k' k) eqn:E; cbn; now rewrite E.
Qed.

Lemma assoc_set_neq (k k' : string) (v : value) (d : dict) :
  k <> k' -> assoc k (dict_set k' v d) = assoc k d.
Proof.
  intros Hne. induction d as [|[k0 v0] d IH]; cbn.
  - destruct (String.eqb_spec k' k); congruence.
  - destruct (String.eqb_spec k0 k'); cbn.
    + subst. destruct (String.eqb_spec k' k); congruence.
    + now rewrite IH.
Qed.

Lemma assoc_remove_neq (k k' : string) (d : dict) :
  k <> k' -> assoc k (dict_remove k' d) = assoc k d.
Proof.
  intros Hne. induction d as [|[k0 v0] d IH]; cbn; [reflexivity|].
  destruct (String.eqb_spec k0 k'); cbn.
  - subst. destruct (String.eqb_spec k' k); congruence.
  - now rewrite IH.
Qed.

Lemma dict_set_same (k : string) (v : value) (d : dict) :
  assoc k d = Some v -> dict_set k v d = d.
Proof.
  induction d as [|[k' v'] d IH]; cbn; [discriminate|].
  destruct (String.eqb k' k); intros H.
  - congruence.
  - now rewrite IH.
Qed.

(** ** The loop body on a dictionary *)

Definition keeps (ks : list string) (d d' : dict) : Prop :=
  forall k, ~ In k ks -> assoc k d' = assoc k d.

Lemma keeps_refl ks d : keeps ks d d.
Proof. intros k _. reflexivity. Qed.

Lemma step_question_is_dict i item item' :
  step_question i item = Ok item' -> isinstance_dict item' = isinstance_dict item.
Proof.
  unfold step_question, rename_key, py_in, py_pop, py_setitem, bind.
  destruct item; try discriminate.
  - destruct (str_contains "question_text" s); [discriminate|].
    destruct (str_contains "question" s); cbn; intros H; inversion H; reflexivity.
  - destruct (existsb _ l); [discriminate|].
    destruct (existsb _ l); cbn; intros H; inversion H; reflexivity.
  - destruct (dict_mem "question_text" d).
    + destruct (assoc "question_text" d); [|discriminate].
      match goal with |- context [dict_mem "question" ?x] => destruct (dict_mem "question" x) end;
        cbn; intros H; inversion H; reflexivity.
    + destruct (dict_mem "question" d); cbn; intros H; inversion H; reflexivity.
Qed.

Definition options_listed (d : dict) : dict :=
  match assoc "options" d with
  | Some (PyDict o) => dict_set "options" (options_of_dict o) d
  | _ => d
  end.

Lemma step_options_eq i d :
  step_options i (PyDict d) =
  match assoc "options" (options_listed d) with
  | None => Raise (ValueError (MsgBadOptions i (PyDict (options_listed d))))
  | Some o =>
      match py_len o with
      | Ok n => if n =? 4 then Ok (PyDict (options_listed d))
                else Raise (ValueError (MsgBadOptions i (PyDict (options_listed d))))
      | Raise e => Raise e
      end
  end.
Proof.
  unfold step_options, options_listed, py_get, py_in, py_setitem, py_getitem, bind, dict_mem.
  destruct (assoc "options" d) as [o|] eqn:E.
  - destruct o; rewrite ?assoc_set_eq, ?E; cbn [negb];
      try match goal with |- context [py_len ?x] => destruct (py_len x) as [n|]; [destruct (n =? 4)|] end;
      reflexivity.
  - rewrite E. reflexivity.
Qed.

Lemma keeps_options_listed d : keeps ["options"] d (options_listed d).
Proof.
  unfold options_listed. destruct (assoc "options" d) as [[]|]; try apply keeps_refl.
  intros k Hk. cbn in Hk. rewrite assoc_set_neq by intuition congruence. reflexivity.
Qed.

Lemma step_options_dict i item item' :
  step_options i item = Ok item' ->
  exists d, item = PyDict d /\ item' = PyDict (options_listed d) /\
    exists o, assoc "options" (options_listed d) = Some o /\ py_len o = Ok 4.
Proof.
  destruct item; try discriminate.
  rewrite step_options_eq.
  destruct (assoc "options" (options_listed d)) as [o|] eqn:E; [|discriminate].
  destruct (py_len o) as [n|] eqn:En; [|discriminate].
  destruct (n =? 4) eqn:E4; [|discriminate].
  intros H; inversion H; subst.
  apply Z.eqb_eq in E4; subst.
  exists d. split; [reflexivity|]. split; [reflexivity|].
  exists o. split; assumption.
Qed.

Definition letter_index (corr_ans : string) : option Z :=
  match corr_ans with
  | String c EmptyString => Some (Z.of_nat (nat_of_ascii c) - 65)
  | _ => None
  end.

Lemma step_correct_answer_eq i d :
  step_correct_answer i (PyDict d) =
  match assoc "correct_answer" d with
  | None => Ok (PyDict d)
  | Some (PyStr s) =>
      let corr_ans := upper (strip s) in
      if str_contains corr_ans "ABCD" then
        match letter_index corr_ans with
        | Some n => Ok (PyDict (dict_remove "correct_answer"
                                  (dict_set "answer_index" (PyInt n) d)))
        | None => Raise TypeError
        end
      else Raise (ValueError (MsgBadCorrectAnswer i corr_ans))
  | Some _ => Raise AttributeError
  end.
Proof.
  unfold step_correct_answer, py_in, py_getitem, py_setitem, py_delitem, bind, dict_mem.
  destruct (assoc "correct_answer" d) as [c|] eqn:E; [|reflexivity].
  destruct c; try reflexivity.
  cbn [py_strip_upper]. cbv zeta.
  destruct (str_contains (upper (strip s)) "ABCD"); [|reflexivity].
  unfold py_ord, letter_index.
  destruct (upper (strip s)) as [|c [|c' r]]; try reflexivity.
  rewrite assoc_set_neq by discriminate. rewrite E. reflexivity.
Qed.

Definition question_renamed (d : dict) : dict :=
  match assoc "question_text" d with
  | Some x => dict_set "question" x (dict_remove "question_text" d)
  | None => d
  end.

Lemma step_question_eq i d :
  step_question i (PyDict d) =
  if dict_mem "question" (question_renamed d) then Ok (PyDict (question_renamed d))
  else Raise (ValueError (MsgNoQuestion i (PyDict (question_renamed d)))).
Proof.
  unfold step_question, question_renamed, rename_key, py_in, py_pop, py_setitem, bind, dict_mem.
  destruct (assoc "question_text" d); cbn [negb];
    match goal with |- context [assoc "question" ?x] => destruct (assoc "question" x) end;
    reflexivity.
Qed.

Lemma keeps_question_renamed d :
  keeps ["question"; "question_text"] d (question_renamed d).
Proof.
  unfold question_renamed. destruct (assoc "question_text" d); [|apply keeps_refl].
  intros k Hk. cbn in Hk.
  rewrite assoc_set_neq, assoc_remove_neq by intuition congruence. reflexivity.
Qed.

Lemma check_answer_index_eq i d :
  check_answer_index i (PyDict d) =
  match assoc "answer_index" d with
  | Some a =>
      if isinstance_int a && in_range 4 a then Ok (PyDict d)
      else Raise (ValueError (MsgBadAnswerIndex i (PyDict d)))
  | None => Raise (ValueError (MsgBadAnswerIndex i (PyDict d)))
  end.
Proof.
  unfold check_answer_index, py_in, py_getitem, bind, dict_mem.
  destruct (assoc "answer_index" d) as [a|]; [|reflexivity].
  cbn [negb]. destruct (isinstance_int a), (in_range 4 a); reflexivity.
Qed.

Definition id_assigned (i : nat) (d : dict) : dict :=
  let d1 := match assoc "question_number" d with
            | Some x => dict_set "id" (PyStr ("q" ++ str x)) (dict_remove "question_number" d)
            | None => d
            end in
  match assoc "id" d1 with
  | Some _ => d1
  | None => dict_set "id" (PyStr ("q" ++ str_int (Z.of_nat i + 1))) d1
  end.

Lemma step_id_eq i d : step_id i (PyDict d) = Ok (PyDict (id_assigned i d)).
Proof.
  unfold step_id, id_assigned, set_default, py_in, py_pop, py_setitem, bind, dict_mem.
  destruct (assoc "question_number" d); cbv zeta;
    match goal with |- context [assoc "id" ?x] => destruct (assoc "id" x) end;
    reflexivity.
Qed.

Definition defaults_added (d : dict) : dict :=
  let d1 := match assoc "explanation" d with
            | Some _ => d
            | None => dict_set "explanation" (PyStr "") d
            end in
  match assoc "tags" d1 with
  | Some _ => d1
  | None => dict_set "tags" (PyList []) d1
  end.

Lemma step_defaults_eq d : step_defaults (PyDict d) = Ok (PyDict (defaults_added d)).
Proof.
  unfold step_defaults, defaults_added, set_default, py_in, py_setitem, bind, dict_mem.
  destruct (assoc "explanation" d); cbv zeta;
    match goal with |- context [assoc "tags" ?x] => destruct (assoc "tags" x) end;
    reflexivity.
Qed.

Lemma keeps_id_assigned i d : keeps ["id"; "question_number"] d (id_assigned i d).
Proof.
  unfold id_assigned. intros k Hk. cbn in Hk.
  destruct (assoc "question_number" d); cbv zeta;
    match goal with |- context [assoc "id" ?x] => destruct (assoc "id" x) end;
    rewrite ?assoc_set_neq, ?assoc_remove_neq by (intuition congruence); reflexivity.
Qed.

Lemma keeps_defaults_added d : keeps ["explanation"; "tags"] d (defaults_added d).
Proof.
  unfold defaults_added. intros k Hk. cbn in Hk.
  destruct (assoc "explanation" d); cbv zeta;
    match goal with |- context [assoc "tags" ?x] => destruct (assoc "tags" x) end;
    rewrite ?assoc_set_neq by (intuition congruence); reflexivity.
Qed.

(** An item that passes the loop body is a dictionary, and so is the result. *)
Lemma normalize_item_dict i item item' :
  normalize_item i item = Ok item' ->
  exists d d1 d2, item = PyDict d /\
    step_question i (PyDict d) = Ok (PyDict d1) /\
    step_options i (PyDict d1) = Ok (PyDict (options_listed d1)) /\
    step_correct_answer i (PyDict (options_listed d1)) = Ok (PyDict d2) /\
    check_answer_index i (PyDict d2) = Ok (PyDict d2) /\
    item' = PyDict (defaults_added (id_assigned i d2)).
Proof.
  unfold normalize_item. intros H.
  destruct (step_question i item) as [it1|] eqn:E1; [|discriminate]. cbn [bind] in H.
  destruct (step_options i it1) as [it2|] eqn:E2; [|discriminate]. cbn [bind] in H.
  destruct (step_options_dict _ _ _ E2) as (d1 & -> & -> & _).
  pose proof (step_question_is_dict _ _ _ E1) as Hd.
  destruct item; try discriminate Hd. clear Hd.
  destruct (step_correct_answer i (PyDict (options_listed d1))) as [it3|] eqn:E3;
    [|discriminate]. cbn [bind] in H.
  assert (exists d2, it3 = PyDict d2) as [d2 ->].
  { rewrite step_correct_answer_eq in E3.
    destruct (assoc "correct_answer" (options_listed d1)) as [[]|]; try discriminate;
      [|inversion E3; eauto].
    cbv zeta in E3. destruct (str_contains _ _); [|discriminate].
    destruct (letter_index _); [|discriminate]. inversion E3; eauto. }
  destruct (check_answer_index i (PyDict d2)) as [it4|] eqn:E4; [|discriminate].
  cbn [bind] in H.
  assert (it4 = PyDict d2) as ->.
  { rewrite check_answer_index_eq in E4.
    destruct (assoc "answer_index" d2); [|discriminate].
    destruct (_ && _); [|discriminate]. now inversion E4. }
  rewrite step_id_eq in H. cbn [bind] in H. rewrite step_defaults_eq in H.
  inversion H; subst.
  exists d, d1, d2. repeat split; assumption.
Qed.

Lemma py_in_nov k v m : py_in k v <> Raise (ValueError m).
Proof. destruct v; cbn; congruence. Qed.

Lemma py_getitem_nov v k m : py_getitem v k <> Raise (ValueError m).
Proof. destruct v; cbn; try congruence. destruct (assoc k d); congruence. Qed.

Lemma py_get_nov v k m : py_get v k <> Raise (ValueError m).
Proof. destruct v; cbn; try congruence. destruct (assoc k d); congruence. Qed.

Lemma py_setitem_nov v k x m : py_setitem v k x <> Raise (ValueError m).
Proof. destruct v; cbn; congruence. Qed.

Lemma py_pop_nov v k m : py_pop v k <> Raise (ValueError m).
Proof. destruct v; cbn; try congruence. destruct (assoc k d); congruence. Qed.

Lemma py_delitem_nov v k m : py_delitem v k <> Raise (ValueError m).
Proof. destruct v; cbn; try congruence. destruct (assoc k d); congruence. Qed.

Lemma py_len_nov v m : py_len v <> Raise (ValueError m).
Proof. destruct v; cbn; congruence. Qed.

Lemma py_strip_upper_nov v m : py_strip_upper v <> Raise (ValueError m).
Proof. destruct v; cbn; congruence. Qed.

Lemma py_ord_nov s m : py_ord s <> Raise (ValueError m).
Proof. destruct s as [|c [|c' r]]; cbn; congruence. Qed.

(** [bind_raise H] splits [H : bind c k = Raise (ValueError m)] on the
    outcome of [c]; the case where [c] itself raised is left to the caller. *)
Ltac bind_raise H E :=
  match type of H with
  | bind ?c _ = Raise (ValueError _) => destruct c eqn:E; cbn [bind] in H
  end.

Ltac from_helper H E :=
  exfalso; inversion H; subst;
  first [ eapply py_in_nov; exact E | eapply py_getitem_nov; exact E
        | eapply py_get_nov; exact E | eapply py_setitem_nov; exact E
        | eapply py_pop_nov; exact E | eapply py_delitem_nov; exact E
        | eapply py_len_nov; exact E | eapply py_strip_upper_nov; exact E
        | eapply py_ord_nov; exact E ].

Lemma rename_key_nov old new v m : rename_key old new v <> Raise (ValueError m).
Proof.
  unfold rename_key. intros H.
  bind_raise H E; [|from_helper H E].
  destruct a; [|discriminate].
  bind_raise H E'; [|from_helper H E'].
  destruct a. now apply py_setitem_nov in H.
Qed.

Lemma set_default_nov k x v m : set_default k x v <> Raise (ValueError m).
Proof.
  unfold set_default. intros H.
  bind_raise H E; [|from_helper H E].
  destruct a; [discriminate|]. now apply py_setitem_nov in H.
Qed.

Lemma step_question_names i item m :
  step_question i item = Raise (ValueError m) -> message_item m = Some i.
Proof.
  unfold step_question. intros H.
  bind_raise H E; [|inversion H; subst; now apply rename_key_nov in E].
  bind_raise H E'; [|from_helper H E'].
  destruct a0; [discriminate|]. now inversion H.
Qed.

Lemma step_options_names i item m :
  step_options i item = Raise (ValueError m) -> message_item m = Some i.
Proof.
  unfold step_options. intros H.
  bind_raise H E; [|from_helper H E].
  bind_raise H E1.
  2:{ destruct a; try discriminate E1. from_helper H E1. }
  bind_raise H E2; [|from_helper H E2].
  destruct a1; cbn [negb] in H; [|now inversion H].
  bind_raise H E3; [|from_helper H E3].
  bind_raise H E4; [|from_helper H E4].
  destruct (negb _); [now inversion H|discriminate].
Qed.

Lemma step_correct_answer_names i item m :
  step_correct_answer i item = Raise (ValueError m) -> message_item m = Some i.
Proof.
  unfold step_correct_answer. intros H.
  bind_raise H E; [|from_helper H E].
  destruct a; [|discriminate].
  bind_raise H E1; [|from_helper H E1].
  bind_raise H E2; [|from_helper H E2].
  destruct (str_contains a0 "ABCD"); [|now inversion H].
  bind_raise H E3; [|from_helper H E3].
  bind_raise H E4; [|from_helper H E4].
  now apply py_delitem_nov in H.
Qed.

Lemma check_answer_index_names i item m :
  check_answer_index i item = Raise (ValueError m) -> message_item m = Some i.
Proof.
  unfold check_answer_index. intros H.
  bind_raise H E; [|from_helper H E].
  destruct a; cbn [negb] in H; [|now inversion H].
  bind_raise H E1; [|from_helper H E1].
  destruct (_ || _); [now inversion H|discriminate].
Qed.

Lemma step_id_names i item m :
  step_id i item <> Raise (ValueError m).
Proof.
  unfold step_id. intros H.
  bind_raise H E; [|from_helper H E].
  bind_raise H E1; [now apply set_default_nov in H|].
  inversion H; subst. clear H.
  destruct a; [|discriminate].
  bind_raise E1 E2; [|from_helper E1 E2].
  destruct a. now apply py_setitem_nov in E1.
Qed.

Lemma step_defaults_names item m :
  step_defaults item <> Raise (ValueError m).
Proof.
  unfold step_defaults. intros H.
  bind_raise H E; [now apply set_default_nov in H|].
  inversion H; subst. now apply set_default_nov in E.
Qed.

(** A [ValueError] of the loop body names the index of the item at hand. *)
Lemma normalize_item_names i item m :
  normalize_item i item = Raise (ValueError m) -> message_item m = Some i.
Proof.
  unfold normalize_item. intros H.
  destruct (step_question i item) as [it1|e1] eqn:E1; cbn [bind] in H;
    [|inversion H; subst; eapply step_question_names; eauto].
  destruct (step_options i it1) as [it2|e2] eqn:E2; cbn [bind] in H;
    [|inversion H; subst; eapply step_options_names; eauto].
  destruct (step_correct_answer i it2) as [it3|e3] eqn:E3; cbn [bind] in H;
    [|inversion H; subst; eapply step_correct_answer_names; eauto].
  destruct (check_answer_index i it3) as [it4|e4] eqn:E4; cbn [bind] in H;
    [|inversion H; subst; eapply check_answer_index_names; eauto].
  destruct (step_id i it4) as [it5|e5] eqn:E5; cbn [bind] in H;
    [|inversion H; subst; now apply step_id_names in E5].
  now apply step_defaults_names in H.
Qed.

Lemma normalize_items_first_failure i pre pre' bad post e :
  normalize_items i pre = Ok pre' ->
  normalize_item (i + List.length pre) bad = Raise e ->
  normalize_items i (pre ++ bad :: post) = Raise e.
Proof.
  revert i pre'. induction pre as [|x pre IH]; intros i pre' Hpre Hbad; cbn in *.
  - rewrite Nat.add_0_r in Hbad. now rewrite Hbad.
  - destruct (normalize_item i x) as [x'|]; [|discriminate]. cbn [bind] in *.
    destruct (normalize_items (S i) pre) as [r|] eqn:Er; [|discriminate].
    rewrite (IH (S i) r); [reflexivity|exact Er|].
    now rewrite Nat.add_succ_comm.
Qed.

Lemma str_int_inj (n n' : Z) : str_int n = str_int n' -> n = n'.
Proof.
  unfold str_int. intros H.
  apply DecimalZ.to_int_inj.
  assert (Hnn : forall z, Z.to_int z <> Decimal.Pos Decimal.Nil /\
                          Z.to_int z <> Decimal.Neg Decimal.Nil).
  { intros [|p|p]; cbn; split; try discriminate;
      intros [= Hp]; now apply (DecimalPos.Unsigned.to_uint_nonnil p). }
  apply (f_equal NilZero.int_of_string) in H.
  rewrite !NilZero.isi in H by apply Hnn.
  congruence.
Qed.

Lemma default_id_inj i j : default_id i = default_id j -> i = j.
Proof.
  unfold default_id. intros [= H]. apply str_int_inj in H. lia.
Qed.

Lemma step_correct_answer_keeps i d d' :
  step_correct_answer i (PyDict d) = Ok (PyDict d') ->
  keeps ["answer_index"; "correct_answer"] d d'.
Proof.
  rewrite step_correct_answer_eq.
  destruct (assoc "correct_answer" d) as [[]|]; try discriminate.
  - cbv zeta. destruct (str_contains _ _); [|discriminate].
    destruct (letter_index _); [|discriminate].
    intros [= <-] k Hk. cbn in Hk.
    rewrite assoc_remove_neq, assoc_set_neq by (intuition congruence). reflexivity.
  - intros [= <-]. apply keeps_refl.
Qed.

(** The id an item leaves the loop with. *)
Definition id_of (i : nat) (d : dict) : value :=
  match assoc "question_number" d with
  | Some x => PyStr ("q" ++ str x)
  | None => match assoc "id" d with
            | Some v => v
            | None => default_id i
            end
  end.

Lemma assoc_id_assigned i d : assoc "id" (id_assigned i d) = Some (id_of i d).
Proof.
  unfold id_assigned, id_of.
  destruct (assoc "question_number" d); cbv zeta.
  - now rewrite !assoc_set_eq.
  - destruct (assoc "id" d) eqn:E; [exact E|apply assoc_set_eq].
Qed.

Lemma normalize_item_id i d item' :
  normalize_item i (PyDict d) = Ok item' ->
  item_id item' = Some (id_of i d).
Proof.
  intros H. apply normalize_item_dict in H.
  destruct H as (d0 & d1 & d2 & [= <-] & H1 & H2 & H3 & H4 & ->).
  cbn [item_id].
  rewrite keeps_defaults_added by (cbn; intuition congruence).
  rewrite assoc_id_assigned. f_equal.
  apply step_correct_answer_keeps in H3.
  rewrite step_question_eq in H1.
  destruct (dict_mem "question" (question_renamed d)); [|discriminate].
  injection H1 as <-.
  unfold id_of.
  rewrite !H3, !keeps_options_listed, !keeps_question_renamed
    by (cbn; intuition congruence).
  reflexivity.
Qed.

Lemma normalize_items_default_ids i items items' :
  normalize_items i items = Ok items' ->
  forallb (fun it => negb (has_key "id" it) && negb (has_key "question_number" it)) items = true ->
  map item_id items' = map (fun k => Some (default_id k)) (seq i (List.length items)).
Proof.
  revert i items'. induction items as [|x items IH]; intros i items' H Hno; cbn in *.
  - now inversion H.
  - destruct (normalize_item i x) as [x'|] eqn:Ex; [|discriminate]. cbn [bind] in H.
    destruct (normalize_items (S i) items) as [r|] eqn:Er; [|discriminate].
    cbn in H. injection H as <-.
    apply andb_prop in Hno as [Hx Hno].
    cbn. rewrite (IH _ _ Er Hno). f_equal.
    pose proof Ex as Hd. apply normalize_item_dict in Hd.
    destruct Hd as (d & _ & _ & -> & _).
    rewrite (normalize_item_id _ _ _ Ex). f_equal.
    unfold id_of. cbn in Hx. unfold dict_mem in Hx.
    destruct (assoc "id" d); [discriminate|].
    destruct (assoc "question_number" d); [discriminate|]. reflexivity.
Qed.

Lemma normalize_top_dict difficulty topic raw top items :
  normalize_top difficulty topic raw = Ok (top, items) ->
  exists d, top = PyDict d /\ assoc "items" d = Some (PyList items).
Proof.
  unfold normalize_top. intros H.
  repeat match type of H with
         | bind ?c _ = Ok _ => destruct c; cbn [bind] in H; [|discriminate]
         end.
  destruct a3; cbn [negb] in H; [|discriminate].
  destruct (py_getitem a2 "items") as [it|] eqn:E; cbn [bind] in H; [|discriminate].
  destruct a2; try discriminate E. cbn in E.
  destruct (assoc "items" d) as [x|] eqn:Ex; [|discriminate]. injection E as ->.
  destruct it; try discriminate.
  destruct l as [|y l].
  - cbn in H. injection H as <- <-. eexists; split; [reflexivity|apply assoc_set_eq].
  - injection H as <- <-. eexists; split; [reflexivity|exact Ex].
Qed.

Lemma normalize_ok difficulty topic raw q :
  normalize difficulty topic raw = Ok q ->
  exists d items items',
    normalize_top difficulty topic raw = Ok (PyDict d, items) /\
    normalize_items 0 items = Ok items' /\
    q = PyDict (dict_set "items" (PyList items') d).
Proof.
  unfold normalize. intros H.
  destruct (normalize_top difficulty topic raw) as [[top items]|] eqn:Et; [|discriminate].
  cbn [bind] in H.
  destruct (normalize_top_dict _ _ _ _ _ Et) as (d & -> & _).
  destruct (normalize_items 0 items) as [items'|] eqn:Ei; [|discriminate].
  cbn in H. injection H as <-. now exists d, items, items'.
Qed.

Lemma normalize_items_length i items items' :
  normalize_items i items = Ok items' -> List.length items' = List.length items.
Proof.
  revert i items'. induction items as [|x items IH]; intros i items' H; cbn in *.
  - now inversion H.
  - destruct (normalize_item i x); [|discriminate]. cbn [bind] in H.
    destruct (normalize_items (S i) items) eqn:E; [|discriminate].
    cbn in H. injection H as <-. cbn. f_equal. eauto.
Qed.

Lemma normalize_items_assigned_ids i items items' :
  normalize_items i items = Ok items' ->
  map item_id items' = assigned_ids i items.
Proof.
  revert i items'. induction items as [|x items IH]; intros i items' H; cbn in *.
  - now inversion H.
  - destruct (normalize_item i x) as [x'|] eqn:Ex; [|discriminate]. cbn [bind] in H.
    destruct (normalize_items (S i) items) as [r|] eqn:Er; [|discriminate].
    cbn in H. injection H as <-.
    cbn. rewrite (IH _ _ Er). f_equal.
    pose proof Ex as Hd. apply normalize_item_dict in Hd.
    destruct Hd as (d & _ & _ & -> & _).
    now rewrite (normalize_item_id _ _ _ Ex).
Qed.

(** C3, as the code behaves.  Ids are not compared with one another.  On
    every input that normalises, the item at index [i] of the quiz returned
    has the id [assigned_id i] of the input item: "q" and its
    [question_number] if it has one, else its [id], else "q" followed by
    [i + 1].  So the ids returned are pairwise different exactly when these
    are, and equal ones pass without an error.  When no item of the input
    carries [id] or [question_number], the ids are q1, q2, ... in order and
    no two are the same. *)
Theorem returned_ids_as_assigned difficulty topic raw q :
  normalize difficulty topic raw = Ok q ->
  quiz_ids q = assigned_ids 0 (loop_items difficulty topic raw) /\
  (NoDup (quiz_ids q) <-> NoDup (assigned_ids 0 (loop_items difficulty topic raw))) /\
  (forallb (fun it => negb (has_key "id" it) && negb (has_key "question_number" it))
           (loop_items difficulty topic raw) = true ->
   quiz_ids q = map (fun k => Some (default_id k)) (seq 0 (List.length (quiz_items q))) /\
   NoDup (quiz_ids q)).
Proof.
  intros H.
  destruct (normalize_ok _ _ _ _ H) as (d & items & items' & Ht & Hi & ->).
  unfold loop_items. rewrite Ht.
  assert (Hall : quiz_ids (PyDict (dict_set "items" (PyList items') d))
                 = assigned_ids 0 items).
  { unfold quiz_ids, quiz_items. rewrite assoc_set_eq.
    now apply normalize_items_assigned_ids. }
  split; [exact Hall|]. split; [now rewrite Hall|].
  intros Hno.
  assert (Hids : quiz_ids (PyDict (dict_set "items" (PyList items') d)) =
                 map (fun k => Some (default_id k))
                     (seq 0 (List.length (quiz_items (PyDict (dict_set "items" (PyList items') d)))))).
  { unfold quiz_ids, quiz_items. rewrite assoc_set_eq.
    rewrite (normalize_items_length _ _ _ Hi).
    now apply normalize_items_default_ids. }
  split; [exact Hids|].
  rewrite Hids. apply Injective_map_NoDup; [|apply seq_NoDup].
  intros i j Hij. apply default_id_inj. congruence.
Qed.

Lemma normalize_item_canonical i item :
  canonical_item item = true -> normalize_item i item = Ok item.
Proof.
  destruct item; try discriminate. cbn [canonical_item]. unfold dict_mem. intros H.
  repeat (apply andb_prop in H as [H ?]).
  destruct (assoc "id" d) eqn:Eid; [|discriminate].
  destruct (assoc "question" d) eqn:Eq; [|discriminate].
  destruct (assoc "explanation" d) eqn:Eex; [|discriminate].
  destruct (assoc "tags" d) eqn:Etg; [|discriminate].
  destruct (assoc "question_text" d) eqn:Eqt; [discriminate|].
  destruct (assoc "correct_answer" d) eqn:Eca; [discriminate|].
  destruct (assoc "question_number" d) eqn:Eqn; [discriminate|].
  destruct (assoc "options" d) as [[]|] eqn:Eop; try discriminate.
  destruct (assoc "answer_index" d) as [a|] eqn:Eai; [|discriminate].
  unfold normalize_item.
  rewrite step_question_eq. unfold question_renamed, dict_mem. rewrite Eqt, Eq. cbn [bind].
  rewrite step_options_eq. unfold options_listed. rewrite !Eop. cbn [py_len].
  match goal with H : Nat.eqb _ 4 = true |- _ => apply Nat.eqb_eq in H; rewrite H end.
  cbn [Z.of_nat Z.eqb Pos.of_succ_nat Pos.succ Pos.eqb bind].
  rewrite step_correct_answer_eq, Eca. cbn [bind].
  rewrite check_answer_index_eq, Eai.
  match goal with H : _ && _ = true |- _ => rewrite H end. cbn [bind].
  rewrite step_id_eq. cbn [bind]. rewrite step_defaults_eq.
  unfold id_assigned, defaults_added. rewrite Eqn. cbv zeta. rewrite Eid, Eex. now rewrite Etg.
Qed.

Lemma normalize_items_canonical i items :
  forallb canonical_item items = true -> normalize_items i items = Ok items.
Proof.
  revert i. induction items as [|x items IH]; intros i H; cbn in *; [reflexivity|].
  apply andb_prop in H as [Hx H].
  now rewrite normalize_item_canonical, IH.
Qed.

(** C8.  A quiz already in the canonical schema is returned as it is: same
    keys in the same order, every item with its id, its options in their
    order and its answer index untouched. *)
Theorem normalize_canonical difficulty topic q :
  canonical_quiz q = true -> normalize difficulty topic q = Ok q.
Proof.
  destruct q; try discriminate. cbn [canonical_quiz]. unfold dict_mem. intros H.
  repeat (apply andb_prop in H as [H ?]).
  destruct (assoc "topic" d) eqn:Et; [|discriminate].
  destruct (assoc "level" d) eqn:El; [|discriminate].
  destruct (assoc "questions" d) eqn:Eqs; [discriminate|].
  destruct (assoc "quiz_name" d) eqn:Eqn; [discriminate|].
  destruct (assoc "items" d) as [[]|] eqn:Eit; try discriminate.
  assert (Htop : normalize_top difficulty topic (PyDict d) = Ok (PyDict d, l)).
  { unfold normalize_top, rename_key, set_default, py_in, py_getitem, py_setitem, dict_mem.
    cbn [bind]. rewrite Eqs. cbn [bind]. rewrite Eqn. cbn [bind]. rewrite Et. cbn [bind].
    rewrite El. cbn [bind]. rewrite Eit. cbn [bind negb].
    destruct l; [|reflexivity]. cbn [bind]. now rewrite (dict_set_same _ _ _ Eit). }
  unfold normalize. rewrite Htop. cbn [bind].
  rewrite normalize_items_canonical by assumption. cbn.
  now rewrite (dict_set_same _ _ _ Eit).
Qed.

(** ** Claims about the item loop *)

(** C1, as the code behaves.  The loop stops at the first item whose pass
    raises: when the items before it pass and it raises [e], [normalize]
    raises that same [e], whatever the later items are.  If [e] is a
    [ValueError], its text names the index of that item and no other. *)
Theorem validation_fails_fast
  (difficulty topic : string) (raw top : value) (pre post pre' : list value)
  (bad : value) (e : exn) :
  normalize_top difficulty topic raw = Ok (top, (pre ++ bad :: post)%list) ->
  normalize_items 0 pre = Ok pre' ->
  normalize_item (List.length pre) bad = Raise e ->
  normalize difficulty topic raw = Raise e /\
  (forall m, e = ValueError m -> message_item m = Some (List.length pre)).
Proof.
  intros Htop Hpre Hbad. split.
  - unfold normalize. rewrite Htop. cbn [bind].
    now rewrite (normalize_items_first_failure 0 pre pre' bad post e).
  - intros m ->. now apply normalize_item_names in Hbad.
Qed.

(** C1 fails as stated: in [two_violations] item 0 has three options and
    item 1 has no question, each a violation on its own, yet the error raised
    is the one of item 0 alone and does not name item 1. *)
Lemma two_violations_one_reported :
  normalize_item 0 three_options_item
    = Raise (ValueError (MsgBadOptions 0 three_options_item)) /\
  normalize_item 1 no_question_item
    = Raise (ValueError (MsgNoQuestion 1 no_question_item)) /\
  normalize "easy" "" two_violations
    = Raise (ValueError (MsgBadOptions 0 three_options_item)) /\
  message_item (MsgBadOptions 0 three_options_item) <> Some 1%nat.
Proof.
  repeat split; try reflexivity. discriminate.
Qed.

(** The letters [step_correct_answer] is meant for: one of A, B, C, D once
    stripped and upper-cased gives the index 0 to 3 and the field is removed. *)
Lemma correct_answer_letter_accepted (i : nat) (d : dict) (s : string) (n : Z) :
  assoc "correct_answer" d = Some (PyStr s) ->
  In (upper (strip s), n) [("A", 0); ("B", 1); ("C", 2); ("D", 3)] ->
  step_correct_answer i (PyDict d)
    = Ok (PyDict (dict_remove "correct_answer" (dict_set "answer_index" (PyInt n) d))).
Proof.
  intros Hs Hin. rewrite step_correct_answer_eq, Hs. cbv zeta.
  cbn in Hin.
  destruct Hin as [[= <- <-]|[[= <- <-]|[[= <- <-]|[[= <- <-]|[]]]]]; reflexivity.
Qed.

(** A text that is not a piece of "ABCD" is refused with the [ValueError]
    that names the item. *)
Lemma correct_answer_refused (i : nat) (d : dict) (s : string) :
  assoc "correct_answer" d = Some (PyStr s) ->
  str_contains (upper (strip s)) "ABCD" = false ->
  step_correct_answer i (PyDict d)
    = Raise (ValueError (MsgBadCorrectAnswer i (upper (strip s)))).
Proof.
  intros Hs Hc. rewrite step_correct_answer_eq, Hs. cbv zeta. now rewrite Hc.
Qed.

(** C2, where the code falls short of it.  [corr_ans in "ABCD"] is a
    substring test, so the empty text and "AB" pass it and reach [ord], which
    raises [TypeError] for a text that is not one character: the item is not
    refused with the [ValueError] that names it.  (So do "BC", "CD", "ABC",
    "BCD", "ABCD", and padded or lower-case spellings of them.) *)
Theorem correct_answer_substring_reaches_ord (i : nat) :
  normalize_item i (lettered_item "AB") = Raise TypeError /\
  normalize_item i (lettered_item "") = Raise TypeError /\
  normalize_item i (lettered_item " bcd ") = Raise TypeError /\
  normalize_item i (lettered_item "E")
    = Raise (ValueError (MsgBadCorrectAnswer i "E")) /\
  (exists item', normalize_item i (lettered_item " b ") = Ok item' /\
                 py_getitem item' "answer_index" = Ok (PyInt 1) /\
                 has_key "correct_answer" item' = false).
Proof.
  repeat split; try reflexivity.
  eexists. repeat split.
Qed.

(** ** Claims about ids *)

(** C3 fails as stated: two items that both carry [question_number] 1 come
    out with the same id "q1", and no error is raised. *)
Lemma same_number_same_id :
  exists q, normalize "easy" "" same_number_twice = Ok q /\
            quiz_ids q = [Some (PyStr "q1"); Some (PyStr "q1")] /\
            ~ NoDup (quiz_ids q).
Proof.
  eexists. split; [reflexivity|]. split; [reflexivity|].
  cbn. intros H. inversion H as [|x l Hnotin _]. apply Hnotin. now left.
Qed.

(** ** Claims about a boolean answer index *)

(** How a boolean index is read wherever the page uses it: in the grading
    equality, as a position in the options, and as a letter. *)
Lemma boolean_behaves_as_index (b : bool) :
  (forall c : Z, py_eq (PyInt c) (PyBool b) = (c =? Z.b2z b)) /\
  (forall o : value, isinstance_dict o = false ->
                     py_index o (PyBool b) = py_index o (PyInt (Z.b2z b))) /\
  py_letter (PyBool b) = py_letter (PyInt (Z.b2z b)).
Proof.
  split; [|split].
  - intros c. cbn. unfold Qeq_bool. cbn. now rewrite !Z.mul_1_r.
  - intros o Ho. destruct o; try reflexivity. discriminate.
  - reflexivity.
Qed.

(** C10, as the code behaves.  An item without [correct_answer] whose
    [answer_index] is [True] or [False] and that passes the question and
    options steps passes the whole loop body; the boolean is kept as it is,
    and it is read as index 1 or 0 by the grading equality, by the indexing
    of the options (a list or a text) and by the letter shown. *)
Theorem boolean_answer_index_accepted
  (i : nat) (item it1 it2 : value) (b : bool) :
  py_getitem item "answer_index" = Ok (PyBool b) ->
  py_in "correct_answer" item = Ok false ->
  step_question i item = Ok it1 ->
  step_options i it1 = Ok it2 ->
  (exists item', normalize_item i item = Ok item' /\
                 py_getitem item' "answer_index" = Ok (PyBool b)) /\
  (forall c : Z, py_eq (PyInt c) (PyBool b) = (c =? Z.b2z b)) /\
  (forall o : value, isinstance_dict o = false ->
                     py_index o (PyBool b) = py_index o (PyInt (Z.b2z b))) /\
  py_letter (PyBool b) = py_letter (PyInt (Z.b2z b)).
Proof.
  intros Hai Hca H1 H2. split; [|apply boolean_behaves_as_index].
  destruct item; try discriminate Hai. cbn in Hai, Hca. unfold dict_mem in Hca.
  destruct (assoc "answer_index" d) as [a|] eqn:Ea; [|discriminate].
  injection Hai as ->.
  destruct (assoc "correct_answer" d) eqn:Ec; [discriminate|].
  rewrite step_question_eq in H1.
  destruct (dict_mem "question" (question_renamed d)) eqn:Eq; [|discriminate].
  injection H1 as <-.
  destruct (step_options_dict _ _ _ H2) as (d1 & [= <-] & -> & _).
  pose proof (keeps_question_renamed d) as K1.
  pose proof (keeps_options_listed (question_renamed d)) as K2.
  set (d2 := options_listed (question_renamed d)) in *.
  assert (Ea2 : assoc "answer_index" d2 = Some (PyBool b)).
  { rewrite K2, K1 by (cbn; intuition congruence). exact Ea. }
  assert (Ec2 : assoc "correct_answer" d2 = None).
  { rewrite K2, K1 by (cbn; intuition congruence). exact Ec. }
  exists (PyDict (defaults_added (id_assigned i d2))). split.
  - unfold normalize_item. rewrite step_question_eq, Eq. cbn [bind].
    rewrite H2. cbn [bind].
    rewrite step_correct_answer_eq, Ec2. cbn [bind].
    rewrite check_answer_index_eq, Ea2.
    replace (isinstance_int (PyBool b) && in_range 4 (PyBool b)) with true
      by now destruct b.
    cbn [bind]. rewrite step_id_eq. cbn [bind]. now rewrite step_defaults_eq.
  - cbn [py_getitem].
    rewrite keeps_defaults_added, keeps_id_assigned by (cbn; intuition congruence).
    now rewrite Ea2.
Qed.

(** C10 fails as stated when the item also carries a letter:
    [correct_answer] "A" overwrites the boolean [True], and the item is
    graded with index 0, not 1. *)
Lemma boolean_overwritten_by_letter :
  py_getitem boolean_and_letter_item "answer_index" = Ok (PyBool true) /\
  exists item',
    normalize_item 0 boolean_and_letter_item = Ok item' /\
    py_getitem item' "answer_index" = Ok (PyInt 0) /\
    py_eq (PyInt 1) (PyInt 0) = false /\ py_eq (PyInt 0) (PyInt 0) = true.
Proof.
  split; [reflexivity|]. eexists. repeat split.
Qed.

(** ** Parsing with one recovery attempt *)

Lemma has_char_app c s t : has_char c (s ++ t) = has_char c s || has_char c t.
Proof.
  induction s as [|a s IH]; cbn; [reflexivity|]. now rewrite IH, orb_assoc.
Qed.

Lemma from_first_spec c s t :
  from_first c s = Some t ->
  exists pre rest, s = pre ++ t /\ t = String c rest /\ has_char c pre = false.
Proof.
  induction s as [|a s IH]; cbn; [discriminate|].
  destruct (Ascii.eqb_spec a c) as [->|Hne].
  - intros [= <-]. now exists "", s.
  - intros H. destruct (IH H) as (pre & rest & -> & -> & Hpre).
    exists (String a pre), rest. cbn. rewrite Hpre.
    apply Ascii.eqb_neq in Hne. now rewrite Hne.
Qed.

Lemma from_first_none c s : from_first c s = None -> has_char c s = false.
Proof.
  induction s as [|a s IH]; cbn; [reflexivity|].
  destruct (Ascii.eqb a c); [discriminate|]. exact IH.
Qed.

Lemma from_first_app c pre rest :
  has_char c pre = false -> from_first c (pre ++ String c rest) = Some (String c rest).
Proof.
  induction pre as [|a pre IH]; cbn.
  - now rewrite Ascii.eqb_refl.
  - destruct (Ascii.eqb a c); [discriminate|]. exact IH.
Qed.

Lemma upto_last_none c s : upto_last c s = None <-> has_char c s = false.
Proof.
  induction s as [|a s IH]; cbn; [tauto|].
  destruct (upto_last c s).
  - split; [discriminate|]. intros H. apply orb_false_elim in H as [_ H].
    now apply IH in H.
  - destruct (Ascii.eqb a c); cbn; [split; discriminate|]. tauto.
Qed.

Lemma upto_last_spec c s p :
  upto_last c s = Some p ->
  exists q post, p = q ++ String c "" /\ s = p ++ post /\ has_char c post = false.
Proof.
  revert p. induction s as [|a s IH]; cbn; [discriminate|]. intros p.
  destruct (upto_last c s) as [p'|] eqn:E.
  - intros [= <-]. destruct (IH _ eq_refl) as (q & post & -> & -> & Hpost).
    now exists (String a q), post.
  - destruct (Ascii.eqb_spec a c) as [->|]; [|discriminate].
    intros [= <-]. exists "", s. repeat split. now apply upto_last_none.
Qed.

Lemma upto_last_app c q post :
  has_char c post = false ->
  upto_last c (q ++ String c post) = Some (q ++ String c "").
Proof.
  intros Hpost. induction q as [|a q IH]; cbn.
  - apply upto_last_none in Hpost. rewrite Hpost. now rewrite Ascii.eqb_refl.
  - now rewrite IH.
Qed.

Lemma append_assoc (a b c : string) : (a ++ b) ++ c = a ++ (b ++ c).
Proof. induction a as [|x a IH]; cbn; [reflexivity|now rewrite IH]. Qed.

(** The match of the pattern is the span from the first opening brace to the
    last closing brace. *)
Lemma re_search_braces_some text m :
  re_search_braces text = Some m <->
  exists pre mid post,
    text = pre ++ "{" ++ mid ++ "}" ++ post /\
    has_char "{" pre = false /\ has_char "}" post = false /\
    m = "{" ++ mid ++ "}".
Proof.
  unfold re_search_braces. split.
  - destruct (from_first "{" text) as [s|] eqn:E; [|discriminate].
    intros H.
    destruct (from_first_spec _ _ _ E) as (pre & rest & -> & -> & Hpre).
    destruct (upto_last_spec _ _ _ H) as (q & post & -> & Hs & Hpost).
    destruct q as [|a q]; [discriminate Hs|].
    cbn in Hs. injection Hs as <- Hs.
    exists pre, q, post. repeat split; try assumption.
    cbn. f_equal. f_equal. rewrite Hs. now rewrite append_assoc.
  - intros (pre & mid & post & -> & Hpre & Hpost & ->).
    cbn [append]. rewrite from_first_app by assumption.
    change (String "{" (mid ++ String "}" post)) with ((String "{" mid) ++ String "}" post).
    now rewrite upto_last_app.
Qed.

(** No match: no opening brace with a closing brace somewhere after it. *)
Lemma re_search_braces_none text :
  re_search_braces text = None <->
  forall pre mid post, text <> pre ++ "{" ++ mid ++ "}" ++ post.
Proof.
  unfold re_search_braces. split.
  - intros H pre mid post ->.
    assert (Hex : exists rest, from_first "{" (pre ++ "{" ++ mid ++ "}" ++ post) = Some rest /\
                               has_char "}" rest = true).
    { clear H. induction pre as [|a pre IH]; cbn.
      - eexists; split; [reflexivity|]. cbn. rewrite has_char_app. cbn.
        now rewrite orb_true_r.
      - destruct (Ascii.eqb a "{"); [|exact IH].
        eexists; split; [reflexivity|]. cbn. rewrite !has_char_app. cbn.
        rewrite has_char_app. cbn. now rewrite !orb_true_r. }
    destruct Hex as (rest & Hr & Hc). rewrite Hr in H.
    apply upto_last_none in H. congruence.
  - intros H. destruct (from_first "{" text) as [s|] eqn:E; [|reflexivity].
    destruct (upto_last "}" s) as [p|] eqn:Ep; [|reflexivity].
    exfalso.
    assert (Hs : re_search_braces text = Some p)
      by (unfold re_search_braces; now rewrite E).
    apply re_search_braces_some in Hs.
    destruct Hs as (pre & mid & post & -> & _). now apply (H pre mid post).
Qed.

(** [s[:n]] is the prefix of [s] of [n] characters, or all of [s]. *)
Lemma take_spec n s :
  exists rest, s = take n s ++ rest /\
               String.length (take n s) = Nat.min n (String.length s).
Proof.
  unfold take. revert n. induction s as [|a s IH]; intros [|n]; cbn.
  - now exists "".
  - now exists "".
  - now exists (String a s).
  - destruct (IH n) as (rest & Hs & Hl). exists rest. split; congruence.
Qed.

(** C7, as the code behaves.  The first call of [json.loads] is on the text
    left after fence stripping.  A value it returns is the result, and an
    exception that is not a [JSONDecodeError] leaves [gen_quiz] as it is; in
    both cases there is no second call.  When it raises the
    [JSONDecodeError] [e], the only other call made is on the match of the
    brace pattern, the span from the first opening brace to the last closing
    brace: the calls are the text and then that span, and nothing else.  If
    the span decodes, its value is the result; if it raises a
    [JSONDecodeError], or if there is no such span, the [ValueError] raised
    carries the first 500 characters of the text and [e]; if it raises
    anything else, that exception leaves [gen_quiz] as it is.  In particular
    "not json at all", rejected by the decoder with a [JSONDecodeError], ends
    with that [ValueError]. *)
Theorem parse_recovery_single_retry
  (json_loads : string -> decoded) (resp_text : string) :
  let text := strip_fences resp_text in
  match json_loads text with
  | Decoded quiz_data => parse_quiz json_loads text = ([text], Ok quiz_data)
  | Uncaught x => parse_quiz json_loads text = ([text], Raise x)
  | NotJson e =>
      match re_search_braces text with
      | Some json_str =>
          (exists pre mid post,
              text = pre ++ "{" ++ mid ++ "}" ++ post /\
              has_char "{" pre = false /\ has_char "}" post = false /\
              json_str = "{" ++ mid ++ "}") /\
          fst (parse_quiz json_loads text) = [text; json_str] /\
          snd (parse_quiz json_loads text)
          = match json_loads json_str with
            | Decoded quiz_data => Ok quiz_data
            | NotJson _ => Raise (ValueError (MsgParse (take 500 text) e))
            | Uncaught x => Raise x
            end
      | None =>
          (forall pre mid post, text <> pre ++ "{" ++ mid ++ "}" ++ post) /\
          fst (parse_quiz json_loads text) = [text] /\
          snd (parse_quiz json_loads text)
          = Raise (ValueError (MsgParse (take 500 text) e))
      end
  end /\
  (exists rest, text = take 500 text ++ rest /\
                String.length (take 500 text) = Nat.min 500 (String.length text)) /\
  (forall (e0 : JSONDecodeError) (difficulty topic_text : string),
      json_loads "not json at all" = NotJson e0 ->
      gen_quiz json_loads difficulty topic_text "not json at all"
      = Raise (ValueError (MsgParse "not json at all" e0))).
Proof.
  intros text. split; [|split].
  - unfold parse_quiz.
    destruct (json_loads text) as [quiz_data|e|x]; [reflexivity| |reflexivity].
    destruct (re_search_braces text) as [json_str|] eqn:Er.
    + split; [now apply re_search_braces_some|].
      destruct (json_loads json_str); now split.
    + split; [now apply re_search_braces_none|]. now split.
  - apply take_spec.
  - intros e0 difficulty topic_text H0.
    unfold gen_quiz.
    change (strip_fences "not json at all") with "not json at all".
    unfold parse_quiz. rewrite H0. reflexivity.
Qed.

(** C7 fails as stated: a text that is no JSON, whose braces hold an integer
    of 4301 digits.  The first call raises a [JSONDecodeError]; the call on
    the span raises the [ValueError] of [int], which is not a
    [JSONDecodeError]; it leaves [gen_quiz] as it is, and is not the
    [ValueError] that carries the text and the first error. *)
Lemma long_integer_not_parse_error :
  Json.loads (strip_fences long_integer_response)
    = NotJson (DecodeError "Expecting value" 0) /\
  re_search_braces (strip_fences long_integer_response) = Some long_integer_span /\
  Json.loads long_integer_span = Uncaught (ValueError (MsgIntDigits 4301)) /\
  gen_quiz Json.loads "easy" "" long_integer_response
    = Raise (ValueError (MsgIntDigits 4301)) /\
  forall output e,
    gen_quiz Json.loads "easy" "" long_integer_response
    <> Raise (ValueError (MsgParse output e)).
Proof.
  assert (H : gen_quiz Json.loads "easy" "" long_integer_response
              = Raise (ValueError (MsgIntDigits 4301))) by (vm_compute; reflexivity).
  split; [vm_compute; reflexivity|]. split; [vm_compute; reflexivity|].
  split; [vm_compute; reflexivity|]. split; [exact H|].
  intros output e. rewrite H. discriminate.
Qed.

(** C7 on a fenced answer whose braces hold no JSON, with the decoder
    [Json.loads]. *)
Lemma parse_recovery_single_retry_witness :
  Json.loads (strip_fences "```json
Here it is: {oops} bye
```") = NotJson (DecodeError "Expecting value" 0) /\
  re_search_braces "Here it is: {oops} bye" = Some "{oops}" /\
  fst (parse_quiz Json.loads "Here it is: {oops} bye")
    = ["Here it is: {oops} bye"; "{oops}"] /\
  gen_quiz Json.loads "easy" "" "not json at all"
    = Raise (ValueError (MsgParse "not json at all" (DecodeError "Expecting value" 0))).
Proof.
  pose proof (parse_recovery_single_retry Json.loads "```json
Here it is: {oops} bye
```") as H.
  cbv zeta in H.
  change (strip_fences _) with "Here it is: {oops} bye" in H.
  change (Json.loads "Here it is: {oops} bye")
    with (NotJson (DecodeError "Expecting value" 0)) in H.
  change (re_search_braces _) with (Some "{oops}") in H.
  cbv beta iota in H.
  destruct H as ((_ & Hfst & _) & _ & Hnot).
  split; [reflexivity|]. split; [reflexivity|]. split; [exact Hfst|].
  now apply Hnot.
Defined.

(** ** The quiz page *)

(** A script that leaves the state as it found it, however it ends. *)
Definition readonly {A} (m : script A) : Prop := forall s, snd (m s) = s.

Lemma readonly_ret {A} (a : A) : readonly (ret a).
Proof. now intros s. Qed.

Lemma readonly_lift {A} (r : result A) : readonly (lift r).
Proof. intros s. unfold lift. now destruct r. Qed.

Lemma readonly_get : readonly get.
Proof. now intros s. Qed.

Lemma readonly_rerun {A} : readonly (@st_rerun A).
Proof. now intros s. Qed.

Lemma readonly_bind {A B} (m : script A) (k : A -> script B) :
  readonly m -> (forall a, readonly (k a)) -> readonly (sbind m k).
Proof.
  intros Hm Hk s. unfold sbind. specialize (Hm s).
  destruct (m s) as [[a| |e] s']; cbn in *; subst; [apply Hk|reflexivity|reflexivity].
Qed.

Ltac readonly_step :=
  first [ apply readonly_ret | apply readonly_lift | apply readonly_get
        | apply readonly_rerun
        | apply readonly_bind; [|intros ?]
        | match goal with
          | |- readonly (match ?x with _ => _ end) => destruct x
          | |- readonly (if ?x then _ else _) => destruct x
          end ].

Lemma restart_button_readonly a : a <> ClickRestart -> readonly (restart_button a).
Proof. intros H. destruct a; try apply readonly_ret. congruence. Qed.

Lemma render_submit_none_readonly now :
  readonly (render_quiz_area now (ClickSubmit None)).
Proof.
  unfold render_quiz_area.
  apply readonly_bind; [apply readonly_get|intros s].
  destruct (quiz s); [|apply readonly_ret].
  apply readonly_bind; [apply readonly_lift|intros has_items].
  apply readonly_bind; [destruct has_items; [apply readonly_lift|apply readonly_ret]|intros usable].
  destruct (negb usable); [now apply restart_button_readonly|].
  apply readonly_bind; [apply readonly_lift|intros qdata].
  apply readonly_bind; [apply readonly_lift|intros n].
  destruct (n <=? quiz_idx s); [now apply restart_button_readonly|].
  repeat readonly_step.
Qed.

Lemma playable_item_inv item :
  playable_item item = true ->
  exists d q id o0 o1 o2 o3 ans,
    item = PyDict d /\ assoc "question" d = Some q /\
    assoc "id" d = Some id /\ hashable id = true /\
    assoc "options" d = Some (PyList [o0; o1; o2; o3]) /\
    assoc "answer_index" d = Some ans /\
    exists n, as_int ans = Some n /\ 0 <= n < 4.
Proof.
  destruct item; try discriminate. cbn. unfold dict_mem. intros H.
  repeat (apply andb_prop in H as [H ?]).
  destruct (assoc "question" d) as [q|] eqn:Eq; [|discriminate].
  destruct (assoc "id" d) as [id|] eqn:Eid; [|discriminate].
  destruct (assoc "options" d) as [[| | | | |l|]|] eqn:Eo; try discriminate.
  destruct l as [|o0 [|o1 [|o2 [|o3 [|]]]]]; try discriminate.
  destruct (assoc "answer_index" d) as [ans|] eqn:Ea; [|discriminate].
  exists d, q, id, o0, o1, o2, o3, ans.
  do 6 (split; [first [reflexivity|assumption]|]).
  match goal with H : isinstance_int _ && _ = true |- _ => apply andb_prop in H as [Hi Hr] end.
  destruct ans; try discriminate; cbn in Hr |- *; eexists; (split; [reflexivity|]); lia.
Qed.

Lemma hashable_eq_refl v : hashable v = true -> py_eq v v = true.
Proof.
  destruct v; try discriminate; intros _; cbn.
  - reflexivity.
  - apply Qeq_bool_refl.
  - apply Qeq_bool_refl.
  - apply Qeq_bool_refl.
  - apply String.eqb_refl.
Qed.

Lemma answers_get_set k c d :
  py_eq k k = true -> answers_get k (answers_set k c d) = Some c.
Proof.
  intros Hk. induction d as [|[k' c'] d IH]; cbn.
  - now rewrite Hk.
  - destruct (py_eq k' k) eqn:E; cbn; now rewrite E.
Qed.

Section OneItem.

Variables (d : dict) (l : list value) (item : value) (di : dict).
Variables (q id o0 o1 o2 o3 ans : value) (n : Z).
Hypothesis Hitems : assoc "items" d = Some (PyList l).
Hypothesis Hitem : item = PyDict di.
Hypothesis Hq : assoc "question" di = Some q.
Hypothesis Hid : assoc "id" di = Some id.
Hypothesis Hhash : hashable id = true.
Hypothesis Hopts : assoc "options" di = Some (PyList [o0; o1; o2; o3]).
Hypothesis Hans : assoc "answer_index" di = Some ans.
Hypothesis Hn : as_int ans = Some n.
Hypothesis Hrange : 0 <= n < 4.

(** The state shows [item]: the quiz is [d] and the index points at [item]. *)
Definition shows (s : session_state) : Prop :=
  quiz s = Some (PyDict d) /\
  0 <= quiz_idx s < Z.of_nat (List.length l) /\
  nth_error l (Z.to_nat (quiz_idx s)) = Some item.

Lemma page_reads s :
  shows s ->
  py_in "items" (PyDict d) = Ok true /\
  py_getitem (PyDict d) "items" = Ok (PyList l) /\
  truthy (PyList l) = true /\
  (Z.of_nat (List.length l) <=? quiz_idx s) = false /\
  py_index (PyList l) (PyInt (quiz_idx s)) = Ok item.
Proof.
  intros (Hquiz & Hidx & Hnth). cbn. unfold dict_mem, position. rewrite Hitems.
  repeat split.
  - destruct l; [|reflexivity]. cbn in Hidx. lia.
  - apply Z.leb_gt. lia.
  - replace ((0 <=? quiz_idx s) && (quiz_idx s <? Z.of_nat (List.length l))) with true
      by (symmetry; apply andb_true_intro; split; [apply Z.leb_le|apply Z.ltb_lt]; lia).
    now rewrite Hnth.
Qed.

Lemma item_reads :
  py_getitem item "question" = Ok q /\
  py_getitem item "id" = Ok id /\
  py_getitem item "answer_index" = Ok ans /\
  py_get item "explanation" = Ok match assoc "explanation" di with
                                 | Some x => x
                                 | None => PyNone
                                 end /\
  check_hashable id = Ok tt /\
  radio_labels item = Ok tt /\
  choice_label item ans = Ok tt /\
  (forall c, 0 <= c < 4 -> choice_label item (PyInt c) = Ok tt).
Proof.
  subst item. cbn [py_getitem py_get]. rewrite Hq, Hid, Hans.
  unfold check_hashable, radio_labels, choice_label. cbn [py_getitem]. rewrite Hhash, Hopts.
  assert (Hc : forall v c, as_int v = Some c -> 0 <= c < 4 ->
                 Py.bind (py_letter v)
                   (fun _ => Py.bind (Ok (PyList [o0; o1; o2; o3]))
                      (fun o => Py.bind (py_index o v) (fun _ => Ok tt))) = Ok tt).
  { intros v c Hv Hcr. unfold py_letter, py_index. cbn [Py.bind]. rewrite Hv.
    assert (c = 0 \/ c = 1 \/ c = 2 \/ c = 3) as [-> | [-> | [-> | ->]]] by lia; reflexivity. }
  repeat split; try reflexivity.
  - destruct (assoc "explanation" di); reflexivity.
  - now apply (Hc ans n).
  - intros c Hcr. now apply (Hc (PyInt c) c).
Qed.

Ltac page_cbn :=
  cbn [sbind lift ret get modify st_rerun Py.bind negb fst snd restart_button py_len
       quiz quiz_idx answers current_answered current_revealed progress difficulty].

Ltac run_page Hp Hi Hx Hy :=
  let P1 := fresh in let P2 := fresh in let P3 := fresh in let P4 := fresh in
  let P5 := fresh in
  destruct Hp as (P1 & P2 & P3 & P4 & P5);
  let I1 := fresh in let I2 := fresh in let I3 := fresh in let I4 := fresh in
  let I5 := fresh in let I6 := fresh in let I7 := fresh in let I8 := fresh in
  destruct Hi as (I1 & I2 & I3 & I4 & I5 & I6 & I7 & I8);
  repeat (page_cbn;
          first [rewrite P1 | rewrite P2 | rewrite P3 | rewrite P4 | rewrite P5
                | rewrite I1 | rewrite I2 | rewrite I3 | rewrite I4 | rewrite I5
                | rewrite I6 | rewrite I7 | rewrite Hx | rewrite Hy ]);
  page_cbn.

Lemma submit_step now s c :
  shows s -> current_answered s = false ->
  step now (ClickSubmit (Some c)) s =
  {| quiz := quiz s; quiz_idx := quiz_idx s;
     answers := answers_set id c (answers s);
     current_answered := true; current_revealed := false;
     progress := update_progress (progress s) id (py_eq (PyInt c) ans) (difficulty s) now;
     difficulty := difficulty s |}.
Proof.
  intros Hs Hua. pose proof (page_reads s Hs) as Hp. pose proof item_reads as Hi.
  destruct Hs as (Hquiz & _).
  unfold step, render_quiz_area. cbn [sbind get]. rewrite Hquiz, Hua.
  run_page Hp Hi Hua Hua. now rewrite Hquiz.
Qed.

Lemma reveal_step now s c :
  shows s -> current_answered s = true -> current_revealed s = false ->
  answers_get id (answers s) = Some c -> 0 <= c < 4 ->
  step now ClickReveal s =
  {| quiz := quiz s; quiz_idx := quiz_idx s; answers := answers s;
     current_answered := true; current_revealed := true;
     progress := progress s; difficulty := difficulty s |}.
Proof.
  intros Hs Han Hrev Hget Hc.
  pose proof (page_reads s Hs) as Hp. pose proof item_reads as Hi.
  destruct Hs as (Hquiz & _).
  pose proof (proj2 (proj2 (proj2 (proj2 (proj2 (proj2 (proj2 Hi)))))) c Hc) as Hlab.
  unfold step, render_quiz_area. cbn [sbind get]. rewrite Hquiz, Han, Hrev.
  run_page Hp Hi Hget Hlab. now rewrite Hquiz, Han.
Qed.

Lemma next_step now s c :
  shows s -> current_answered s = true -> current_revealed s = true ->
  answers_get id (answers s) = Some c -> 0 <= c < 4 ->
  step now ClickNext s =
  {| quiz := quiz s; quiz_idx := quiz_idx s + 1; answers := answers s;
     current_answered := false; current_revealed := false;
     progress := progress s; difficulty := difficulty s |}.
Proof.
  intros Hs Han Hrev Hget Hc.
  pose proof (page_reads s Hs) as Hp. pose proof item_reads as Hi.
  destruct Hs as (Hquiz & _).
  pose proof (proj2 (proj2 (proj2 (proj2 (proj2 (proj2 (proj2 Hi)))))) c Hc) as Hlab.
  pose proof (proj1 (proj2 (proj2 (proj2 (proj2 (proj2 (proj2 Hi))))))) as Hlans.
  pose proof (proj1 (proj2 (proj2 (proj2 Hi)))) as Hexp.
  unfold step, render_quiz_area. cbn [sbind get]. rewrite Hquiz, Han, Hrev.
  run_page Hp Hi Hget Hlab.
  destruct (py_eq (PyInt c) ans); page_cbn; rewrite ?Hlans; page_cbn;
    rewrite ?Hexp; page_cbn; now rewrite Hquiz.
Qed.

End OneItem.

Lemma phase_completed_inv s :
  phase_of s = Completed ->
  exists d x l, quiz s = Some (PyDict d) /\ assoc "items" d = Some (PyList (x :: l)) /\
                Z.of_nat (List.length (x :: l)) <= quiz_idx s.
Proof.
  unfold phase_of. destruct (quiz s) as [[| | | | | |d]|] eqn:Eq; try discriminate.
  destruct (assoc "items" d) as [[| | | | |[|x l]|]|] eqn:E; try discriminate.
  destruct (Z.of_nat (List.length (x :: l)) <=? quiz_idx s) eqn:El.
  - intros _. exists d, x, l. split; [reflexivity|]. split; [exact E|].
    now apply Z.leb_le.
  - destruct (negb (current_answered s)); [discriminate|].
    destruct (negb (current_revealed s)); discriminate.
Qed.

(** On the closing page only "Ulangi Kuis" is there to click. *)
Lemma completed_page now a s :
  phase_of s = Completed ->
  render_quiz_area now a s = restart_button a s.
Proof.
  intros H. destruct (phase_completed_inv s H) as (d & x & l & Hq & Hi & Hlen).
  unfold render_quiz_area. cbn [sbind get]. rewrite Hq.
  cbn [py_in py_getitem lift]. unfold dict_mem. rewrite Hi.
  cbn [sbind lift Py.bind truthy negb py_len].
  apply Z.leb_le in Hlen. now rewrite Hlen.
Qed.

Lemma completed_is_terminal now a s :
  phase_of s = Completed ->
  (a <> ClickRestart -> step now a s = s) /\
  step now ClickRestart s = reset_quiz None s.
Proof.
  intros H. unfold step. rewrite !completed_page by assumption. split.
  - intros Ha. destruct a; try reflexivity. congruence.
  - reflexivity.
Qed.

(** Submit, reveal, advance on the item shown. *)
Lemma answer_cycle (d : dict) (l : list value) (item : value) (s : session_state)
  (c : Z) (t1 t2 t3 : pyfloat) :
  assoc "items" d = Some (PyList l) ->
  playable_item item = true ->
  shows d l item s -> current_answered s = false -> 0 <= c < 4 ->
  let s' := run [(t1, ClickSubmit (Some c)); (t2, ClickReveal); (t3, ClickNext)] s in
  quiz s' = quiz s /\ quiz_idx s' = quiz_idx s + 1 /\
  current_answered s' = false /\ current_revealed s' = false /\
  difficulty s' = difficulty s /\
  exists id ans,
    py_getitem item "id" = Ok id /\ py_getitem item "answer_index" = Ok ans /\
    answers s' = answers_set id c (answers s) /\
    progress s' = update_progress (progress s) id (py_eq (PyInt c) ans) (difficulty s) t1.
Proof.
  intros Hitems Hplay Hs Hua Hc.
  destruct (playable_item_inv _ Hplay)
    as (di & q & id & o0 & o1 & o2 & o3 & ans & Hitem & Hq & Hid & Hhash & Hopts & Hans & n & Hn & Hr).
  cbn [run].
  rewrite (submit_step d l item di q id o0 o1 o2 o3 ans n) by assumption.
  set (s1 := {| quiz := quiz s |}).
  assert (Hs1 : shows d l item s1) by exact Hs.
  assert (Hget : answers_get id (answers s1) = Some c)
    by (apply answers_get_set; now apply hashable_eq_refl).
  rewrite (reveal_step d l item di q id o0 o1 o2 o3 ans n Hitems Hitem Hq Hid Hhash Hopts
             Hans Hn Hr t2 s1 c Hs1 eq_refl eq_refl Hget Hc).
  set (s2 := {| quiz := quiz s1 |}).
  assert (Hs2 : shows d l item s2) by exact Hs.
  rewrite (next_step d l item di q id o0 o1 o2 o3 ans n Hitems Hitem Hq Hid Hhash Hopts
             Hans Hn Hr t3 s2 c Hs2 eq_refl eq_refl Hget Hc).
  cbn. repeat split. exists id, ans. subst item. cbn. now rewrite Hid, Hans.
Qed.

(** C6.  In the unanswered phase a click on "Submit Jawaban" with no choice
    in the widget state changes nothing: the run stops at [st.rerun()] before
    the first assignment, so the state is the one it started from, with the
    same phase, index, answers and ledger. *)
Theorem submit_without_choice_refused (now : pyfloat) (s : session_state) :
  phase_of s = Unanswered ->
  let s' := step now (ClickSubmit None) s in
  s' = s /\ phase_of s' = Unanswered /\ quiz_idx s' = quiz_idx s /\
  answers s' = answers s /\ progress s' = progress s /\
  history (progress s') = history (progress s).
Proof.
  intros Hph. cbv zeta.
  assert (H : step now (ClickSubmit None) s = s)
    by apply render_submit_none_readonly.
  rewrite H. now repeat split.
Qed.

Lemma run_app (r1 r2 : list (pyfloat * action)) (s : session_state) :
  run (r1 ++ r2) s = run r2 (run r1 s).
Proof.
  revert s. induction r1 as [|[now a] r1 IH]; intros s; cbn; [reflexivity|apply IH].
Qed.

(** C9.  A quiz of three items the page can show, started at index 0 and
    unanswered: submit (any choice from 0 to 3), reveal, advance, three times
    over, ends on the closing page with the index at 3, the number of items.
    There every click but "Ulangi Kuis" leaves the state as it is (no answer
    or ledger entry is added, the index does not move), and "Ulangi Kuis"
    clears the quiz and sets the index back to 0. *)
Theorem three_item_session_completes
  (d : dict) (i1 i2 i3 : value) (c1 c2 c3 : Z) (clock : nat -> pyfloat)
  (s0 : session_state) :
  assoc "items" d = Some (PyList [i1; i2; i3]) ->
  playable_item i1 = true -> playable_item i2 = true -> playable_item i3 = true ->
  0 <= c1 < 4 -> 0 <= c2 < 4 -> 0 <= c3 < 4 ->
  quiz s0 = Some (PyDict d) -> quiz_idx s0 = 0 -> current_answered s0 = false ->
  let s := run [(clock 0%nat, ClickSubmit (Some c1)); (clock 1%nat, ClickReveal);
                (clock 2%nat, ClickNext);
                (clock 3%nat, ClickSubmit (Some c2)); (clock 4%nat, ClickReveal);
                (clock 5%nat, ClickNext);
                (clock 6%nat, ClickSubmit (Some c3)); (clock 7%nat, ClickReveal);
                (clock 8%nat, ClickNext)] s0 in
  phase_of s = Completed /\ quiz_idx s = 3 /\
  Z.of_nat (List.length (quiz_items (PyDict d))) <= quiz_idx s /\
  (forall now a, a <> ClickRestart -> step now a s = s) /\
  (forall now, step now ClickRestart s = reset_quiz None s /\
               quiz (step now ClickRestart s) = None /\
               quiz_idx (step now ClickRestart s) = 0).
Proof.
  intros Hitems P1 P2 P3 C1 C2 C3 Hq Hidx Hua.
  set (l := [i1; i2; i3]) in *.
  set (r1 := [(clock 0%nat, ClickSubmit (Some c1)); (clock 1%nat, ClickReveal);
              (clock 2%nat, ClickNext)]).
  set (r2 := [(clock 3%nat, ClickSubmit (Some c2)); (clock 4%nat, ClickReveal);
              (clock 5%nat, ClickNext)]).
  set (r3 := [(clock 6%nat, ClickSubmit (Some c3)); (clock 7%nat, ClickReveal);
              (clock 8%nat, ClickNext)]).
  cbv zeta.
  match goal with
  | |- context [run ?acts s0] => change acts with (r1 ++ r2 ++ r3)%list
  end.
  rewrite !run_app.
  assert (S0 : shows d l i1 s0).
  { repeat split; try assumption; rewrite Hidx; cbn; try lia. reflexivity. }
  destruct (answer_cycle d l i1 s0 c1 (clock 0%nat) (clock 1%nat) (clock 2%nat)
              Hitems P1 S0 Hua C1) as (Q1 & X1 & A1 & _).
  fold r1 in Q1, X1, A1. generalize dependent (run r1 s0). intros s1 Q1 X1 A1.
  assert (S1 : shows d l i2 s1).
  { repeat split; try congruence; rewrite X1, Hidx; cbn; try lia. reflexivity. }
  destruct (answer_cycle d l i2 s1 c2 (clock 3%nat) (clock 4%nat) (clock 5%nat)
              Hitems P2 S1 A1 C2) as (Q2 & X2 & A2 & _).
  fold r2 in Q2, X2, A2. generalize dependent (run r2 s1). intros s2 Q2 X2 A2.
  assert (S2 : shows d l i3 s2).
  { repeat split; try congruence; rewrite X2, X1, Hidx; cbn; try lia. reflexivity. }
  destruct (answer_cycle d l i3 s2 c3 (clock 6%nat) (clock 7%nat) (clock 8%nat)
              Hitems P3 S2 A2 C3) as (Q3 & X3 & A3 & _).
  fold r3 in Q3, X3, A3. generalize dependent (run r3 s2). intros s3 Q3 X3 A3.
  assert (Hx : quiz_idx s3 = 3) by (rewrite X3, X2, X1, Hidx; reflexivity).
  assert (Hph : phase_of s3 = Completed).
  { unfold phase_of. rewrite Q3, Q2, Q1, Hq, Hitems, Hx. reflexivity. }
  split; [exact Hph|]. split; [exact Hx|]. split.
  - cbn [quiz_items]. rewrite Hitems, Hx. cbn. lia.
  - split.
    + intros now a Ha. now apply completed_is_terminal.
    + intros now. destruct (completed_is_terminal now ClickRestart s3 Hph) as [_ ->].
      now repeat split.
Qed.

(** ** The theorems at sample inputs *)

(** C4 on a ledger that holds q1. *)
Lemma update_progress_first_write_wins_witness :
  (exists h, In h (history (update_progress empty_ledger (PyStr "q1") true "easy" noon)) /\
             py_eq (h_id h) (PyStr "q1") = true) /\
  update_progress (update_progress empty_ledger (PyStr "q1") true "easy" noon)
    (PyStr "q1") false "hard" noon
  = update_progress empty_ledger (PyStr "q1") true "easy" noon.
Proof.
  assert (H : exists h,
             In h (history (update_progress empty_ledger (PyStr "q1") true "easy" noon)) /\
             py_eq (h_id h) (PyStr "q1") = true).
  { eexists. split; [left; reflexivity|reflexivity]. }
  split; [exact H|].
  exact (proj1 update_progress_first_write_wins _ _ H false "hard" noon).
Defined.

(** C5 on the empty ledger. *)
Lemma update_progress_consistent_witness :
  consistent empty_ledger /\
  consistent (update_progress empty_ledger (PyStr "q1") true "easy" noon).
Proof.
  assert (H : consistent empty_ledger) by (split; reflexivity).
  split; [exact H|].
  exact (update_progress_consistent empty_ledger (PyStr "q1") true "easy" noon H).
Defined.

(** C1 on a good item followed by two bad ones: the error is the one of
    item 1, and item 2 is never looked at. *)
Lemma validation_fails_fast_witness :
  normalize "easy" "" good_then_two_violations
    = Raise (ValueError (MsgBadOptions 1 three_options_item)) /\
  message_item (MsgBadOptions 1 three_options_item) = Some 1%nat.
Proof.
  destruct (validation_fails_fast "easy" "" good_then_two_violations
              (PyDict [("items", PyList [good_item; three_options_item; no_question_item]);
                       ("topic", PyStr "Kuis Umum"); ("level", PyStr "easy")])
              [good_item] [no_question_item]
              [PyDict [("question", PyStr "2 + 2 = ?"); ("options", four_options);
                       ("answer_index", PyInt 1); ("id", PyStr "q1");
                       ("explanation", PyStr ""); ("tags", PyList [])]]
              three_options_item
              (ValueError (MsgBadOptions 1 three_options_item))
              eq_refl eq_refl eq_refl) as [H1 H2].
  split; [exact H1|]. exact (H2 _ eq_refl).
Defined.

(** C3 on [mixed_ids]: a number beside an id, an id alone, neither. *)
Lemma returned_ids_as_assigned_witness :
  exists q,
    normalize "easy" "" mixed_ids = Ok q /\
    quiz_ids q = [Some (PyStr "q5"); Some (PyStr "second"); Some (PyStr "q3")] /\
    NoDup (quiz_ids q).
Proof.
  eexists. split; [reflexivity|].
  destruct (returned_ids_as_assigned "easy" "" mixed_ids _ eq_refl) as (H1 & H2 & _).
  split; [exact H1|]. apply (proj2 H2).
  repeat (constructor; [cbn; intuition discriminate|]). constructor.
Defined.

(** C8 on [canonical_example]. *)
Lemma normalize_canonical_witness :
  canonical_quiz canonical_example = true /\
  normalize "hard" "anything" canonical_example = Ok canonical_example.
Proof.
  split; [reflexivity|].
  exact (normalize_canonical "hard" "anything" canonical_example eq_refl).
Defined.

(** C10 on an item whose answer index is [True]. *)
Lemma boolean_answer_index_accepted_witness :
  (exists item', normalize_item 0 (boolean_item true) = Ok item' /\
                 py_getitem item' "answer_index" = Ok (PyBool true)) /\
  py_eq (PyInt 1) (PyBool true) = true /\
  py_eq (PyInt 0) (PyBool true) = false /\
  py_index four_options (PyBool true) = Ok (PyStr "4").
Proof.
  destruct (boolean_answer_index_accepted 0 (boolean_item true)
              (boolean_item true) (boolean_item true) true
              eq_refl eq_refl eq_refl eq_refl) as (H1 & H2 & H3 & _).
  split; [exact H1|].
  split; [rewrite H2; reflexivity|].
  split; [rewrite H2; reflexivity|].
  rewrite H3; reflexivity.
Defined.

(** C6 on the session that has just been given [canonical_example]. *)
Lemma submit_without_choice_refused_witness :
  phase_of started = Unanswered /\
  step noon (ClickSubmit None) started = started.
Proof.
  split; [reflexivity|].
  exact (proj1 (submit_without_choice_refused noon started eq_refl)).
Defined.

(** C9 on [canonical_example], answered 1, 1, 1: one right answer out of
    three attempts, and the closing page. *)
Lemma three_item_session_completes_witness :
  phase_of (run [(noon, ClickSubmit (Some 1)); (noon, ClickReveal); (noon, ClickNext);
                 (noon, ClickSubmit (Some 1)); (noon, ClickReveal); (noon, ClickNext);
                 (noon, ClickSubmit (Some 1)); (noon, ClickReveal); (noon, ClickNext)]
              started) = Completed /\
  quiz_idx (run [(noon, ClickSubmit (Some 1)); (noon, ClickReveal); (noon, ClickNext);
                 (noon, ClickSubmit (Some 1)); (noon, ClickReveal); (noon, ClickNext);
                 (noon, ClickSubmit (Some 1)); (noon, ClickReveal); (noon, ClickNext)]
              started) = 3.
Proof.
  destruct (three_item_session_completes canonical_example_dict
              (canonical_example_item "q1" 1) (canonical_example_item "q2" 0)
              (canonical_example_item "q3" 3) 1 1 1 (fun _ => noon) started
              eq_refl eq_refl eq_refl eq_refl
              ltac:(lia) ltac:(lia) ltac:(lia)
              eq_refl eq_refl eq_refl) as (H1 & H2 & _).
  split; [exact H1|exact H2].
Defined.

(** * Further properties *)

Import PyLib Prompts Chat Display Version Upload Invariants Samples.

(** ** Dictionaries with pairwise different keys *)

Lemma assoc_in_keys {A} (k : string) (d : list (string * A)) :
  assoc k d = None <-> ~ In k (map fst d).
Proof.
  induction d as [|[k' v] d IH]; cbn; [tauto|].
  destruct (String.eqb_spec k' k); split; try discriminate; intuition.
Qed.

Lemma keys_dict_set (k : string) (v : value) (d : dict) :
  map fst (dict_set k v d) =
  match assoc k d with Some _ => map fst d | None => (map fst d ++ [k])%list end.
Proof.
  induction d as [|[k' v'] d IH]; cbn; [reflexivity|].
  destruct (String.eqb k' k); cbn; [reflexivity|].
  rewrite IH. now destruct (assoc k d).
Qed.

Lemma unique_keys_set (k : string) (v : value) (d : dict) :
  unique_keys d -> unique_keys (dict_set k v d).
Proof.
  unfold unique_keys. intros H. rewrite keys_dict_set.
  destruct (assoc k d) eqn:E; [exact H|].
  apply assoc_in_keys in E.
  apply NoDup_app; [exact H|constructor; [intros []|constructor]|].
  intros x Hx [<-|[]]. contradiction.
Qed.

Lemma keys_dict_remove_incl (k k' : string) (d : dict) :
  In k' (map fst (dict_remove k d)) -> In k' (map fst d).
Proof.
  induction d as [|[k0 v0] d IH]; cbn; [tauto|].
  destruct (String.eqb k0 k); cbn; intuition.
Qed.

Lemma unique_keys_remove (k : string) (d : dict) :
  unique_keys d -> unique_keys (dict_remove k d).
Proof.
  unfold unique_keys. induction d as [|[k0 v0] d IH]; cbn; [trivial|].
  intros H. inversion H as [|x l Hnotin Hnd]; subst.
  destruct (String.eqb k0 k); cbn; [exact Hnd|].
  constructor; [|now apply IH].
  intros Hin. apply Hnotin. eapply keys_dict_remove_incl; eauto.
Qed.

Lemma assoc_remove_eq (k : string) (d : dict) :
  unique_keys d -> assoc k (dict_remove k d) = None.
Proof.
  unfold unique_keys. induction d as [|[k0 v0] d IH]; cbn; [reflexivity|].
  intros H. inversion H as [|x l Hnotin Hnd]; subst.
  destruct (String.eqb_spec k0 k) as [->|Hne]; cbn.
  - now apply assoc_in_keys.
  - apply String.eqb_neq in Hne. rewrite Hne. now apply IH.
Qed.

Lemma dict_set_twice (k : string) (v w : value) (d : dict) :
  dict_set k v (dict_set k w d) = dict_set k v d.
Proof.
  induction d as [|[k' x] d IH]; cbn.
  - now rewrite String.eqb_refl.
  - destruct (String.eqb k' k) eqn:E; cbn; rewrite E; [reflexivity|now rewrite IH].
Qed.

Lemma dict_set_Forall (P : string * value -> Prop) k v d :
  Forall P d -> P (k, v) -> Forall P (dict_set k v d).
Proof.
  intros Hd Hkv. induction d as [|[k' v'] d IH]; cbn.
  - now constructor.
  - inversion Hd; subst. destruct (String.eqb_spec k' k) as [->|]; constructor; auto.
Qed.

Lemma assoc_In (k : string) (v : value) (d : dict) :
  assoc k d = Some v -> In (k, v) d.
Proof.
  induction d as [|[k' v'] d IH]; cbn; [discriminate|].
  destruct (String.eqb_spec k' k) as [->|]; [intros [= ->]; now left|].
  intros H. right. now apply IH.
Qed.

(** ** Well-formed values *)

Lemma well_formed_list_iff l : well_formed (PyList l) <-> Forall well_formed l.
Proof.
  induction l as [|x l IH].
  - split; [constructor|intros _; exact I].
  - split.
    + intros [Hx Hl]. constructor; [exact Hx|now apply IH].
    + intros H. inversion H; subst. split; [assumption|now apply IH].
Qed.

Lemma well_formed_dict_iff d :
  well_formed (PyDict d) <->
  unique_keys d /\ Forall (fun kv => well_formed (snd kv)) d.
Proof.
  cbn [well_formed]. apply and_iff_compat_l.
  induction d as [|[k x] d IH].
  - split; [constructor|intros _; exact I].
  - split.
    + intros [Hx Hd]. constructor; [exact Hx|now apply IH].
    + intros H. inversion H; subst. split; [assumption|now apply IH].
Qed.

Lemma well_formed_dict_set k v d :
  well_formed (PyDict d) -> well_formed v -> well_formed (PyDict (dict_set k v d)).
Proof.
  rewrite !well_formed_dict_iff. intros [Hu Hd] Hv. split.
  - now apply unique_keys_set.
  - now apply dict_set_Forall.
Qed.

Lemma well_formed_assoc k d v :
  well_formed (PyDict d) -> assoc k d = Some v -> well_formed v.
Proof.
  rewrite well_formed_dict_iff. intros [_ H] Hk. apply assoc_In in Hk.
  rewrite Forall_forall in H. exact (H _ Hk).
Qed.

Lemma well_formed_list l :
  well_formed (PyList l) -> Forall item_unique_keys l.
Proof.
  rewrite well_formed_list_iff. apply Forall_impl.
  intros x Hx. destruct x; try exact I. apply Hx.
Qed.

(** ** The ASCII decoder returns well-formed values *)

Ltac split_char c := destruct c as [[] [] [] [] [] [] [] []].

Lemma json_well_formed (fuel : nat) :
  (forall s v r, Json.value_ fuel s = inl (v, r) -> well_formed v) /\
  (forall acc s v r, Forall well_formed acc ->
     Json.elements fuel acc s = inl (v, r) -> well_formed v) /\
  (forall acc s v r, well_formed (PyDict acc) ->
     Json.members fuel acc s = inl (v, r) -> well_formed v).
Proof.
  induction fuel as [|fuel (IHv & IHe & IHm)].
  - repeat split; intros; discriminate.
  - split; [|split].
    + intros s v r H. destruct s as [|c s1]; [discriminate|].
      assert (Hnum : forall t, Json.number t = inl (v, r) -> well_formed v).
      { intros t Ht. unfold Json.number in Ht.
        destruct (match t with String "-" s' => (true, s') | _ => (false, t) end) as [neg t1].
        destruct t1 as [|c1 t2]; [discriminate|].
        destruct (Json.digit_of c1); [|discriminate].
        destruct (if z =? 0 then (0, t2) else Json.digits z t2) as [n t3].
        destruct t3 as [|c3 t4]; [|split_char c3; try discriminate Ht];
          destruct (_ <? _)%nat; try discriminate Ht; injection Ht as <- _; exact I. }
      assert (Hlit : forall lit x t, Json.literal lit x t = inl (v, r) ->
                                     well_formed x -> well_formed v).
      { intros lit x t Ht Hx. unfold Json.literal in Ht.
        destruct (String.prefix lit t); [|discriminate]. now injection Ht as <- _. }
      assert (Hstr : forall a b, match Json.string_body a b with
                                 | inl (t, r0) => inl (PyStr t, r0)
                                 | inr e => inr e
                                 end = inl (v, r) -> well_formed v).
      { intros a b Ht. destruct (Json.string_body a b) as [[t r0]|]; [|discriminate].
        injection Ht as <- _. exact I. }
      split_char c; cbn [Json.value_] in H;
        first [ now apply Hnum in H
              | now apply Hstr in H
              | now apply (Hlit _ _ _ H)
              | idtac ].
      * (* an opening bracket or brace *)
        destruct (Json.skip_ws s1) as [|c2 s2];
          [first [ eapply IHe; [apply Forall_nil|exact H]
                 | eapply IHm; [|exact H]; split; [constructor|exact I] ]|].
        split_char c2;
          first [ injection H as <- _; first [exact I | split; [constructor|exact I]]
                | eapply IHe; [apply Forall_nil|exact H]
                | eapply IHm; [|exact H]; split; [constructor|exact I] ].
      * destruct (Json.skip_ws s1) as [|c2 s2];
          [first [ eapply IHe; [apply Forall_nil|exact H]
                 | eapply IHm; [|exact H]; split; [constructor|exact I] ]|].
        split_char c2;
          first [ injection H as <- _; first [exact I | split; [constructor|exact I]]
                | eapply IHe; [apply Forall_nil|exact H]
                | eapply IHm; [|exact H]; split; [constructor|exact I] ].
    + intros acc s v r Hacc H. cbn [Json.elements] in H.
      destruct (Json.value_ fuel s) as [[x s1]|] eqn:Ex; [|discriminate].
      apply IHv in Ex.
      assert (Hacc' : Forall well_formed (x :: acc)) by now constructor.
      destruct (Json.skip_ws s1) as [|c2 s2]; [discriminate|].
      split_char c2; try discriminate H;
        first [ eapply IHe; [exact Hacc'|exact H]
              | injection H as <- _; apply well_formed_list_iff;
                exact (Forall_rev Hacc') ].
    + intros acc s v r Hacc H. cbn [Json.members] in H.
      destruct s as [|c s1]; [discriminate|].
      destruct (Ascii.eqb c dquote); [|discriminate].
      destruct (Json.string_body _ s1) as [[k s2]|]; [|discriminate].
      destruct (Json.skip_ws s2) as [|c3 s3]; [discriminate|].
      split_char c3; try discriminate H.
      destruct (Json.value_ fuel (Json.skip_ws s3)) as [[x s4]|] eqn:Ex; [|discriminate].
      apply IHv in Ex.
      pose proof (well_formed_dict_set k x acc Hacc Ex) as Hset.
      destruct (Json.skip_ws s4) as [|c5 s5]; [discriminate|].
      split_char c5; try discriminate H;
        first [ eapply IHm; [exact Hset|exact H]
              | injection H as <- _; exact Hset ].
Qed.

Lemma loads_well_formed (text : string) (v : value) :
  Json.loads text = Decoded v -> well_formed v.
Proof.
  unfold Json.loads. intros H.
  destruct (Json.value_ _ _) as [[x rest]|[msg rest|e]] eqn:E; try discriminate.
  apply (proj1 (json_well_formed _)) in E.
  destruct (Json.skip_ws rest); [|discriminate]. now injection H as <-.
Qed.

(** ** What the item loop leaves behind *)

Lemma unique_keys_question_renamed d :
  unique_keys d -> unique_keys (question_renamed d).
Proof.
  unfold question_renamed. intros H. destruct (assoc "question_text" d); [|exact H].
  now apply unique_keys_set, unique_keys_remove.
Qed.

Lemma unique_keys_options_listed d :
  unique_keys d -> unique_keys (options_listed d).
Proof.
  unfold options_listed. intros H.
  destruct (assoc "options" d) as [[]|]; try exact H. now apply unique_keys_set.
Qed.

Lemma question_text_gone d :
  unique_keys d -> assoc "question_text" (question_renamed d) = None.
Proof.
  unfold question_renamed. intros H. destruct (assoc "question_text" d) eqn:E; [|exact E].
  rewrite assoc_set_neq by discriminate. now apply assoc_remove_eq.
Qed.

Lemma options_listed_not_dict d o :
  assoc "options" (options_listed d) = Some o -> isinstance_dict o = false.
Proof.
  unfold options_listed. destruct (assoc "options" d) as [x|] eqn:E.
  - destruct x; rewrite ?assoc_set_eq, ?E; intros [= <-]; reflexivity.
  - rewrite E. discriminate.
Qed.

Lemma defaults_added_has d :
  assoc "explanation" (defaults_added d) <> None /\
  assoc "tags" (defaults_added d) <> None.
Proof.
  unfold defaults_added.
  destruct (assoc "explanation" d) eqn:E1; cbv zeta.
  - destruct (assoc "tags" d) eqn:E2.
    + rewrite E1, E2. split; discriminate.
    + rewrite assoc_set_neq, E1, assoc_set_eq by discriminate. split; discriminate.
  - destruct (assoc "tags" (dict_set "explanation" (PyStr "") d)) eqn:E2.
    + rewrite assoc_set_eq, E2. split; discriminate.
    + rewrite assoc_set_neq, !assoc_set_eq by discriminate. split; discriminate.
Qed.

Lemma question_number_gone i d :
  unique_keys d -> assoc "question_number" (id_assigned i d) = None.
Proof.
  unfold id_assigned. intros H.
  destruct (assoc "question_number" d) eqn:E; cbv zeta.
  - rewrite assoc_set_eq, assoc_set_neq by discriminate. now apply assoc_remove_eq.
  - destruct (assoc "id" d); [exact E|]. now rewrite assoc_set_neq by discriminate.
Qed.

(** What [step_correct_answer] leaves behind. *)
Lemma step_correct_answer_result i d d' :
  unique_keys d ->
  step_correct_answer i (PyDict d) = Ok (PyDict d') ->
  unique_keys d' /\ assoc "correct_answer" d' = None.
Proof.
  intros Hu. rewrite step_correct_answer_eq.
  destruct (assoc "correct_answer" d) as [[]|] eqn:E; try discriminate.
  - cbv zeta. destruct (str_contains _ _); [|discriminate].
    destruct (letter_index _); [|discriminate].
    intros [= <-]. split.
    + now apply unique_keys_remove, unique_keys_set.
    + now apply assoc_remove_eq, unique_keys_set.
  - intros [= <-]. now split.
Qed.

Lemma normalize_item_schema (i : nat) (item item' : value) :
  item_unique_keys item ->
  normalize_item i item = Ok item' ->
  normalized_item item' = true.
Proof.
  intros Hu H. apply normalize_item_dict in H.
  destruct H as (d & d1 & d2 & -> & H1 & H2 & H3 & H4 & ->).
  cbn in Hu.
  rewrite step_question_eq in H1.
  destruct (dict_mem "question" (question_renamed d)) eqn:Eq; [|discriminate].
  injection H1 as <-.
  destruct (step_options_dict _ _ _ H2) as (d0 & [= <-] & _ & o & Ho & Hlen).
  pose proof (options_listed_not_dict _ _ Ho) as Hnd.
  pose proof (unique_keys_options_listed _ (unique_keys_question_renamed _ Hu)) as Hu1.
  destruct (step_correct_answer_result _ _ _ Hu1 H3) as [Hu2 Hca].
  pose proof (step_correct_answer_keeps _ _ _ H3) as K3.
  rewrite check_answer_index_eq in H4.
  destruct (assoc "answer_index" d2) as [a|] eqn:Ea; [|discriminate].
  destruct (isinstance_int a && in_range 4 a) eqn:Eok; [|discriminate].
  pose proof (keeps_question_renamed d) as K1.
  pose proof (keeps_options_listed (question_renamed d)) as K2.
  pose proof (keeps_id_assigned i d2) as K4.
  pose proof (keeps_defaults_added (id_assigned i d2)) as K5.
  destruct (defaults_added_has (id_assigned i d2)) as [Hex Htg].
  cbn [normalized_item]. unfold dict_mem in *.
  rewrite (K5 "question"), (K4 "question"), (K3 "question"), (K2 "question")
    by (cbn; intuition congruence).
  rewrite (K5 "id"), assoc_id_assigned by (cbn; intuition congruence).
  rewrite (K5 "question_text"), (K4 "question_text"), (K3 "question_text"),
    (K2 "question_text"), question_text_gone
    by (first [assumption | cbn; intuition congruence]).
  rewrite (K5 "correct_answer"), (K4 "correct_answer"), Hca
    by (cbn; intuition congruence).
  rewrite (K5 "question_number"), question_number_gone
    by (first [assumption | cbn; intuition congruence]).
  rewrite (K5 "options"), (K4 "options"), (K3 "options"), Ho
    by (cbn; intuition congruence).
  rewrite (K5 "answer_index"), (K4 "answer_index"), Ea by (cbn; intuition congruence).
  rewrite Hnd, Hlen, Eok.
  destruct (assoc "question" (question_renamed d)); [|discriminate].
  destruct (assoc "explanation" _); [|congruence].
  destruct (assoc "tags" _); [|congruence].
  reflexivity.
Qed.

Lemma normalize_item_normalized (j : nat) (item : value) :
  normalized_item item = true -> normalize_item j item = Ok item.
Proof.
  destruct item; try discriminate. cbn [normalized_item]. unfold dict_mem. intros H.
  repeat (apply andb_prop in H as [H ?]).
  destruct (assoc "question" d) eqn:Eq; [|discriminate].
  destruct (assoc "id" d) eqn:Eid; [|discriminate].
  destruct (assoc "explanation" d) eqn:Eex; [|discriminate].
  destruct (assoc "tags" d) eqn:Etg; [|discriminate].
  destruct (assoc "question_text" d) eqn:Eqt; [discriminate|].
  destruct (assoc "correct_answer" d) eqn:Eca; [discriminate|].
  destruct (assoc "question_number" d) eqn:Eqn; [discriminate|].
  destruct (assoc "options" d) as [o|] eqn:Eop; [|discriminate].
  destruct (assoc "answer_index" d) as [a|] eqn:Eai; [|discriminate].
  match goal with H : negb (isinstance_dict o) && _ = true |- _ =>
    apply andb_prop in H as [Hnd Hlen] end.
  destruct (py_len o) as [n|] eqn:En; [|discriminate].
  unfold normalize_item.
  rewrite step_question_eq. unfold question_renamed, dict_mem. rewrite Eqt, Eq. cbn [bind].
  rewrite step_options_eq.
  assert (Hol : options_listed d = d).
  { unfold options_listed. rewrite Eop. destruct o; try reflexivity. discriminate. }
  rewrite Hol, Eop, En, Hlen.
  cbn [bind].
  rewrite step_correct_answer_eq, Eca. cbn [bind].
  rewrite check_answer_index_eq, Eai.
  match goal with H : isinstance_int _ && _ = true |- _ => rewrite H end. cbn [bind].
  rewrite step_id_eq. cbn [bind]. rewrite step_defaults_eq.
  unfold id_assigned, defaults_added. rewrite Eqn. cbv zeta. rewrite Eid, Eex. now rewrite Etg.
Qed.

(** ** The top level of the quiz *)

Lemma rename_key_eq old new d :
  rename_key old new (PyDict d) = Ok (PyDict (renamed old new d)).
Proof.
  unfold rename_key, renamed, py_in, py_pop, py_setitem, bind, dict_mem.
  now destruct (assoc old d).
Qed.

Lemma set_default_eq k x d :
  set_default k x (PyDict d) = Ok (PyDict (defaulted k x d)).
Proof.
  unfold set_default, defaulted, py_in, py_setitem, bind, dict_mem.
  now destruct (assoc k d).
Qed.

Lemma normalize_top_eq difficulty topic_text d :
  normalize_top difficulty topic_text (PyDict d) =
  let d' := top_normalized difficulty topic_text d in
  match assoc "items" d' with
  | Some (PyList []) => Ok (PyDict (dict_set "items" (PyList []) d'), [])
  | Some (PyList l) => Ok (PyDict d', l)
  | _ => Raise (ValueError (MsgNoItems (PyDict d')))
  end.
Proof.
  unfold normalize_top, top_normalized.
  rewrite rename_key_eq. cbn [bind]. rewrite rename_key_eq. cbn [bind].
  rewrite set_default_eq. cbn [bind]. rewrite set_default_eq. cbn [bind].
  cbv zeta. cbn [py_in py_getitem bind]. unfold dict_mem.
  match goal with |- context [assoc "items" ?x] => destruct (assoc "items" x) as [[| | | | |[|y l]|]|] end;
    reflexivity.
Qed.

Lemma unique_keys_renamed old new d : unique_keys d -> unique_keys (renamed old new d).
Proof.
  unfold renamed. intros H. destruct (assoc old d); [|exact H].
  now apply unique_keys_set, unique_keys_remove.
Qed.

Lemma unique_keys_defaulted k x d : unique_keys d -> unique_keys (defaulted k x d).
Proof.
  unfold defaulted. intros H. destruct (assoc k d); [exact H|]. now apply unique_keys_set.
Qed.

Lemma renamed_old_gone old new d :
  old <> new -> unique_keys d -> assoc old (renamed old new d) = None.
Proof.
  unfold renamed. intros Hne H. destruct (assoc old d) eqn:E; [|exact E].
  rewrite assoc_set_neq by exact Hne. now apply assoc_remove_eq.
Qed.

Lemma keeps_renamed old new d : keeps [old; new] d (renamed old new d).
Proof.
  unfold renamed. destruct (assoc old d); [|apply keeps_refl].
  intros k Hk. cbn in Hk.
  rewrite assoc_set_neq, assoc_remove_neq by (intuition congruence). reflexivity.
Qed.

Lemma keeps_defaulted k x d : keeps [k] d (defaulted k x d).
Proof.
  unfold defaulted. destruct (assoc k d); [apply keeps_refl|].
  intros k' Hk. cbn in Hk. rewrite assoc_set_neq by (intuition congruence). reflexivity.
Qed.

Lemma defaulted_has k x d : assoc k (defaulted k x d) <> None.
Proof.
  unfold defaulted. destruct (assoc k d) eqn:E; [congruence|].
  rewrite assoc_set_eq. discriminate.
Qed.

Lemma items_of_top_normalized difficulty topic_text d :
  assoc "items" (top_normalized difficulty topic_text d) =
  match assoc "questions" d with
  | Some x => Some x
  | None => assoc "items" d
  end.
Proof.
  unfold top_normalized.
  rewrite (keeps_defaulted "level"), (keeps_defaulted "topic"),
    (keeps_renamed "quiz_name" "topic") by (cbn; intuition congruence).
  unfold renamed. destruct (assoc "questions" d); [apply assoc_set_eq|reflexivity].
Qed.

Lemma normalize_items_output i items items' :
  Forall item_unique_keys items ->
  normalize_items i items = Ok items' ->
  forallb normalized_item items' = true.
Proof.
  revert i items'. induction items as [|x items IH]; intros i items' Hu H; cbn in *.
  - now inversion H.
  - destruct (normalize_item i x) as [x'|] eqn:Ex; [|discriminate]. cbn [bind] in H.
    destruct (normalize_items (S i) items) as [r|] eqn:Er; [|discriminate].
    cbn in H. injection H as <-. inversion Hu; subst. cbn.
    rewrite (normalize_item_schema _ _ _ H1 Ex). cbn. eauto.
Qed.

Lemma normalize_top_of_dict difficulty topic_text raw r :
  normalize_top difficulty topic_text raw = Ok r -> isinstance_dict raw = true.
Proof.
  destruct raw; try reflexivity; try discriminate;
    unfold normalize_top, rename_key, set_default, py_in, py_pop, py_setitem,
      py_getitem, bind;
    repeat match goal with
           | |- context [if ?b then _ else _] => destruct b; cbn [negb]
           end; discriminate.
Qed.

Lemma normalize_schema (difficulty topic_text : string) (raw q : value) :
  well_formed raw ->
  normalize difficulty topic_text raw = Ok q ->
  normalized_quiz q = true.
Proof.
  intros Hwf H.
  destruct (normalize_ok _ _ _ _ H) as (d & items & items' & Ht & Hi & ->).
  pose proof (normalize_top_of_dict _ _ _ _ Ht) as Hraw.
  destruct raw as [| | | | | |d0]; try discriminate Hraw. clear Hraw.
  rewrite normalize_top_eq in Ht. cbv zeta in Ht.
  set (d' := top_normalized difficulty topic_text d0) in *.
  assert (Hu' : unique_keys d').
  { unfold d', top_normalized. repeat apply unique_keys_defaulted.
    repeat apply unique_keys_renamed. apply Hwf. }
  assert (Hlv : assoc "level" d' <> None) by apply defaulted_has.
  assert (Htp : assoc "topic" d' <> None).
  { unfold d', top_normalized. rewrite (keeps_defaulted "level") by (cbn; intuition congruence).
    apply defaulted_has. }
  assert (Hqn : assoc "quiz_name" d' = None).
  { unfold d', top_normalized.
    rewrite (keeps_defaulted "level"), (keeps_defaulted "topic") by (cbn; intuition congruence).
    apply renamed_old_gone; [discriminate|]. apply unique_keys_renamed, Hwf. }
  assert (Hqs : assoc "questions" d' = None).
  { unfold d', top_normalized.
    rewrite (keeps_defaulted "level"), (keeps_defaulted "topic"),
      (keeps_renamed "quiz_name" "topic") by (cbn; intuition congruence).
    apply renamed_old_gone; [discriminate|]. apply Hwf. }
  assert (Hitems : assoc "items" d' = Some (PyList items) /\
                   (d = d' \/ d = dict_set "items" (PyList []) d')).
  { destruct (assoc "items" d') as [[| | | | |[|y l]|]|]; try discriminate Ht;
      injection Ht as <- <-; auto. }
  destruct Hitems as (Hit & Hd).
  assert (Hwi : Forall item_unique_keys items).
  { apply well_formed_list.
    unfold d' in Hit. rewrite items_of_top_normalized in Hit.
    destruct (assoc "questions" d0) eqn:Eq.
    - injection Hit as ->. eapply well_formed_assoc; eauto.
    - eapply well_formed_assoc; eauto. }
  pose proof (normalize_items_output _ _ _ Hwi Hi) as Hout.
  cbn [normalized_quiz]. unfold dict_mem. rewrite assoc_set_eq, Hout.
  rewrite !assoc_set_neq by discriminate.
  assert (Hk : forall k, k <> "items" -> assoc k d = assoc k d').
  { intros k Hk. destruct Hd as [->| ->]; [reflexivity|now rewrite assoc_set_neq]. }
  rewrite !Hk by discriminate. rewrite Hqn, Hqs.
  destruct (assoc "topic" d'); [|congruence].
  destruct (assoc "level" d'); [|congruence]. reflexivity.
Qed.

Lemma normalize_items_normalized i items :
  forallb normalized_item items = true -> normalize_items i items = Ok items.
Proof.
  revert i. induction items as [|x items IH]; intros i H; cbn in *; [reflexivity|].
  apply andb_prop in H as [Hx H].
  now rewrite normalize_item_normalized, IH.
Qed.

Lemma normalize_of_normalized (difficulty topic_text : string) (q : value) :
  normalized_quiz q = true -> normalize difficulty topic_text q = Ok q.
Proof.
  destruct q; try discriminate. cbn [normalized_quiz]. unfold dict_mem. intros H.
  repeat (apply andb_prop in H as [H ?]).
  destruct (assoc "topic" d) eqn:Et; [|discriminate].
  destruct (assoc "level" d) eqn:El; [|discriminate].
  destruct (assoc "questions" d) eqn:Eqs; [discriminate|].
  destruct (assoc "quiz_name" d) eqn:Eqn; [discriminate|].
  destruct (assoc "items" d) as [[]|] eqn:Eit; try discriminate.
  assert (Hd : top_normalized difficulty topic_text d = d).
  { unfold top_normalized, renamed, defaulted. rewrite Eqs, Eqn, Et. now rewrite El. }
  unfold normalize. rewrite normalize_top_eq. cbv zeta. rewrite Hd, Eit.
  destruct l as [|y l].
  - cbn. now rewrite !(dict_set_same _ _ _ Eit).
  - cbn [bind]. rewrite normalize_items_normalized by assumption. cbn.
    now rewrite (dict_set_same _ _ _ Eit).
Qed.

(** ** [gen_quiz]: the shape of what is returned *)

Lemma parse_quiz_from_decoder (json_loads : string -> decoded)
  (text : string) (v : value) :
  snd (parse_quiz json_loads text) = Ok v -> exists t, json_loads t = Decoded v.
Proof.
  unfold parse_quiz.
  destruct (json_loads text) as [x|e|x] eqn:E1; cbn.
  - intros [= <-]. eauto.
  - destruct (re_search_braces text) as [json_str|]; [|discriminate].
    destruct (json_loads json_str) as [x|e'|x] eqn:E2; cbn; try discriminate.
    intros [= <-]. eauto.
  - discriminate.
Qed.

(** X1.  Whatever [gen_quiz] returns has the schema the quiz page reads: a
    topic, a level and a list of items under [items], no top-level alias
    left, and in every item a question, an id, an explanation, tags, four
    options that are not a dictionary and an integer answer index from 0 to
    3, with none of the alias fields left.  The decoder is any that returns
    values whose dictionaries have no repeated key. *)
Theorem gen_quiz_output_schema (json_loads : string -> decoded)
  (difficulty topic_text resp_text : string) (q : value) :
  (forall text v, json_loads text = Decoded v -> well_formed v) ->
  gen_quiz json_loads difficulty topic_text resp_text = Ok q ->
  normalized_quiz q = true.
Proof.
  intros Hwf H. unfold gen_quiz in H.
  destruct (snd (parse_quiz json_loads (strip_fences resp_text))) as [raw|] eqn:E;
    [|discriminate].
  cbn [bind] in H. apply parse_quiz_from_decoder in E as [t Ht].
  eapply normalize_schema; [eapply Hwf; exact Ht|exact H].
Qed.

(** X2.  Normalising is idempotent: a quiz that came out of the
    normalisation goes through it again unchanged, whatever difficulty and
    topic text the second pass is given. *)
Theorem normalize_idempotent (difficulty topic_text difficulty' topic_text' : string)
  (raw q : value) :
  well_formed raw ->
  normalize difficulty topic_text raw = Ok q ->
  normalize difficulty' topic_text' q = Ok q.
Proof.
  intros Hwf H. apply normalize_of_normalized. eapply normalize_schema; eauto.
Qed.

(** ** [gen_quiz]: aliases, defaults and errors at the top level *)

Lemma normalize_on_dict difficulty topic_text d q :
  normalize difficulty topic_text (PyDict d) = Ok q ->
  exists items items',
    assoc "items" (top_normalized difficulty topic_text d) = Some (PyList items) /\
    normalize_items 0 items = Ok items' /\
    q = PyDict (dict_set "items" (PyList items') (top_normalized difficulty topic_text d)).
Proof.
  intros H. destruct (normalize_ok _ _ _ _ H) as (d1 & items & items' & Ht & Hi & ->).
  rewrite normalize_top_eq in Ht. cbv zeta in Ht.
  destruct (assoc "items" (top_normalized difficulty topic_text d))
    as [[| | | | |[|y l]|]|] eqn:E; try discriminate Ht; injection Ht as <- <-.
  - exists [], items'. split; [reflexivity|]. split; [exact Hi|].
    now rewrite dict_set_twice.
  - exists (y :: l), items'. split; [reflexivity|]. split; [exact Hi|reflexivity].
Qed.

Lemma assoc_defaulted k x d :
  assoc k (defaulted k x d) = Some (match assoc k d with Some v => v | None => x end).
Proof.
  unfold defaulted. destruct (assoc k d) eqn:E; [exact E|apply assoc_set_eq].
Qed.

(** X3.  At the top level the alias keys win over the canonical ones: the
    value under [quiz_name] becomes the topic even when a [topic] is there,
    and the value under [questions] is the list the item loop runs over even
    when [items] is there; the quiz returned has as many items as that
    list. *)
Theorem top_level_aliases_win (difficulty topic_text : string) (d : dict) (q : value) :
  normalize difficulty topic_text (PyDict d) = Ok q ->
  (forall name, assoc "quiz_name" d = Some name -> py_getitem q "topic" = Ok name) /\
  (forall x, assoc "questions" d = Some x ->
             x = PyList (loop_items difficulty topic_text (PyDict d)) /\
             List.length (quiz_items q) = List.length (loop_items difficulty topic_text (PyDict d))).
Proof.
  intros H. destruct (normalize_on_dict _ _ _ _ H) as (items & items' & Hit & Hi & ->).
  split.
  - intros name Hn. cbn [py_getitem]. rewrite assoc_set_neq by discriminate.
    unfold top_normalized.
    rewrite (keeps_defaulted "level") by (cbn; intuition congruence).
    assert (Ht : assoc "topic" (renamed "quiz_name" "topic" (renamed "questions" "items" d))
                 = Some name).
    { unfold renamed at 1.
      rewrite (keeps_renamed "questions" "items") by (cbn; intuition congruence).
      rewrite Hn. apply assoc_set_eq. }
    now rewrite assoc_defaulted, Ht.
  - intros x Hx. rewrite items_of_top_normalized, Hx in Hit. injection Hit as ->.
    assert (Hl : loop_items difficulty topic_text (PyDict d) = items).
    { unfold loop_items. rewrite normalize_top_eq. cbv zeta.
      rewrite items_of_top_normalized, Hx. now destruct items. }
    rewrite Hl. split; [reflexivity|].
    unfold quiz_items. rewrite assoc_set_eq. eapply normalize_items_length; eauto.
Qed.

(** X4.  Without a [quiz_name], the topic of the quiz returned is the one
    the model gave, else the first 100 characters of the stripped topic
    text, else "Kuis Umum" when that text is blank; the level is the one the
    model gave, else the difficulty asked for. *)
Theorem topic_and_level_defaults (difficulty topic_text : string) (d : dict) (q : value) :
  normalize difficulty topic_text (PyDict d) = Ok q ->
  assoc "quiz_name" d = None ->
  py_getitem q "topic"
    = Ok (match assoc "topic" d with
          | Some t => t
          | None => PyStr (match strip topic_text with
                           | EmptyString => "Kuis Umum"
                           | t => take 100 t
                           end)
          end) /\
  py_getitem q "level"
    = Ok (match assoc "level" d with
          | Some lv => lv
          | None => PyStr difficulty
          end).
Proof.
  intros H Hqn. destruct (normalize_on_dict _ _ _ _ H) as (items & items' & Hit & Hi & ->).
  cbn [py_getitem]. rewrite !assoc_set_neq by discriminate.
  assert (Ht : assoc "topic" (renamed "quiz_name" "topic" (renamed "questions" "items" d))
               = assoc "topic" d).
  { unfold renamed at 1.
    rewrite (keeps_renamed "questions" "items" d "quiz_name") by (cbn; intuition congruence).
    rewrite Hqn. now rewrite (keeps_renamed "questions" "items") by (cbn; intuition congruence). }
  assert (Hl : assoc "level" (renamed "quiz_name" "topic" (renamed "questions" "items" d))
               = assoc "level" d).
  { now rewrite (keeps_renamed "quiz_name" "topic"), (keeps_renamed "questions" "items")
      by (cbn; intuition congruence). }
  unfold top_normalized. split.
  - rewrite (keeps_defaulted "level") by (cbn; intuition congruence).
    now rewrite assoc_defaulted, Ht.
  - rewrite assoc_defaulted.
    rewrite (keeps_defaulted "topic") by (cbn; intuition congruence).
    now rewrite Hl.
Qed.

(** X5.  What the top level of the decoded JSON decides.  For a dictionary:
    when the value under [questions], or under [items] if there is no
    [questions], is a list, the steps before the item loop raise nothing;
    otherwise the outcome is the "no valid items" [ValueError], printing the
    dictionary after aliasing and defaults.  For anything that is not a
    dictionary the outcome is a [TypeError], an [AttributeError] or, for a
    string that holds "topic" and "level", that same [ValueError]: no quiz is
    returned. *)
Theorem items_must_be_a_list (difficulty topic_text : string) (raw : value) :
  match raw with
  | PyDict d =>
      if has_item_list d then
        forall e, normalize_top difficulty topic_text raw <> Raise e
      else
        normalize difficulty topic_text raw
        = Raise (ValueError (MsgNoItems (PyDict (top_normalized difficulty topic_text d))))
  | _ =>
      normalize difficulty topic_text raw = Raise TypeError \/
      normalize difficulty topic_text raw = Raise AttributeError \/
      normalize difficulty topic_text raw = Raise (ValueError (MsgNoItems raw))
  end.
Proof.
  destruct raw as [| | | | | |d].
  1-4: left; reflexivity.
  - unfold normalize, normalize_top, rename_key, set_default, py_in, py_pop, py_setitem,
      py_getitem, bind.
    repeat match goal with
           | |- context [if ?b then _ else _] => destruct b; cbn [negb]
           end; auto.
  - unfold normalize, normalize_top, rename_key, set_default, py_in, py_pop, py_setitem,
      py_getitem, bind.
    repeat match goal with
           | |- context [if ?b then _ else _] => destruct b; cbn [negb]
           end; auto.
  - unfold has_item_list.
    pose proof (items_of_top_normalized difficulty topic_text d) as Hit.
    destruct (assoc "questions" d) as [x|] eqn:Eq.
    + destruct x; cbn [isinstance_list];
        try (unfold normalize; rewrite normalize_top_eq; cbv zeta; rewrite Hit; reflexivity).
      intros e. rewrite normalize_top_eq. cbv zeta. rewrite Hit. destruct l; discriminate.
    + destruct (assoc "items" d) as [x|] eqn:Ei.
      * destruct x; cbn [isinstance_list];
          try (unfold normalize; rewrite normalize_top_eq; cbv zeta; rewrite Hit; reflexivity).
        intros e. rewrite normalize_top_eq. cbv zeta. rewrite Hit. destruct l; discriminate.
      * unfold normalize. rewrite normalize_top_eq. cbv zeta. now rewrite Hit.
Qed.

(** ** [gen_quiz]: aliases inside an item *)

Lemma single_letter (c : ascii) :
  In (Z.of_nat (nat_of_ascii c) - 65) [0; 1; 2; 3] ->
  In (String c "", Z.of_nat (nat_of_ascii c) - 65) [("A", 0); ("B", 1); ("C", 2); ("D", 3)].
Proof.
  split_char c; cbn; intros H; repeat (destruct H as [H|H]; try discriminate H); intuition.
Qed.

(** X6.  Inside an item the alias fields win over the canonical ones.  In
    an item that passes the loop: a [question_text] is the question, also
    when a [question] was there; a [question_number] gives the id "q" and
    that number, also when an [id] was there; and a [correct_answer] string
    is, once stripped and upper-cased, exactly one of the letters A to D, and
    its position is the answer index, also when an [answer_index] was
    there. *)
Theorem item_aliases_override (i : nat) (d : dict) (item' : value) :
  normalize_item i (PyDict d) = Ok item' ->
  (forall q, assoc "question_text" d = Some q -> py_getitem item' "question" = Ok q) /\
  (forall n, assoc "question_number" d = Some n ->
     py_getitem item' "id" = Ok (PyStr ("q" ++ str n))) /\
  (forall s, assoc "correct_answer" d = Some (PyStr s) ->
     exists k, In (upper (strip s), k) [("A", 0); ("B", 1); ("C", 2); ("D", 3)] /\
               py_getitem item' "answer_index" = Ok (PyInt k)).
Proof.
  intros H. pose proof (normalize_item_id _ _ _ H) as Hid.
  apply normalize_item_dict in H.
  destruct H as (d0 & d1 & d2 & [= <-] & H1 & H2 & H3 & H4 & ->).
  rewrite step_question_eq in H1.
  destruct (dict_mem "question" (question_renamed d)); [|discriminate].
  injection H1 as <-.
  pose proof (step_correct_answer_keeps _ _ _ H3) as K3.
  pose proof (keeps_question_renamed d) as K1.
  pose proof (keeps_options_listed (question_renamed d)) as K2.
  pose proof (keeps_id_assigned i d2) as K4.
  pose proof (keeps_defaults_added (id_assigned i d2)) as K5.
  cbn [py_getitem item_id] in *.
  split; [|split].
  - intros q Hq.
    rewrite (K5 "question"), (K4 "question"), (K3 "question"), (K2 "question")
      by (cbn; intuition congruence).
    unfold question_renamed. rewrite Hq. now rewrite assoc_set_eq.
  - intros n Hn. rewrite Hid. unfold id_of. now rewrite Hn.
  - intros s Hs.
    assert (Hs' : assoc "correct_answer" (options_listed (question_renamed d))
                  = Some (PyStr s)).
    { now rewrite (K2 "correct_answer"), (K1 "correct_answer")
        by (cbn; intuition congruence). }
    rewrite step_correct_answer_eq, Hs' in H3. cbv zeta in H3.
    destruct (str_contains (upper (strip s)) "ABCD"); [|discriminate].
    destruct (letter_index (upper (strip s))) as [k|] eqn:Ek; [|discriminate].
    injection H3 as <-.
    rewrite check_answer_index_eq in H4.
    rewrite assoc_remove_neq, assoc_set_eq in H4 by discriminate.
    destruct (isinstance_int (PyInt k) && in_range 4 (PyInt k)) eqn:Eok; [|discriminate].
    cbn in Eok. exists k. split.
    + unfold letter_index in Ek.
      destruct (upper (strip s)) as [|c [|c' r]]; try discriminate.
      injection Ek as <-. apply single_letter. cbn. lia.
    + rewrite (K5 "answer_index"), (K4 "answer_index") by (cbn; intuition congruence).
      now rewrite assoc_remove_neq, assoc_set_eq by discriminate.
Qed.

(** X7.  An options dictionary never fails the four-options check: the
    item is never refused for its options, and in an item that passes the
    loop the options are the values under A, B, C and D in that order, with
    the empty string for a letter that is missing; entries under other keys
    are dropped. *)
Theorem options_dict_read_by_letter (i : nat) (d opt_dict : dict) :
  assoc "options" d = Some (PyDict opt_dict) ->
  (forall v, normalize_item i (PyDict d) <> Raise (ValueError (MsgBadOptions i v))) /\
  (forall item', normalize_item i (PyDict d) = Ok item' ->
     py_getitem item' "options"
     = Ok (PyList [option_at "A" opt_dict; option_at "B" opt_dict;
                   option_at "C" opt_dict; option_at "D" opt_dict])).
Proof.
  intros Ho.
  assert (Ho1 : assoc "options" (question_renamed d) = Some (PyDict opt_dict)).
  { now rewrite (keeps_question_renamed d "options") by (cbn; intuition congruence). }
  assert (Hol : assoc "options" (options_listed (question_renamed d))
                = Some (options_of_dict opt_dict)).
  { unfold options_listed. rewrite Ho1. apply assoc_set_eq. }
  split.
  - intros v. unfold normalize_item. rewrite step_question_eq.
    destruct (dict_mem "question" (question_renamed d)); [|discriminate].
    cbn [bind]. rewrite step_options_eq, Hol. cbn [options_of_dict py_len map List.length].
    cbn [Z.of_nat Pos.of_succ_nat Pos.succ Z.eqb Pos.eqb bind].
    rewrite step_correct_answer_eq.
    destruct (assoc "correct_answer" _) as [[]|]; try discriminate.
    + cbv zeta. destruct (str_contains _ _); [|discriminate].
      destruct (letter_index _); [|discriminate]. cbn [bind].
      rewrite check_answer_index_eq.
      destruct (assoc "answer_index" _); [|discriminate].
      destruct (_ && _); [|discriminate].
      cbn [bind]. rewrite step_id_eq. cbn [bind]. rewrite step_defaults_eq. discriminate.
    + cbn [bind]. rewrite check_answer_index_eq.
      destruct (assoc "answer_index" _); [|discriminate].
      destruct (_ && _); [|discriminate].
      cbn [bind]. rewrite step_id_eq. cbn [bind]. rewrite step_defaults_eq. discriminate.
  - intros item' H. apply normalize_item_dict in H.
    destruct H as (d0 & d1 & d2 & [= <-] & H1 & H2 & H3 & H4 & ->).
    rewrite step_question_eq in H1.
    destruct (dict_mem "question" (question_renamed d)); [|discriminate].
    injection H1 as <-.
    pose proof (step_correct_answer_keeps _ _ _ H3) as K3.
    pose proof (keeps_id_assigned i d2) as K4.
    pose proof (keeps_defaults_added (id_assigned i d2)) as K5.
    cbn [py_getitem].
    rewrite (K5 "options"), (K4 "options"), (K3 "options"), Hol
      by (cbn; intuition congruence).
    reflexivity.
Qed.

(** ** The ledger over any series of calls *)

Lemma distinct_ids_snoc (hist : list entry) (x : entry) :
  distinct_ids hist ->
  existsb (fun h => py_eq (h_id h) (h_id x)) hist = false ->
  distinct_ids (hist ++ [x]).
Proof.
  induction hist as [|h rest IH]; cbn; intros Hd Hx.
  - split; [constructor|exact I].
  - destruct Hd as [Hh Hd]. apply orb_false_elim in Hx as [Hhx Hx].
    split; [|now apply IH].
    apply Forall_app. split; [exact Hh|]. constructor; [exact Hhx|constructor].
Qed.

Lemma count_correct_bounds (hist : list entry) :
  0 <= count_correct hist <= Z.of_nat (List.length hist).
Proof.
  unfold count_correct. pose proof (filter_length_le h_correct hist). lia.
Qed.

Lemma update_progress_ok prog qid correct level now :
  ledger_ok prog -> ledger_ok (update_progress prog qid correct level now).
Proof.
  intros H. unfold update_progress, recorded.
  destruct (existsb _ (history prog)) eqn:E; [exact H|].
  destruct H as ([Ha Hcor] & Hd & Hb).
  pose proof (count_correct_bounds (history prog)) as Hcb.
  split; [split|split]; cbn [total_attempts total_correct history].
  - rewrite length_app. cbn. lia.
  - rewrite count_correct_app, Hcor. destruct correct; unfold count_correct; cbn; lia.
  - now apply distinct_ids_snoc.
  - destruct correct; lia.
Qed.

Lemma record_all_ok calls prog : ledger_ok prog -> ledger_ok (record_all calls prog).
Proof.
  revert prog. induction calls as [|[[[qid correct] level] now] rest IH]; intros prog H.
  - exact H.
  - cbn. apply IH. now apply update_progress_ok.
Qed.

Lemma empty_ledger_ok : ledger_ok empty_ledger.
Proof. repeat split; cbn; try lia. Qed.

(** X8.  After any series of calls of [update_progress] on the ledger a
    session starts with, the attempts are the length of the history, the
    correct answers are the entries marked correct, no two entries have ids
    that are equal, and the correct answers are between 0 and the
    attempts. *)
Theorem ledger_invariants_from_empty (calls : list call) :
  ledger_ok (record_all calls empty_ledger).
Proof. apply record_all_ok, empty_ledger_ok. Qed.

(** X9.  On a ledger whose counters agree with its history, the ids the
    review page collects (those of the entries not marked correct) are as
    many as attempts minus correct answers, so the page reports that there is
    no wrong answer exactly when the two counters are equal. *)
Theorem wrong_ids_count (prog : ledger) :
  consistent prog ->
  Z.of_nat (List.length (wrong_ids prog)) = total_attempts prog - total_correct prog /\
  (wrong_ids prog = [] <-> total_correct prog = total_attempts prog).
Proof.
  intros [Ha Hc]. unfold wrong_ids. rewrite length_map, Ha, Hc. unfold count_correct.
  assert (H : forall l : list entry,
             (List.length (filter (fun h => negb (h_correct h)) l)
              + List.length (filter h_correct l) = List.length l)%nat).
  { induction l as [|h l IH]; cbn; [reflexivity|].
    destruct (h_correct h); cbn; lia. }
  specialize (H (history prog)). split; [lia|].
  split.
  - intros E. apply (f_equal (@List.length _)) in E. rewrite length_map in E. cbn in E. lia.
  - intros E.
    destruct (filter (fun h => negb (h_correct h)) (history prog)) eqn:Ef; [reflexivity|].
    cbn in H. lia.
Qed.

(** ** The quiz page keeps the ledger sound *)

Lemma readonly_preserves {A} (P : session_state -> Prop) (m : script A) :
  readonly m -> preserves P m.
Proof. intros H s Hs. now rewrite H. Qed.

Lemma preserves_bind {A B} (P : session_state -> Prop) (m : script A) (k : A -> script B) :
  preserves P m -> (forall a, preserves P (k a)) -> preserves P (sbind m k).
Proof.
  intros Hm Hk s Hs. unfold sbind. specialize (Hm s Hs).
  destruct (m s) as [[a| |e] s']; cbn in *; [now apply Hk|exact Hm|exact Hm].
Qed.

Lemma preserves_modify (P : session_state -> Prop) (f : session_state -> session_state) :
  (forall s, P s -> P (f s)) -> preserves P (modify f).
Proof. intros H s Hs. now apply H. Qed.

Ltac preserves_step :=
  first [ apply readonly_preserves;
          first [apply readonly_ret | apply readonly_lift | apply readonly_get
                | apply readonly_rerun]
        | apply preserves_bind; [|intros ?]
        | match goal with
          | |- preserves _ (match ?x with _ => _ end) => destruct x
          | |- preserves _ (if ?x then _ else _) => destruct x
          end ].

Lemma render_preserves_session_ok now a :
  preserves session_ok (render_quiz_area now a).
Proof.
  unfold render_quiz_area, restart_button.
  repeat first
    [ preserves_step
    | apply preserves_modify; intros s' [Hi Hl]; split; cbn;
      [try lia; try assumption | try assumption; try now apply update_progress_ok] ].
Qed.

Lemma step_session_ok now a s : session_ok s -> session_ok (step now a s).
Proof. apply render_preserves_session_ok. Qed.

(** X10.  Whatever the learner clicks, and however each run of the page
    ends, the question index stays non-negative and the ledger stays sound:
    counters that agree with the history, no id recorded twice. *)
Theorem session_invariants (acts : list (pyfloat * action)) (s : session_state) :
  session_ok s -> session_ok (run acts s).
Proof.
  revert s. induction acts as [|[now a] acts IH]; intros s H; cbn; [exact H|].
  apply IH. now apply step_session_ok.
Qed.

Lemma preserves_rerun_bind {A B} (P : session_state -> Prop) (k : A -> script B) :
  preserves P (sbind st_rerun k).
Proof. intros s Hs. exact Hs. Qed.

(** X11.  Only a submit with a choice selected can change the ledger: a
    run of the page on any other action leaves the counters and the history
    as they were. *)
Theorem only_submit_changes_ledger (now : pyfloat) (a : action) (s : session_state) :
  (forall c, a <> ClickSubmit (Some c)) ->
  progress (step now a s) = progress s.
Proof.
  intros Ha.
  assert (H : preserves (fun s' => progress s' = progress s) (render_quiz_area now a)).
  { unfold render_quiz_area, restart_button.
    repeat first
      [ apply preserves_rerun_bind
      | match goal with
        | |- preserves _ (sbind (match ?x with _ => _ end) _) => destruct x
        end
      | exfalso; eapply Ha; reflexivity
      | preserves_step
      | apply preserves_modify; intros s' Hs'; cbn; exact Hs' ]. }
  now apply H.
Qed.

(** ** Submitting an answer *)

Lemma py_eq_as_int (c n : Z) (ans : value) :
  as_int ans = Some n -> py_eq (PyInt c) ans = (c =? n).
Proof.
  destruct ans; try discriminate; cbn; intros [= <-];
    unfold Qeq_bool; cbn; now rewrite !Z.mul_1_r.
Qed.

Lemma submit_outcome (d : dict) (l : list value) (item : value) (s : session_state)
  (c : Z) (now : pyfloat) (id ans : value) (n : Z) :
  assoc "items" d = Some (PyList l) ->
  playable_item item = true ->
  shows d l item s -> current_answered s = false ->
  py_getitem item "id" = Ok id ->
  py_getitem item "answer_index" = Ok ans ->
  as_int ans = Some n ->
  step now (ClickSubmit (Some c)) s =
  {| quiz := quiz s; quiz_idx := quiz_idx s;
     answers := answers_set id c (answers s);
     current_answered := true; current_revealed := false;
     progress := update_progress (progress s) id (c =? n) (difficulty s) now;
     difficulty := difficulty s |}.
Proof.
  intros Hitems Hplay Hs Hua Hid Hans Hn.
  destruct (playable_item_inv _ Hplay)
    as (di & q & id' & o0 & o1 & o2 & o3 & ans' & Hitem & Hq & Hid' & Hhash & Hopts
        & Hans' & n' & Hn' & Hr).
  subst item. cbn in Hid, Hans. rewrite Hid' in Hid. rewrite Hans' in Hans.
  injection Hid as <-. injection Hans as <-.
  rewrite (submit_step d l (PyDict di) di q id' o0 o1 o2 o3 ans' n') by (assumption || reflexivity).
  now rewrite (py_eq_as_int c n ans').
Qed.

(** X12.  Submitting choice [c] on an item whose id is not in the history
    appends one entry with that id, the current difficulty and the clock,
    marked correct exactly when [c] equals the answer index; the attempts go
    up by one, the correct answers by one when the choice is right, and the
    page stays on the item, now answered. *)
Theorem submit_grades_fresh_item (d : dict) (l : list value) (item : value)
  (s : session_state) (c : Z) (now : pyfloat) (id ans : value) (n : Z) :
  assoc "items" d = Some (PyList l) ->
  playable_item item = true ->
  shows d l item s -> current_answered s = false ->
  py_getitem item "id" = Ok id ->
  py_getitem item "answer_index" = Ok ans ->
  as_int ans = Some n ->
  recorded id (history (progress s)) = false ->
  let s' := step now (ClickSubmit (Some c)) s in
  history (progress s') = (history (progress s) ++ [mkEntry id (c =? n) (difficulty s) now])%list /\
  total_attempts (progress s') = total_attempts (progress s) + 1 /\
  total_correct (progress s') = total_correct (progress s) + (if c =? n then 1 else 0) /\
  current_answered s' = true /\ quiz_idx s' = quiz_idx s.
Proof.
  intros Hitems Hplay Hs Hua Hid Hans Hn Hrec. cbv zeta.
  rewrite (submit_outcome d l item s c now id ans n) by assumption.
  cbn [progress current_answered quiz_idx]. unfold update_progress. rewrite Hrec.
  cbn. destruct (c =? n); repeat split; lia.
Qed.

(** X13.  Submitting on an item whose id is already in the history, as
    when a quiz is taken again, stores the choice and marks the item answered
    but leaves the ledger untouched: the second attempt is not counted. *)
Theorem submit_of_recorded_id_not_counted (d : dict) (l : list value) (item : value)
  (s : session_state) (c : Z) (now : pyfloat) (id : value) :
  assoc "items" d = Some (PyList l) ->
  playable_item item = true ->
  shows d l item s -> current_answered s = false ->
  py_getitem item "id" = Ok id ->
  recorded id (history (progress s)) = true ->
  let s' := step now (ClickSubmit (Some c)) s in
  progress s' = progress s /\ current_answered s' = true /\
  answers s' = answers_set id c (answers s).
Proof.
  intros Hitems Hplay Hs Hua Hid Hrec. cbv zeta.
  destruct (playable_item_inv _ Hplay)
    as (di & q & id' & o0 & o1 & o2 & o3 & ans & Hitem & _ & _ & _ & _ & Hans & n & Hn & _).
  rewrite (submit_outcome d l item s c now id ans n); try assumption.
  - cbn. unfold update_progress. now rewrite Hrec.
  - subst item. cbn. now rewrite Hans.
Qed.

(** ** Sessions of any length *)

Lemma rounds_advance (d : dict) (l : list value) :
  assoc "items" d = Some (PyList l) ->
  forallb playable_item l = true ->
  forall (rounds : list (pyfloat * Z)) (k : nat) (s : session_state),
    Forall (fun r => 0 <= snd r < 4) rounds ->
    (List.length rounds + k = List.length l)%nat ->
    quiz s = Some (PyDict d) -> quiz_idx s = Z.of_nat k -> current_answered s = false ->
    let s' := run (flat_map round rounds) s in
    quiz s' = Some (PyDict d) /\ quiz_idx s' = Z.of_nat (List.length l) /\
    current_answered s' = false.
Proof.
  intros Hitems Hplay. induction rounds as [|[t c] rounds IH]; intros k s Hr Hlen Hq Hx Hua.
  - cbn in *. subst k. now repeat split.
  - cbn [flat_map]. cbv zeta. rewrite run_app.
    inversion Hr as [|r rs Hc Hr']; subst. cbn [snd] in Hc. cbn [List.length] in Hlen.
    assert (Hk : (k < List.length l)%nat) by lia.
    destruct (nth_error l k) as [item|] eqn:En;
      [|apply nth_error_None in En; lia].
    assert (Hp : playable_item item = true).
    { rewrite forallb_forall in Hplay. apply Hplay. eapply nth_error_In; eauto. }
    assert (Hs : shows d l item s).
    { repeat split; try assumption; rewrite Hx; try lia. now rewrite Nat2Z.id. }
    destruct (answer_cycle d l item s c t t t Hitems Hp Hs Hua Hc)
      as (Q1 & X1 & A1 & _).
    change [(t, ClickSubmit (Some c)); (t, ClickReveal); (t, ClickNext)]
      with (round (t, c)) in *.
    generalize dependent (run (round (t, c)) s). intros s1 Q1 X1 A1.
    apply (IH (S k) s1); try assumption; try congruence; try lia.
Qed.

(** X14.  A quiz of any number of playable items, answered item by item
    with submit, reveal, next, ends on the completion page with the index at
    the number of items; there every action but the restart leaves the
    session as it is. *)
Theorem session_of_any_length_completes (d : dict) (l : list value)
  (rounds : list (pyfloat * Z)) (s0 : session_state) :
  assoc "items" d = Some (PyList l) ->
  l <> [] ->
  forallb playable_item l = true ->
  List.length rounds = List.length l ->
  Forall (fun r => 0 <= snd r < 4) rounds ->
  quiz s0 = Some (PyDict d) -> quiz_idx s0 = 0 -> current_answered s0 = false ->
  let s := run (flat_map round rounds) s0 in
  phase_of s = Completed /\ quiz_idx s = Z.of_nat (List.length l) /\
  forall now a, a <> ClickRestart -> step now a s = s.
Proof.
  intros Hitems Hne Hplay Hlen Hr Hq Hx Hua. cbv zeta.
  destruct (rounds_advance d l Hitems Hplay rounds 0%nat s0 Hr ltac:(lia) Hq Hx Hua)
    as (Q & X & A).
  generalize dependent (run (flat_map round rounds) s0). intros s Q X A.
  assert (Hph : phase_of s = Completed).
  { unfold phase_of. rewrite Q, Hitems. destruct l as [|x l']; [congruence|].
    rewrite X. now rewrite Z.leb_refl. }
  split; [exact Hph|]. split; [exact X|].
  intros now a Ha. now apply completed_is_terminal.
Qed.

(** X15.  The explanation is optional: once an item is answered, the
    next button advances without a reveal; the index goes up by one, the two
    flags are cleared, and answers and ledger are as they were. *)
Theorem advance_without_reveal (d : dict) (l : list value) (item : value)
  (s : session_state) (c : Z) (now : pyfloat) (id : value) :
  assoc "items" d = Some (PyList l) ->
  playable_item item = true ->
  shows d l item s ->
  current_answered s = true -> current_revealed s = false ->
  py_getitem item "id" = Ok id ->
  answers_get id (answers s) = Some c -> 0 <= c < 4 ->
  step now ClickNext s =
  {| quiz := quiz s; quiz_idx := quiz_idx s + 1; answers := answers s;
     current_answered := false; current_revealed := false;
     progress := progress s; difficulty := difficulty s |}.
Proof.
  intros Hitems Hplay Hs Han Hrev Hid Hget Hc.
  destruct (playable_item_inv _ Hplay)
    as (di & q & id' & o0 & o1 & o2 & o3 & ans & Hitem & Hq & Hid' & Hhash & Hopts
        & Hans & n & Hn & Hr).
  assert (id' = id) as -> by (subst item; cbn in Hid; rewrite Hid' in Hid; congruence).
  destruct (page_reads d l item Hitems s Hs) as (P1 & P2 & P3 & P4 & P5).
  destruct (item_reads item di q id o0 o1 o2 o3 ans n Hitem Hq Hid' Hhash Hopts Hans Hn Hr)
    as (I1 & I2 & I3 & I4 & I5 & I6 & I7 & I8).
  destruct Hs as (Hquiz & _).
  unfold step, render_quiz_area. cbn [sbind get]. rewrite Hquiz, Han, Hrev.
  repeat (cbn [sbind lift ret get modify st_rerun Py.bind negb fst snd restart_button py_len
               quiz quiz_idx answers current_answered current_revealed progress difficulty];
          first [rewrite P1 | rewrite P2 | rewrite P3 | rewrite P4 | rewrite P5
                | rewrite I1 | rewrite I2 | rewrite I3 | rewrite I5
                | rewrite Hget | rewrite (I8 c Hc) ]).
  cbn [sbind lift ret get modify st_rerun Py.bind negb fst snd restart_button py_len
       quiz quiz_idx answers current_answered current_revealed progress difficulty].
  now rewrite Hquiz.
Qed.

(** ** Strings *)

Lemma rev_string_acc (s acc : string) :
  rev_string s acc = rev_string s "" ++ acc.
Proof.
  revert acc. induction s as [|c s IH]; intros acc; cbn; [reflexivity|].
  rewrite IH, (IH (String c "")). now rewrite append_assoc.
Qed.

Lemma append_empty_r (s : string) : s ++ "" = s.
Proof. induction s as [|c s IH]; cbn; [reflexivity|now rewrite IH]. Qed.

Lemma rev_string_app (a b : string) :
  rev_string (a ++ b) "" = rev_string b "" ++ rev_string a "".
Proof.
  induction a as [|c a IH]; cbn.
  - now rewrite append_empty_r.
  - rewrite rev_string_acc, IH, (rev_string_acc a (String c "")).
    now rewrite append_assoc.
Qed.

Lemma rev_string_involutive (s : string) : rev_string (rev_string s "") "" = s.
Proof.
  induction s as [|c s IH]; cbn; [reflexivity|].
  rewrite (rev_string_acc s (String c "")), rev_string_app, IH. reflexivity.
Qed.

Lemma lstrip_idempotent (s : string) : lstrip (lstrip s) = lstrip s.
Proof.
  induction s as [|c s IH]; cbn; [reflexivity|].
  destruct (is_space c) eqn:E; [exact IH|]. cbn. now rewrite E.
Qed.

Lemma rstrip_idempotent (s : string) : rstrip (rstrip s) = rstrip s.
Proof.
  unfold rstrip. now rewrite rev_string_involutive, lstrip_idempotent.
Qed.

Lemma lstrip_snoc (a : string) (c : ascii) :
  is_space c = false -> lstrip (a ++ String c "") = lstrip a ++ String c "".
Proof.
  intros Hc. induction a as [|x a IH]; cbn.
  - now rewrite Hc.
  - destruct (is_space x); [exact IH|reflexivity].
Qed.

(** Stripping on the right leaves a text that starts with a non-space as it
    starts. *)
Lemma lstrip_rstrip (t : string) : lstrip t = t -> lstrip (rstrip t) = rstrip t.
Proof.
  destruct t as [|c t]; [reflexivity|]. cbn [lstrip].
  destruct (is_space c) eqn:E.
  - intros H. exfalso.
    assert (Hlen : forall u, (String.length (lstrip u) <= String.length u)%nat).
    { induction u as [|x u IH]; cbn; [lia|]. destruct (is_space x); cbn; lia. }
    specialize (Hlen t). rewrite H in Hlen. cbn in Hlen. lia.
  - intros _. unfold rstrip. cbn [rev_string].
    rewrite (rev_string_acc t (String c "")), lstrip_snoc by exact E.
    rewrite rev_string_app. cbn. now rewrite E.
Qed.

Lemma strip_idempotent (s : string) : strip (strip s) = strip s.
Proof.
  unfold strip.
  rewrite (lstrip_rstrip (lstrip s)) by apply lstrip_idempotent.
  apply rstrip_idempotent.
Qed.

(** ** [load_prompts] *)

Lemma flush_ok sections current buf :
  Forall section_ok sections -> Forall section_ok (flush sections current buf).
Proof.
  intros H. destruct current as [[|c name]|]; cbn; try exact H.
  apply dict_set_Forall; [exact H|].
  split; [discriminate|]. eexists; split; [reflexivity|apply strip_idempotent].
Qed.

Lemma read_lines_ok lines sections current buf :
  Forall section_ok sections -> Forall section_ok (read_lines lines sections current buf).
Proof.
  revert sections current buf. induction lines as [|line rest IH]; intros; cbn.
  - now apply flush_ok.
  - destruct (is_header line); apply IH; [now apply flush_ok|assumption].
Qed.

(** X16.  Every section that [load_prompts] reads from a file has a
    non-empty name and a text with no white space at either end. *)
Theorem load_prompts_sections_clean (raw k : string) (v : value) :
  assoc k (load_prompts (Some raw)) = Some v ->
  k <> "" /\ exists t, v = PyStr t /\ strip t = t.
Proof.
  intros H. apply assoc_In in H.
  assert (Hok : Forall section_ok (load_prompts (Some raw)))
    by (apply read_lines_ok; constructor).
  rewrite Forall_forall in Hok. exact (Hok _ H).
Qed.

Lemma read_lines_no_header lines sections current buf :
  forallb (fun line => negb (is_header line)) lines = true ->
  read_lines lines sections current buf = flush sections current (buf ++ lines).
Proof.
  revert buf. induction lines as [|line rest IH]; intros buf H; cbn in *.
  - now rewrite app_nil_r.
  - apply andb_prop in H as [Hl H]. apply negb_true_iff in Hl. rewrite Hl.
    rewrite IH by exact H. now rewrite <- app_assoc.
Qed.

(** X17.  A file without any header line gives no section at all: the
    dictionary is empty, and none of the four names the app looks up is in
    it. *)
Theorem load_prompts_without_header (raw : string) :
  forallb (fun line => negb (is_header line)) (splitlines raw) = true ->
  load_prompts (Some raw) = [].
Proof.
  intros H. unfold load_prompts. now rewrite read_lines_no_header.
Qed.

Lemma read_lines_last_section before h body sections current buf c name :
  is_header h = true ->
  header_name h = String c name ->
  forallb (fun line => negb (is_header line)) body = true ->
  assoc (String c name) (read_lines (before ++ h :: body) sections current buf)
  = Some (PyStr (strip (join newline body))).
Proof.
  intros Hh Hn Hb. revert sections current buf.
  induction before as [|x before IH]; intros sections current buf; cbn.
  - rewrite Hh, read_lines_no_header by exact Hb. rewrite Hn. cbn.
    apply assoc_set_eq.
  - destruct (is_header x); apply IH.
Qed.

(** X18.  The lines after the last header, joined by newlines and
    stripped, are the text stored under that header's name, whatever comes
    before it in the file, a section of the same name included. *)
Theorem load_prompts_last_section (raw : string) (before body : list string)
  (h : string) :
  splitlines raw = (before ++ h :: body)%list ->
  is_header h = true ->
  header_name h <> "" ->
  forallb (fun line => negb (is_header line)) body = true ->
  assoc (header_name h) (load_prompts (Some raw))
  = Some (PyStr (strip (join newline body))).
Proof.
  intros Hs Hh Hn Hb. unfold load_prompts. rewrite Hs.
  destruct (header_name h) as [|c name] eqn:E; [congruence|].
  now apply read_lines_last_section.
Qed.

(** ** [gen_chat_response] *)

Lemma last_n_length {A} (n : nat) (l : list A) :
  List.length (last_n n l) = Nat.min n (List.length l).
Proof. unfold last_n. rewrite length_skipn. lia. Qed.

Lemma last_n_suffix {A} (n : nat) (l : list A) :
  l = (firstn (List.length l - n) l ++ last_n n l)%list.
Proof. unfold last_n. now rewrite firstn_skipn. Qed.

Lemma history_content_role (m : chat_message) :
  c_role (history_content m) = "user" \/ c_role (history_content m) = "model".
Proof.
  unfold history_content. destruct (String.eqb (msg_role m) "user"); cbn; auto.
Qed.

(** X19.  What [gen_chat_response] sends: the context files, if there are
    any, as one leading "user" content with one part per file; then the last
    twelve messages of the history at most, in their order, each as one text
    part.  Every content has role "user" or "model" (any role other than
    "user" is sent as "model"), and there are never more than thirteen. *)
Theorem chat_contents_shape (messages : list chat_message) (files : list file_ref) :
  exists older latest,
    messages = (older ++ latest)%list /\
    List.length latest = Nat.min 12 (List.length messages) /\
    chat_contents messages files =
      (match files with
       | [] => []
       | _ => [mkContent "user" (file_parts files)]
       end ++ map history_content latest)%list /\
    Forall (fun c => c_role c = "user" \/ c_role c = "model") (chat_contents messages files) /\
    (List.length (chat_contents messages files) <= 13)%nat.
Proof.
  exists (firstn (List.length messages - 12) messages), (last_n 12 messages).
  split; [apply last_n_suffix|]. split; [apply last_n_length|].
  assert (Heq : chat_contents messages files =
                (match files with
                 | [] => []
                 | _ => [mkContent "user" (file_parts files)]
                 end ++ map history_content (last_n 12 messages))%list)
    by (unfold chat_contents; now destruct files).
  split; [exact Heq|]. rewrite Heq. split.
  - apply Forall_app. split.
    + destruct files; constructor; [now left|constructor].
    + apply Forall_forall. intros c Hc. apply in_map_iff in Hc as (m & <- & _).
      apply history_content_role.
  - rewrite length_app, length_map, last_n_length.
    pose proof (Nat.le_min_l 12 (List.length messages)).
    destruct files; cbn [List.length]; lia.
Qed.

(** ** [show_progress] *)

(** X20.  Right after an answer with a new id is recorded, the summary is
    shown, it has five lines at most, one for each of the latest entries,
    and its last line is the line of the answer just recorded. *)
Theorem recent_summary_after_recording (prog : ledger) (qid : value) (correct : bool)
  (level : string) (now : pyfloat) :
  recorded qid (history prog) = false ->
  exists lines,
    recent_summary (update_progress prog qid correct level now) = Some lines /\
    List.length lines = Nat.min 5 (List.length (history prog) + 1) /\
    last lines "" = summary_line (mkEntry qid correct level now).
Proof.
  intros Hrec. unfold update_progress. rewrite Hrec.
  unfold recent_summary. cbn [history].
  set (x := mkEntry qid correct level now).
  destruct (history prog ++ [x])%list as [|h0 t0] eqn:E;
    [now destruct (history prog)|]. rewrite <- E. clear E h0 t0.
  eexists. split; [reflexivity|]. split.
  - rewrite length_map, last_n_length, length_app. cbn. reflexivity.
  - unfold last_n. rewrite skipn_app, length_app. cbn [List.length].
    replace (List.length (history prog) + 1 - 5 - List.length (history prog))%nat
      with 0%nat by lia.
    cbn [skipn]. rewrite map_app. cbn [map]. apply last_last.
Qed.

(** ** The version guard *)

Lemma split_from_piece (sep : ascii) (a cur r : string) :
  has_char sep a = false ->
  split_from sep cur (a ++ String sep r) = (rev_string cur "" ++ a) :: split_from sep "" r.
Proof.
  revert cur. induction a as [|c a IH]; intros cur Ha; cbn in *.
  - rewrite Ascii.eqb_refl. now rewrite append_empty_r.
  - apply orb_false_elim in Ha as [Hc Ha]. rewrite Hc, IH by exact Ha.
    cbn [rev_string]. rewrite (rev_string_acc cur (String c "")).
    now rewrite append_assoc.
Qed.

Lemma split_from_last (sep : ascii) (a cur : string) :
  has_char sep a = false ->
  split_from sep cur a = [rev_string cur "" ++ a].
Proof.
  revert cur. induction a as [|c a IH]; intros cur Ha; cbn in *.
  - now rewrite append_empty_r.
  - apply orb_false_elim in Ha as [Hc Ha]. rewrite Hc, IH by exact Ha.
    cbn [rev_string]. rewrite (rev_string_acc cur (String c "")).
    now rewrite append_assoc.
Qed.

Lemma parse_ver_two (py_int : string -> option Z) (a b : string) :
  has_char "." a = false -> has_char "." b = false ->
  _parse_ver py_int (a ++ "." ++ b)
  = match py_int a, py_int b with
    | Some major, Some minor => (major, minor)
    | _, _ => (0, 0)
    end.
Proof.
  intros Ha Hb. unfold _parse_ver, split. cbn [append].
  rewrite (split_from_piece "." a "") by exact Ha.
  rewrite (split_from_last "." b "") by exact Hb.
  cbn [rev_string append]. destruct (py_int a); [|reflexivity]. now destruct (py_int b).
Qed.

Lemma parse_ver_more (py_int : string -> option Z) (a b rest : string) :
  has_char "." a = false -> has_char "." b = false ->
  _parse_ver py_int (a ++ "." ++ b ++ "." ++ rest) = _parse_ver py_int (a ++ "." ++ b).
Proof.
  intros Ha Hb. unfold _parse_ver, split. cbn [append].
  rewrite !(split_from_piece "." a "") by exact Ha.
  rewrite (split_from_piece "." b "") by exact Hb.
  rewrite (split_from_last "." b "") by exact Hb.
  reflexivity.
Qed.

(** X21.  [_parse_ver] reads the first two dot-separated pieces only:
    whatever follows the second dot changes nothing; the result is the pair
    of the two numbers when both pieces are numerals and (0, 0) as soon as
    one of them is not; a version without a dot has minor 0. *)
Theorem parse_ver_reads_two_components (py_int : string -> option Z)
  (a b rest : string) :
  has_char "." a = false -> has_char "." b = false ->
  _parse_ver py_int (a ++ "." ++ b ++ "." ++ rest) = _parse_ver py_int (a ++ "." ++ b) /\
  _parse_ver py_int (a ++ "." ++ b)
    = match py_int a, py_int b with
      | Some major, Some minor => (major, minor)
      | _, _ => (0, 0)
      end /\
  _parse_ver py_int a
    = match py_int a with Some major => (major, 0) | None => (0, 0) end.
Proof.
  intros Ha Hb. split; [now apply parse_ver_more|]. split; [now apply parse_ver_two|].
  unfold _parse_ver, split. rewrite (split_from_last "." a "") by exact Ha.
  cbn [rev_string append]. now destruct (py_int a).
Qed.

(** X22.  The guard of line 28 lets the app start exactly when the first
    two pieces of the SDK version are numerals, the first at least 1, and
    the second not negative when the first is 1; a version it cannot read
    stops the app like one that is too old. *)
Theorem sdk_guard_decision (py_int : string -> option Z) (a b rest : string) :
  has_char "." a = false -> has_char "." b = false ->
  sdk_too_old py_int (a ++ "." ++ b ++ "." ++ rest) = false <->
  exists major minor,
    py_int a = Some major /\ py_int b = Some minor /\
    (1 < major \/ (major = 1 /\ 0 <= minor)).
Proof.
  intros Ha Hb. unfold sdk_too_old.
  rewrite parse_ver_more, parse_ver_two by assumption.
  unfold pair_lt. split.
  - destruct (py_int a) as [major|]; [|discriminate].
    destruct (py_int b) as [minor|]; [|discriminate].
    cbn [fst snd]. intros H. exists major, minor. split; [reflexivity|].
    split; [reflexivity|]. lia.
  - intros (major & minor & -> & -> & H). cbn [fst snd]. lia.
Qed.

(** ** The MIME type of an upload *)

Lemma declared_mime_nonempty (file_name : string) (browser_type : option string) :
  declared_mime file_name browser_type <> "".
Proof.
  unfold declared_mime, or_else.
  repeat match goal with
         | |- context [if ?b then _ else _] => destruct b
         end; try discriminate.
  destruct browser_type as [[|c t]|]; discriminate.
Qed.

(** X23.  The MIME type stored with a file uploaded from the sidebar is
    never empty: it is the type the SDK reports when that is not empty, and
    otherwise the type [main] worked out from the browser's type and the file
    name.  The guess from the file name and the default in
    [upload_to_gemini] are never reached from [main]. *)
Theorem stored_mime_never_empty (file_name : string)
  (browser_type sdk_mime guessed : option string) :
  stored_mime file_name sdk_mime (Some (declared_mime file_name browser_type)) guessed
    = Some (match sdk_mime with
            | Some (String c t) => String c t
            | _ => declared_mime file_name browser_type
            end) /\
  stored_mime file_name sdk_mime (Some (declared_mime file_name browser_type)) guessed
    <> Some "".
Proof.
  pose proof (declared_mime_nonempty file_name browser_type) as Hne.
  unfold stored_mime, or_else.
  destruct sdk_mime as [[|c t]|]; destruct (declared_mime file_name browser_type);
    try congruence; split; congruence.
Qed.

(** ** [render_chat_area] *)

(** X24.  A question typed in the chat always adds two messages to the
    history, the learner's and then an assistant's, also when the call of the
    model fails: the reply is then the error text.  The contents sent for it
    always end with the learner's new question, as a "user" content whose
    text is the question after "Siswa: ".  Without a question the history is
    left as it is. *)
Theorem chat_turn_appends_two (generate : list chat_content -> option string + string)
  (messages : list chat_message) (files : list file_ref) (c : ascii) (text : string) :
  (exists reply,
     render_chat_area generate messages files (Some (String c text))
     = (messages ++ [mkMessage "user" (String c text); mkMessage "assistant" reply])%list /\
     reply = match generate (chat_contents (messages ++ [mkMessage "user" (String c text)])
                               files) with
             | inl (Some t) => t
             | inl None => ""
             | inr e => "Terjadi error saat memanggil model: " ++ e
             end) /\
  last (chat_contents (messages ++ [mkMessage "user" (String c text)]) files)
       (mkContent "" [])
  = mkContent "user" [PartText ("Siswa: " ++ String c text)] /\
  render_chat_area generate messages files None = messages /\
  render_chat_area generate messages files (Some "") = messages.
Proof.
  split; [|split; [|split; reflexivity]].
  - eexists. split.
    + unfold render_chat_area. rewrite <- app_assoc. reflexivity.
    + unfold gen_chat_response. now destruct (generate _) as [[t|]|e].
  - unfold chat_contents, last_n. rewrite skipn_app, length_app. cbn [List.length].
    replace (List.length messages + 1 - 12 - List.length messages)%nat with 0%nat by lia.
    cbn [skipn]. rewrite map_app, app_assoc. cbn [map]. rewrite last_last. reflexivity.
Qed.

(** ** [ensure_state] and [reset_all] *)

Lemma assoc_fill (defs s : dict) (k : string) :
  assoc k (Reset.fill defs s)
  = match assoc k s with Some v => Some v | None => assoc k defs end.
Proof.
  unfold Reset.fill. revert s. induction defs as [|[k0 v0] defs IH]; intros s; cbn.
  - now destruct (assoc k s).
  - rewrite IH. unfold dict_mem.
    destruct (String.eqb_spec k0 k) as [->|Hne].
    + destruct (assoc k s) eqn:E; [now rewrite E|]. now rewrite assoc_set_eq.
    + destruct (assoc k0 s) eqn:E0; [reflexivity|].
      rewrite assoc_set_neq by congruence. reflexivity.
Qed.

(** X25.  [ensure_state] never overwrites: every key the session holds
    keeps its value, and each key of the defaults that is missing gets its
    default.  Running it again changes nothing. *)
Theorem ensure_state_fills_missing (s : dict) :
  (forall k, assoc k (Reset.ensure_state s)
             = match assoc k s with
               | Some v => Some v
               | None => assoc k Reset.defaults
               end) /\
  (forall k, assoc k (Reset.ensure_state (Reset.ensure_state s))
             = assoc k (Reset.ensure_state s)).
Proof.
  split; intros k; unfold Reset.ensure_state; rewrite !assoc_fill.
  - reflexivity.
  - now destruct (assoc k s); [|destruct (assoc k Reset.defaults)].
Qed.

(** X26.  [reset_all] puts every key of the defaults back to its default,
    except [api_key] and [client]: these two, like every key that is not a
    default, keep the value they have, so the learner stays signed in while
    files, chat, quiz and progress are cleared. *)
Theorem reset_all_restores_defaults (s : dict) (k : string) :
  (In k (map fst Reset.defaults) -> k <> "api_key" -> k <> "client" ->
   assoc k (Reset.reset_all s) = assoc k Reset.defaults) /\
  (k = "api_key" \/ k = "client" \/ ~ In k (map fst Reset.defaults) ->
   assoc k (Reset.reset_all s) = assoc k s).
Proof.
  split.
  - intros Hin Hk1 Hk2. cbn in Hin.
    repeat (destruct Hin as [<-|Hin]; [try congruence|]); [..|contradiction];
      unfold Reset.reset_all;
      repeat (rewrite assoc_set_neq by discriminate); now rewrite assoc_set_eq.
  - intros H. unfold Reset.reset_all.
    repeat (rewrite assoc_set_neq;
            [|destruct H as [->|[->|H]]; [discriminate|discriminate|
               intros ->; apply H; cbn; tauto]]).
    reflexivity.
Qed.

(** ** The further theorems at sample inputs *)

Ltac distinct_keys :=
  repeat (constructor; [cbn; intuition discriminate|]); constructor.

(** X1 on [fenced_response], read by the ASCII decoder. *)
Lemma gen_quiz_output_schema_witness :
  exists q,
    gen_quiz Json.loads "easy" "" fenced_response = Ok q /\
    py_getitem q "topic" = Ok (PyStr "sums") /\
    normalized_quiz q = true.
Proof.
  eexists. split; [vm_compute; reflexivity|]. split; [reflexivity|].
  refine (gen_quiz_output_schema Json.loads "easy" "" fenced_response _
            loads_well_formed _).
  vm_compute; reflexivity.
Defined.

(** X2 on two items that bring no id. *)
Lemma normalize_idempotent_witness :
  well_formed two_plain_items /\
  exists q,
    normalize "easy" "" two_plain_items = Ok q /\
    normalize "hard" "another topic" q = Ok q.
Proof.
  assert (H : well_formed two_plain_items).
  { cbn. repeat split; distinct_keys. }
  split; [exact H|].
  eexists. split; [reflexivity|].
  exact (normalize_idempotent "easy" "" "hard" "another topic" two_plain_items _ H eq_refl).
Defined.

(** X3 on [aliased_quiz]. *)
Lemma top_level_aliases_win_witness :
  exists q,
    normalize "easy" "" (PyDict aliased_quiz) = Ok q /\
    py_getitem q "topic" = Ok (PyStr "sums") /\
    List.length (quiz_items q) = 2%nat.
Proof.
  eexists. split; [reflexivity|].
  destruct (top_level_aliases_win "easy" "" aliased_quiz _ eq_refl) as [H1 H2].
  split; [exact (H1 _ eq_refl)|].
  exact (proj2 (H2 _ eq_refl)).
Defined.

(** X4 on a quiz that names neither topic nor level. *)
Lemma topic_and_level_defaults_witness :
  exists q,
    normalize "hard" "  Fractions  " (PyDict [("items", PyList [good_item])]) = Ok q /\
    py_getitem q "topic" = Ok (PyStr "Fractions") /\
    py_getitem q "level" = Ok (PyStr "hard").
Proof.
  eexists. split; [reflexivity|].
  exact (topic_and_level_defaults "hard" "  Fractions  " [("items", PyList [good_item])]
           _ eq_refl eq_refl).
Defined.

(** X6 on [aliased_item]. *)
Lemma item_aliases_override_witness :
  exists item',
    normalize_item 0 (PyDict aliased_item) = Ok item' /\
    py_getitem item' "question" = Ok (PyStr "2 + 2 = ?") /\
    py_getitem item' "id" = Ok (PyStr "q7") /\
    exists k, In (upper (strip " b "), k) [("A", 0); ("B", 1); ("C", 2); ("D", 3)] /\
              py_getitem item' "answer_index" = Ok (PyInt k).
Proof.
  eexists. split; [reflexivity|].
  destruct (item_aliases_override 0 aliased_item _ eq_refl) as (H1 & H2 & H3).
  split; [exact (H1 _ eq_refl)|].
  split; [exact (H2 _ eq_refl)|].
  exact (H3 _ eq_refl).
Defined.

(** X7 on [lettered_options_item]. *)
Lemma options_dict_read_by_letter_witness :
  exists item',
    normalize_item 0 (PyDict lettered_options_item) = Ok item' /\
    py_getitem item' "options" = Ok (PyList [PyStr "3"; PyStr "4"; PyStr ""; PyStr "6"]).
Proof.
  eexists. split; [reflexivity|].
  exact (proj2 (options_dict_read_by_letter 0 lettered_options_item lettered_options eq_refl)
           _ eq_refl).
Defined.

(** X9 on [one_right_one_wrong]. *)
Lemma wrong_ids_count_witness :
  consistent one_right_one_wrong /\
  wrong_ids one_right_one_wrong = [PyStr "q2"] /\
  Z.of_nat (List.length (wrong_ids one_right_one_wrong))
  = total_attempts one_right_one_wrong - total_correct one_right_one_wrong.
Proof.
  assert (H : consistent one_right_one_wrong) by (split; reflexivity).
  split; [exact H|]. split; [reflexivity|].
  exact (proj1 (wrong_ids_count one_right_one_wrong H)).
Defined.

(** X10 on the session that has just been given [canonical_example]. *)
Lemma session_invariants_witness :
  session_ok started /\
  session_ok (run [(noon, ClickSubmit (Some 1)); (noon, ClickNext);
                   (noon, ClickSubmit None); (noon, ClickRestart)] started).
Proof.
  assert (H : session_ok started).
  { split; [cbn; lia|]. repeat split; cbn; lia. }
  split; [exact H|].
  exact (session_invariants _ started H).
Defined.

(** X11 on the reveal button. *)
Lemma only_submit_changes_ledger_witness :
  progress (step noon ClickReveal answered) = progress answered.
Proof.
  refine (only_submit_changes_ledger noon ClickReveal answered _).
  intros c H. discriminate H.
Defined.

(** X12 on the first item of [canonical_example], answered with B. *)
Lemma submit_grades_fresh_item_witness :
  history (progress (step noon (ClickSubmit (Some 1)) started))
    = [mkEntry (PyStr "q1") true "easy" noon] /\
  total_attempts (progress (step noon (ClickSubmit (Some 1)) started)) = 1 /\
  total_correct (progress (step noon (ClickSubmit (Some 1)) started)) = 1.
Proof.
  assert (Hs : shows canonical_example_dict
                 [canonical_example_item "q1" 1; canonical_example_item "q2" 0;
                  canonical_example_item "q3" 3]
                 (canonical_example_item "q1" 1) started).
  { split; [reflexivity|]. split; [cbn; lia|reflexivity]. }
  destruct (submit_grades_fresh_item canonical_example_dict _
              (canonical_example_item "q1" 1) started 1 noon (PyStr "q1") (PyInt 1) 1
              eq_refl eq_refl Hs eq_refl eq_refl eq_refl eq_refl eq_refl)
    as (H1 & H2 & H3 & _).
  split; [exact H1|]. split; [exact H2|exact H3].
Defined.

(** X13 on [retake], where q1 is in the history already. *)
Lemma submit_of_recorded_id_not_counted_witness :
  recorded (PyStr "q1") (history (progress retake)) = true /\
  progress (step noon (ClickSubmit (Some 0)) retake) = progress retake /\
  answers (step noon (ClickSubmit (Some 0)) retake) = [(PyStr "q1", 0)].
Proof.
  assert (Hs : shows canonical_example_dict
                 [canonical_example_item "q1" 1; canonical_example_item "q2" 0;
                  canonical_example_item "q3" 3]
                 (canonical_example_item "q1" 1) retake).
  { split; [reflexivity|]. split; [cbn; lia|reflexivity]. }
  split; [reflexivity|].
  destruct (submit_of_recorded_id_not_counted canonical_example_dict _
              (canonical_example_item "q1" 1) retake 0 noon (PyStr "q1")
              eq_refl eq_refl Hs eq_refl eq_refl eq_refl)
    as (H1 & _ & H3).
  split; [exact H1|exact H3].
Defined.

(** X14 on [canonical_example], answered B, A, D. *)
Lemma session_of_any_length_completes_witness :
  phase_of (run (flat_map round [(noon, 1); (noon, 0); (noon, 3)]) started) = Completed /\
  quiz_idx (run (flat_map round [(noon, 1); (noon, 0); (noon, 3)]) started) = 3.
Proof.
  destruct (session_of_any_length_completes canonical_example_dict
              [canonical_example_item "q1" 1; canonical_example_item "q2" 0;
               canonical_example_item "q3" 3]
              [(noon, 1); (noon, 0); (noon, 3)] started
              eq_refl ltac:(discriminate) eq_refl eq_refl
              ltac:(repeat constructor; cbn; lia)
              eq_refl eq_refl eq_refl) as (H1 & H2 & _).
  split; [exact H1|exact H2].
Defined.

(** X15 on [answered]. *)
Lemma advance_without_reveal_witness :
  current_revealed answered = false /\
  quiz_idx (step noon ClickNext answered) = 1 /\
  current_answered (step noon ClickNext answered) = false /\
  progress (step noon ClickNext answered) = progress answered.
Proof.
  assert (Hs : shows canonical_example_dict
                 [canonical_example_item "q1" 1; canonical_example_item "q2" 0;
                  canonical_example_item "q3" 3]
                 (canonical_example_item "q1" 1) answered).
  { split; [reflexivity|]. split; [cbn; lia|reflexivity]. }
  split; [reflexivity|].
  rewrite (advance_without_reveal canonical_example_dict _
             (canonical_example_item "q1" 1) answered 1 noon (PyStr "q1")
             eq_refl eq_refl Hs eq_refl eq_refl eq_refl eq_refl ltac:(lia)).
  split; [reflexivity|]. split; reflexivity.
Defined.

(** X16 on [prompt_file]. *)
Lemma load_prompts_sections_clean_witness :
  assoc "SYSTEM_ROLE" (load_prompts (Some prompt_file)) = Some (PyStr "Be brief.") /\
  "SYSTEM_ROLE" <> "" /\
  exists t, PyStr "Be brief." = PyStr t /\ strip t = t.
Proof.
  split; [reflexivity|].
  exact (load_prompts_sections_clean prompt_file "SYSTEM_ROLE" (PyStr "Be brief.") eq_refl).
Defined.

(** X17 on a file of two lines without header. *)
Lemma load_prompts_without_header_witness :
  load_prompts (Some ("Be brief." ++ newline ++ "Be kind.")) = [].
Proof.
  exact (load_prompts_without_header ("Be brief." ++ newline ++ "Be kind.") eq_refl).
Defined.

(** X18 on [prompt_file]. *)
Lemma load_prompts_last_section_witness :
  assoc "QUIZ" (load_prompts (Some prompt_file))
  = Some (PyStr ("Four options." ++ newline ++ "One answer.")).
Proof.
  exact (load_prompts_last_section prompt_file
           ["notes"; "[SYSTEM_ROLE]"; "  Be brief.  "; ""]
           ["Four options."; "One answer."] " [QUIZ] "
           eq_refl eq_refl ltac:(discriminate) eq_refl).
Defined.

(** X20 on the first answer of a session. *)
Lemma recent_summary_after_recording_witness :
  exists lines,
    recent_summary (update_progress empty_ledger (PyStr "q1") false "hard" noon)
      = Some lines /\
    List.length lines = 1%nat /\
    last lines "" = summary_line (mkEntry (PyStr "q1") false "hard" noon).
Proof.
  exact (recent_summary_after_recording empty_ledger (PyStr "q1") false "hard" noon eq_refl).
Defined.

(** X21 on version 1.38.0. *)
Lemma parse_ver_reads_two_components_witness :
  _parse_ver decimal_int "1.38.0" = _parse_ver decimal_int "1.38" /\
  _parse_ver decimal_int "1.38" = (1, 38) /\
  _parse_ver decimal_int "1" = (1, 0).
Proof.
  exact (parse_ver_reads_two_components decimal_int "1" "38" "0" eq_refl eq_refl).
Defined.

(** X22 on versions 1.38.0 and 0.8.5. *)
Lemma sdk_guard_decision_witness :
  sdk_too_old decimal_int "1.38.0" = false /\
  sdk_too_old decimal_int "0.8.5" = true.
Proof.
  split.
  - apply (proj2 (sdk_guard_decision decimal_int "1" "38" "0" eq_refl eq_refl)).
    exists 1, 38. split; [reflexivity|]. split; [reflexivity|]. right. lia.
  - reflexivity.
Defined.

(** X26 on a session in the middle of a quiz. *)
Lemma reset_all_restores_defaults_witness :
  assoc "quiz_idx" (Reset.reset_all [("api_key", PyStr "key"); ("quiz_idx", PyInt 2)])
    = Some (PyInt 0) /\
  assoc "api_key" (Reset.reset_all [("api_key", PyStr "key"); ("quiz_idx", PyInt 2)])
    = Some (PyStr "key").
Proof.
  split.
  - refine (proj1 (reset_all_restores_defaults
                     [("api_key", PyStr "key"); ("quiz_idx", PyInt 2)] "quiz_idx") _ _ _).
    + cbn. tauto.
    + discriminate.
    + discriminate.
  - exact (proj2 (reset_all_restores_defaults
                    [("api_key", PyStr "key"); ("quiz_idx", PyInt 2)] "api_key")
             (or_introl eq_refl)).
Defined.
